(** * Water-rocket telemetry link: command records, receive paths,
      flight-state machine, cadence gates and sensor fusion.

    The development follows the firmware sources:
    - [Foguete/include/Structs.h]  (wire records, [ControlCommand])
    - [Foguete/src/main.cpp]       (flight unit v1.2: sampling, fusion, sending)
    - the v1.1 flight-unit firmware (SD logging and the command receive path)
    - [src/main.cpp]               (ground unit: [LaunchCommand], telemetry
                                    receive path)

    Conventions.  [unsigned long], [uint32_t], [uint16_t] and [uint8_t] are
    integers in [Z] whose wrap-around is written out.  A byte is a
    [Byte.byte].  The target is the ESP32: little-endian, 32-bit
    [unsigned long], 4-byte enumerations.  A [float] or [double] is modelled
    by the real number it approximates: rounding is not modelled.  The
    readings of the motion sensor keep the sign of a zero, which [atan2]
    tells apart. *)

From Stdlib Require Import ZArith List String Ascii Bool Lia.
From Stdlib.Strings Require Import Byte.
From Stdlib Require DecimalString DecimalN DecimalPos DecimalFacts.
From Stdlib Require Import Reals Lra.
Import ListNotations.

Local Open Scope Z_scope.

(** ** Fixed-width integers and bytes *)

Definition u8 (v : Z) : Z := v mod 2 ^ 8.
Definition u32 (v : Z) : Z := v mod 2 ^ 32.

Definition byte_val (b : byte) : Z := Z.of_N (Byte.to_N b).

Definition byte_of_Z (v : Z) : byte :=
  match Byte.of_N (Z.to_N (u8 v)) with
  | Some b => b
  | None => x00
  end.

(** Object representation of an [n]-byte little-endian integer. *)
Fixpoint le_bytes (n : nat) (v : Z) : list byte :=
  match n with
  | O => []
  | S n' => byte_of_Z v :: le_bytes n' (Z.shiftr v 8)
  end.

Fixpoint le_value (bs : list byte) : Z :=
  match bs with
  | [] => 0
  | b :: bs' => byte_val b + 2 ^ 8 * le_value bs'
  end.

(** [uint8_t sum = 0; for (...) sum += data[i];] *)
Definition sum_bytes (bs : list byte) : Z :=
  fold_left (fun sum b => u8 (sum + byte_val b)) bs 0.

(** The plain sum of the byte values, before any truncation. *)
Definition byte_total (bs : list byte) : Z :=
  fold_right (fun b acc => byte_val b + acc) 0 bs.

(** The buffer [bs] with the byte at offset [i] replaced by [b]. *)
Definition flip_byte (i : nat) (b : byte) (bs : list byte) : list byte :=
  firstn i bs ++ b :: skipn (S i) bs.

(** ** Foguete/include/Structs.h: command records *)

(** [enum CommandType]; the object holds any 32-bit pattern after [memcpy]. *)
Definition CommandType := Z.
Definition NO_COMMAND : CommandType := 0.
Definition START_FLIGHT : CommandType := 1.
Definition END_FLIGHT : CommandType := 2.
Definition ABORT_MISSION : CommandType := 3.
Definition RESET_SYSTEM : CommandType := 4.

Module ControlCommand.

(** [struct ControlCommand]: the enumeration at offset 0, [timestamp] at
    4, [sequenceId] at 8, [checksum] at 10 and one byte of tail padding
    at 11, [sizeof(ControlCommand) == 12] by the [static_assert]. *)
Record t : Type := mk {
  type : CommandType;
  timestamp : Z;
  sequenceId : Z;
  checksum : byte;
  padding : byte
}.

Definition sizeof : Z := 12.
Definition sizeof_checksum : Z := 1.

(** The bytes [reinterpret_cast<const uint8_t*>(this)] walks over. *)
Definition object_bytes (c : t) : list byte :=
  le_bytes 4 (type c) ++ le_bytes 4 (timestamp c) ++
  le_bytes 2 (sequenceId c) ++ [checksum c; padding c].

(** [memcpy(&command, incomingData, sizeof(ControlCommand))]. *)
Definition memcpy (incomingData : list byte) : t :=
  {| type := le_value (firstn 4 incomingData);
     timestamp := le_value (firstn 4 (skipn 4 incomingData));
     sequenceId := le_value (firstn 2 (skipn 8 incomingData));
     checksum := nth 10 incomingData x00;
     padding := nth 11 incomingData x00 |}.

(** [for (size_t i = 0; i < sizeof(ControlCommand) - sizeof(checksum); ++i)
      sum += data[i];] *)
Definition calculateChecksum (c : t) : Z :=
  sum_bytes (firstn (Z.to_nat (sizeof - sizeof_checksum)) (object_bytes c)).

Definition isValid (c : t) : bool :=
  byte_val (checksum c) =? calculateChecksum c.

(** The bytes that precede the checksum field in the record. *)
Definition preceding_bytes (c : t) : list byte :=
  firstn 10 (object_bytes c).

End ControlCommand.

Module LaunchCommand.

(** [struct LaunchCommand] of the ground unit (src/main.cpp): the record
    it fills and broadcasts. *)
Record t : Type := mk {
  type : CommandType;
  timestamp : Z;
  sequenceId : Z;
  checksum : Z
}.

(** [uint8_t sum = static_cast<uint8_t>(type) + (timestamp & 0xFF) + ...] *)
Definition calculateChecksum (c : t) : Z :=
  u8 (u8 (type c)
      + Z.land (timestamp c) 255
      + Z.land (Z.shiftr (timestamp c) 8) 255
      + Z.land (Z.shiftr (timestamp c) 16) 255
      + Z.land (Z.shiftr (timestamp c) 24) 255
      + Z.land (sequenceId c) 255
      + Z.land (Z.shiftr (sequenceId c) 8) 255).

End LaunchCommand.

(** The checksum in the words of the specification: the sum modulo 256 of
    the command-kind byte, the four timestamp bytes and the two
    sequence-identifier bytes. *)
Definition spec_checksum (c : ControlCommand.t) : Z :=
  (byte_val (byte_of_Z (ControlCommand.type c))
   + byte_total (le_bytes 4 (ControlCommand.timestamp c))
   + byte_total (le_bytes 2 (ControlCommand.sequenceId c))) mod 256.

(** ** Foguete/include/Structs.h: telemetry record *)

Module AcelerometerData.
Record t : Type := mk {
  accX : R; accY : R; accZ : R;
  gyroX : R; gyroY : R; gyroZ : R;
  temp : R;
  pitch : R; roll : R
}.
Definition zero : t := mk 0 0 0 0 0 0 0 0 0.
Definition sizeof : Z := 9 * 4.
End AcelerometerData.

Module AltimeterData.
Record t : Type := mk { pressure : R; altitude : R }.
Definition zero : t := mk 0 0.
Definition sizeof : Z := 2 * 4.
End AltimeterData.

Module VoltageData.
Record t : Type := mk { voltage_base : R; voltage_rocket : R }.
Definition zero : t := mk 0 0.
Definition sizeof : Z := 2 * 4.
End VoltageData.

Module GPSData.
Record t : Type := mk {
  latitude : R; longitude : R; altitude : R;
  day : Z; month : Z; year : Z;
  hour : Z; minute : Z; second : Z
}.
Definition zero : t := mk 0 0 0 0 0 0 0 0 0.
Definition sizeof : Z := 3 * 4 + 6 * 4.
End GPSData.

Module SensorData.
Record t : Type := mk {
  acelerometro : AcelerometerData.t;
  altimetro : AltimeterData.t;
  tensao : VoltageData.t;
  gps : GPSData.t;
  timestamp : R
}.

(** [SensorData sensorData = {};] *)
Definition zero : t :=
  mk AcelerometerData.zero AltimeterData.zero VoltageData.zero
     GPSData.zero 0.

(** [#pragma pack(push, 1)]: no padding between the fields. *)
Definition sizeof : Z :=
  AcelerometerData.sizeof + AltimeterData.sizeof + VoltageData.sizeof
  + GPSData.sizeof + 4.

Definition set_acelerometro (v : AcelerometerData.t) (d : t) : t :=
  mk v (altimetro d) (tensao d) (gps d) (timestamp d).
Definition set_altimetro (v : AltimeterData.t) (d : t) : t :=
  mk (acelerometro d) v (tensao d) (gps d) (timestamp d).
Definition set_voltage_rocket (v : R) (d : t) : t :=
  mk (acelerometro d) (altimetro d)
     (VoltageData.mk (VoltageData.voltage_base (tensao d)) v)
     (gps d) (timestamp d).
Definition set_gps (v : GPSData.t) (d : t) : t :=
  mk (acelerometro d) (altimetro d) (tensao d) v (timestamp d).
Definition set_timestamp (v : R) (d : t) : t :=
  mk (acelerometro d) (altimetro d) (tensao d) (gps d) v.
End SensorData.

(** ** Config.h and the constants of main.cpp *)

Module Config.
Module Hardware.
Definition BAUD_RATE : Z := 115200.
Definition ADC_PIN : Z := 13.
Definition ADC_MULTIPLIER : R := 2.0.
End Hardware.
Module EspNow.
Definition CHANNEL : Z := 1.
Definition broadcastAddress : list byte :=
  [x2b; xbc; xbb; x4b; xe4; xbd].
End EspNow.
End Config.

Definition SENSOR_READ_INTERVAL : Z := 100.
Definition TRANSMISSION_INTERVAL : Z := 500.
Definition COMPLEMENTARY_FILTER_ALPHA : R := 0.98.
Definition VREF : R := 3.3.

(** The macros of the Arduino core header that main.cpp uses. *)
Module Arduino.
Definition PI : R := 3.1415926535897932384626433832795.
Definition RAD_TO_DEG : R := 57.295779513082320876798154814105.
End Arduino.

(** A [float] as the firmware handles it: the real number it approximates
    and, when that number is zero, the sign of the zero.  IEEE 754 keeps
    [+0.0] and [-0.0] apart and [atan2] tells them apart; for a value
    other than zero [minus_zero] carries no information. *)
Record float : Type := mk_float { val :> R; minus_zero : bool }.

(** The result of an operation that cannot give [-0.0] (a square root
    of a sum of squares, a reading written as a plain number). *)
Definition fl (r : R) : float := mk_float r false.

(** Unary minus: it flips the sign of a zero as well. *)
Definition fneg (f : float) : float :=
  mk_float (- f) (negb (minus_zero f)).

(** [atan2] of the C library, with its values at the zeros (C99 F.9.1.4):
    [atan2(+-0, x<0) = +-pi], [atan2(+-0, x>0) = +-0],
    [atan2(+-0, -0) = +-pi], [atan2(+-0, +0) = +-0],
    [atan2(y<0, +-0) = -pi/2] and [atan2(y>0, +-0) = pi/2]. *)
Definition atan2 (y x : float) : R :=
  if Rlt_dec 0 x then atan (y / x)
  else if Rlt_dec x 0 then
    (if Rlt_dec 0 y then atan (y / x) + Rtrigo1.PI
     else if Rlt_dec y 0 then atan (y / x) - Rtrigo1.PI
     else if minus_zero y then - Rtrigo1.PI else Rtrigo1.PI)
  else if Rlt_dec 0 y then Rtrigo1.PI / 2
  else if Rlt_dec y 0 then - (Rtrigo1.PI / 2)
  else if minus_zero x
       then (if minus_zero y then - Rtrigo1.PI else Rtrigo1.PI)
       else 0.

(** ** The world outside the firmware *)

(** [esp_err_t], as far as the firmware tells its values apart. *)
Inductive esp_err_t : Type :=
| ESP_OK
| ESP_ERR_ESPNOW_NOT_INIT
| ESP_ERR_ESPNOW_ARG
| ESP_ERR_ESPNOW_NO_MEM
| ESP_ERR_other (code : Z).

Definition is_ESP_OK (e : esp_err_t) : bool :=
  match e with ESP_OK => true | _ => false end.

Record esp_now_peer_info_t : Type := mk_peer {
  peer_addr : list byte;
  channel : Z;
  encrypt : bool
}.

(** [sensors_event_t] vectors of the MPU6050 driver: three [float]s. *)
Record vec3 : Type := mk_float3 { x : float; y : float; z : float }.

(** A vector given by three numbers, a zero among them being [+0.0]. *)
Definition mk_vec3 (x y z : R) : vec3 := mk_float3 (fl x) (fl y) (fl z).

(** Arguments of a [printf]. *)
Inductive arg : Type :=
| ArgZ (v : Z)
| ArgR (v : R)
| ArgS (v : string).

(** Calls into the Arduino core, the drivers and the ESP-NOW stack, indexed
    by the type of what they return.  String literals are kept as the
    source writes them. *)
Inductive io : Type -> Type :=
| Millis : io Z
| Delay (ms : Z) : io unit
| AnalogRead (pin : Z) : io Z
| SerialPrintln (s : string) : io unit
| SerialPrintf (fmt : string) (args : list arg) : io unit
| MpuGetEvent : io (vec3 * vec3 * R)
| BmpReadPressure : io R
| BmpReadAltitude (seaLevelhPa : R) : io R
| GpsLocationLat : io R
| GpsLocationLng : io R
| GpsAltitudeMeters : io R
| GpsDateYear : io Z
| GpsDateMonth : io Z
| GpsDateDay : io Z
| GpsTimeHour : io Z
| GpsTimeMinute : io Z
| GpsTimeSecond : io Z
| WiFiModeSta : io unit
| EspNowInit : io esp_err_t
| EspNowRegisterSendCb : io esp_err_t
| EspNowIsPeerExist (addr : list byte) : io bool
| EspNowAddPeer (peer : esp_now_peer_info_t) : io esp_err_t
| EspNowSend (addr : list byte) (data : SensorData.t) (len : Z)
    : io esp_err_t
| SdOpen (path : string) : io bool
| FilePrintln (path : string) (line : string) : io unit
| FilePrintf (path : string) (fmt : string) (args : list arg) : io unit
| FileClose (path : string) : io unit.

(** A firmware function: a finite tree of calls.  [Halt] is
    [ESP.restart()]: the device resets and control does not come back. *)
Inductive script (A : Type) : Type :=
| Ret (a : A)
| Vis (R : Type) (e : io R) (k : R -> script A)
| Halt.

Arguments Ret {A} a.
Arguments Vis {A R} e k.
Arguments Halt {A}.

Fixpoint bind {A B : Type} (p : script A) (f : A -> script B) : script B :=
  match p with
  | Ret a => f a
  | Vis e k => Vis e (fun r => bind (k r) f)
  | Halt => Halt
  end.

Definition call {R : Type} (e : io R) : script R := Vis e Ret.

Declare Scope script_scope.
Delimit Scope script_scope with script.
Notation "x <- p ;; q" := (bind p (fun x => q))
  (at level 61, p at next level, right associativity) : script_scope.
Notation "p ;; q" := (bind p (fun _ => q))
  (at level 61, right associativity) : script_scope.
Notation "' pat <- p ;; q" := (bind p (fun x => match x with pat => q end))
  (at level 61, pat pattern, p at next level, right associativity)
  : script_scope.
Local Open Scope script_scope.

(** [millis()] returns an [unsigned long]. *)
Definition millis : script Z := t <- call Millis ;; Ret (u32 t).

(** One observed call together with what the world answered. *)
Inductive event : Type :=
| Ev (R : Type) (e : io R) (r : R).
Arguments Ev {R} e r.

Inductive outcome (A : Type) : Type :=
| Done (a : A)
| Rebooted.
Arguments Done {A} a.
Arguments Rebooted {A}.

Section Run.
(** Any world: a state of its own and an answer to every call. *)
Variable W : Type.
Variable respond : forall R : Type, io R -> W -> R * W.

Fixpoint run {A : Type} (p : script A) (w : W)
  : list event * outcome A * W :=
  match p with
  | Ret a => ([], Done a, w)
  | Vis e k =>
      let (r, w') := respond _ e w in
      let '(tr, o, w'') := run (k r) w' in
      (Ev e r :: tr, o, w'')
  | Halt => ([], Rebooted, w)
  end.

Definition trace_of {A : Type} (p : script A) (w : W) : list event :=
  fst (fst (run p w)).
Definition outcome_of {A : Type} (p : script A) (w : W) : outcome A :=
  snd (fst (run p w)).
End Run.

Arguments run {W} respond {A} p w.
Arguments trace_of {W} respond {A} p w.
Arguments outcome_of {W} respond {A} p w.

Definition world_after {W : Type} (respond : forall R : Type, io R -> W -> R * W)
    {A : Type} (p : script A) (w : W) : W :=
  snd (run respond p w).

(** ** Foguete/src/main.cpp: the flight unit, firmware v1.2 *)

Module Rocket.

(** The globals of main.cpp and the function-local [static] of
    [updateSensorData]. *)
Record State : Type := mkState {
  lastSensorReadTime : Z;
  lastTransmissionTime : Z;
  pitch : R;
  roll : R;
  sensorData : SensorData.t;
  lastUpdateTime : Z
}.

Definition initial : State :=
  mkState 0 0 0 0 SensorData.zero 0.

Definition set_lastSensorReadTime (v : Z) (s : State) : State :=
  mkState v (lastTransmissionTime s) (pitch s) (roll s) (sensorData s)
          (lastUpdateTime s).
Definition set_lastTransmissionTime (v : Z) (s : State) : State :=
  mkState (lastSensorReadTime s) v (pitch s) (roll s) (sensorData s)
          (lastUpdateTime s).
Definition set_angles (p r : R) (s : State) : State :=
  mkState (lastSensorReadTime s) (lastTransmissionTime s) p r
          (sensorData s) (lastUpdateTime s).
Definition set_sensorData (d : SensorData.t) (s : State) : State :=
  mkState (lastSensorReadTime s) (lastTransmissionTime s) (pitch s)
          (roll s) d (lastUpdateTime s).
Definition set_lastUpdateTime (v : Z) (s : State) : State :=
  mkState (lastSensorReadTime s) (lastTransmissionTime s) (pitch s)
          (roll s) (sensorData s) v.

Definition broadcastPeer : esp_now_peer_info_t :=
  mk_peer Config.EspNow.broadcastAddress Config.EspNow.CHANNEL false.

Definition setupEspNow : script unit :=
  call WiFiModeSta ;;
  r <- call EspNowInit ;;
  if negb (is_ESP_OK r) then
    call (SerialPrintln "Falha na inicializacao do ESP-NOW") ;;
    Halt
  else
    call EspNowRegisterSendCb ;;
    r' <- call (EspNowAddPeer broadcastPeer) ;;
    if negb (is_ESP_OK r') then
      call (SerialPrintln "Falha ao adicionar peer")
    else Ret tt.

(** The voltage divider reading, written on every call. *)
Definition tensaoReal (leituraADC : Z) : R :=
  let tensaoPino := (IZR leituraADC / 4095.0 * VREF)%R in
  (tensaoPino * Config.Hardware.ADC_MULTIPLIER)%R.

Definition accPitch (a : vec3) : R :=
  (atan2 (y a) (fl (sqrt (x a ^ 2 + z a ^ 2))) * 180.0 / Arduino.PI)%R.
Definition accRoll (a : vec3) : R :=
  (atan2 (fneg (x a)) (z a) * 180.0 / Arduino.PI)%R.

Definition updateSensorData (s : State) : script State :=
  currentTime <- millis ;;
  leituraADC <- call (AnalogRead Config.Hardware.ADC_PIN) ;;
  let s := set_sensorData
             (SensorData.set_voltage_rocket (tensaoReal leituraADC)
                (sensorData s)) s in
  if u32 (currentTime - lastSensorReadTime s) <? SENSOR_READ_INTERVAL
  then Ret s
  else
    let s := set_lastSensorReadTime currentTime s in
    ' (a, g, temp) <- call MpuGetEvent ;;
    if lastUpdateTime s =? 0 then
      Ret (set_lastUpdateTime currentTime s)
    else
      let dt := (IZR (u32 (currentTime - lastUpdateTime s)) / 1000.0)%R in
      let s := set_lastUpdateTime currentTime s in
      let pitch' :=
        (COMPLEMENTARY_FILTER_ALPHA
           * (pitch s + x g * dt * Arduino.RAD_TO_DEG)
         + (1 - COMPLEMENTARY_FILTER_ALPHA) * accPitch a)%R in
      let roll' :=
        (COMPLEMENTARY_FILTER_ALPHA
           * (roll s + y g * dt * Arduino.RAD_TO_DEG)
         + (1 - COMPLEMENTARY_FILTER_ALPHA) * accRoll a)%R in
      let s := set_angles pitch' roll' s in
      let s := set_sensorData
                 (SensorData.set_acelerometro
                    (AcelerometerData.mk (x a) (y a) (z a)
                       (x g) (y g) (z g) temp pitch' roll')
                    (sensorData s)) s in
      pressure <- call BmpReadPressure ;;
      altitude <- call (BmpReadAltitude 1013.25) ;;
      let s := set_sensorData
                 (SensorData.set_altimetro
                    (AltimeterData.mk (pressure / 100.0) altitude)
                    (sensorData s)) s in
      let s := set_sensorData
                 (SensorData.set_timestamp (IZR currentTime)
                    (sensorData s)) s in
      lat <- call GpsLocationLat ;;
      lng <- call GpsLocationLng ;;
      meters <- call GpsAltitudeMeters ;;
      year <- call GpsDateYear ;;
      month <- call GpsDateMonth ;;
      day <- call GpsDateDay ;;
      hour <- call GpsTimeHour ;;
      minute <- call GpsTimeMinute ;;
      second <- call GpsTimeSecond ;;
      (* positional initialisation of {latitude, longitude, altitude,
         day, month, year, hour, minute, second} *)
      Ret (set_sensorData
             (SensorData.set_gps
                (GPSData.mk lat lng meters year month day
                   hour minute second)
                (sensorData s)) s).

Definition handleCommunicationErrors (result : esp_err_t) : script unit :=
  match result with
  | ESP_OK => call (SerialPrintln "ENVIADO com sucesso")
  | ESP_ERR_ESPNOW_NOT_INIT =>
      call (SerialPrintln "ESP-NOW nao inicializado") ;;
      setupEspNow
  | ESP_ERR_ESPNOW_ARG => call (SerialPrintln "Argumento invalido")
  | ESP_ERR_ESPNOW_NO_MEM => call (SerialPrintln "Sem memoria")
  | ESP_ERR_other code =>
      call (SerialPrintf "Erro desconhecido: %d\n" [ArgZ code])
  end.

Definition sendSensorData (s : State) : script State :=
  result <- call (EspNowSend Config.EspNow.broadcastAddress
                    (sensorData s) SensorData.sizeof) ;;
  handleCommunicationErrors result ;;
  Ret s.

Definition transmitData (s : State) : script State :=
  currentTime <- millis ;;
  if u32 (currentTime - lastTransmissionTime s) <? TRANSMISSION_INTERVAL
  then Ret s
  else
    let s := set_lastTransmissionTime currentTime s in
    known <- call (EspNowIsPeerExist Config.EspNow.broadcastAddress) ;;
    if negb known then
      r <- call (EspNowAddPeer broadcastPeer) ;;
      if negb (is_ESP_OK r) then
        call (SerialPrintln "Falha ao adicionar peer para transmissão") ;;
        Ret s
      else sendSensorData s
    else sendSensorData s.

Definition debugPrintData (s : State) : script unit :=
  let d := sensorData s in
  let m := SensorData.acelerometro d in
  call (SerialPrintln "===== TELEMETRIA =====") ;;
  call (SerialPrintf "Aceleracao: X=%.2f, Y=%.2f, Z=%.2f m/s²\n"
          [ArgR (AcelerometerData.accX m); ArgR (AcelerometerData.accY m);
           ArgR (AcelerometerData.accZ m)]) ;;
  call (SerialPrintf "Giroscopio: X=%.2f, Y=%.2f, Z=%.2f rad/s\n"
          [ArgR (AcelerometerData.gyroX m); ArgR (AcelerometerData.gyroY m);
           ArgR (AcelerometerData.gyroZ m)]) ;;
  call (SerialPrintf "Orientacao: Pitch=%.2f°, Roll=%.2f°\n"
          [ArgR (AcelerometerData.pitch m);
           ArgR (AcelerometerData.roll m)]) ;;
  call (SerialPrintf "Temperatura: %.2f °C\n"
          [ArgR (AcelerometerData.temp m)]) ;;
  call (SerialPrintf "Pressao: %.2f hPa\n"
          [ArgR (AltimeterData.pressure (SensorData.altimetro d))]) ;;
  call (SerialPrintf "Altitude: %.2f m\n"
          [ArgR (AltimeterData.altitude (SensorData.altimetro d))]) ;;
  call (SerialPrintf "Timestamp: %lu ms\n"
          [ArgR (SensorData.timestamp d)]) ;;
  call (SerialPrintln "====================\n").

Definition loop (s : State) : script State :=
  s <- updateSensorData s ;;
  s <- transmitData s ;;
  debugPrintData s ;;
  call (Delay 100) ;;
  Ret s.

End Rocket.

(** ** Formatting helpers of [snprintf] *)

Definition decimal (v : Z) : string :=
  DecimalString.NilZero.string_of_uint (N.to_uint (Z.to_N v)).

Fixpoint zeros (n : nat) : string :=
  match n with
  | O => EmptyString
  | S n' => String "0"%char (zeros n')
  end.

(** ["%06lu"] *)
Definition decimal_06 (v : Z) : string :=
  let d := decimal v in
  (zeros (6 - String.length d) ++ d)%string.

Definition hex_digit (v : Z) : Ascii.ascii :=
  match String.get (Z.to_nat v) "0123456789ABCDEF" with
  | Some c => c
  | None => "F"%char
  end.

(** ["%02X"] *)
Definition hex_02X (b : byte) : string :=
  String (hex_digit (byte_val b / 16))
    (String (hex_digit (byte_val b mod 16)) EmptyString).

(** ["%02X:%02X:%02X:%02X:%02X:%02X"] *)
Definition format_mac (mac : list byte) : string :=
  (hex_02X (nth 0 mac x00) ++ ":" ++ hex_02X (nth 1 mac x00) ++ ":"
   ++ hex_02X (nth 2 mac x00) ++ ":" ++ hex_02X (nth 3 mac x00) ++ ":"
   ++ hex_02X (nth 4 mac x00) ++ ":" ++ hex_02X (nth 5 mac x00))%string.

(** ** The flight unit, firmware v1.1: SD logging and command reception *)

Inductive FlightState : Type :=
| GROUND_STATE
| PRE_FLIGHT
| FLIGHT_ACTIVE
| POST_FLIGHT.

Definition FlightState_eqb (a b : FlightState) : bool :=
  match a, b with
  | GROUND_STATE, GROUND_STATE => true
  | PRE_FLIGHT, PRE_FLIGHT => true
  | FLIGHT_ACTIVE, FLIGHT_ACTIVE => true
  | POST_FLIGHT, POST_FLIGHT => true
  | _, _ => false
  end.

Module FlightLog.

(** The flight-state globals of the v1.1 firmware. *)
Record State : Type := mkState {
  currentFlightState : FlightState;
  currentLogFilename : string;
  sdReady : bool;
  isFlightLogging : bool;
  flightStartTime : Z
}.

(** The initial values of the globals; [setup()] of this firmware leaves
    them alone (its SD card initialisation is commented out). *)
Definition initial : State :=
  mkState GROUND_STATE EmptyString false false 0.

Definition set_currentLogFilename (v : string) (s : State) : State :=
  mkState (currentFlightState s) v (sdReady s) (isFlightLogging s)
          (flightStartTime s).

Definition CSV_HEADER : string :=
  "Timestamp,AccX,AccY,AccZ,GyroX,GyroY,GyroZ,Temp,Pitch,Roll,Pressao(hPa),Altitude(m)".

Definition generateLogFilename : script string :=
  now <- millis ;;
  let timestamp := now / 1000 in
  Ret ("/flight_log_" ++ decimal_06 timestamp ++ ".csv")%string.

Definition startNewFlightLog (s : State) : script State :=
  if negb (sdReady s) then
    call (SerialPrintln "Cartão SD não está pronto!") ;;
    Ret s
  else
    name <- generateLogFilename ;;
    let s := set_currentLogFilename name s in
    file <- call (SdOpen (currentLogFilename s)) ;;
    if (file : bool) then
      call (FilePrintln (currentLogFilename s) CSV_HEADER) ;;
      call (FileClose (currentLogFilename s)) ;;
      now <- millis ;;
      let s := mkState FLIGHT_ACTIVE (currentLogFilename s) (sdReady s)
                       true now in
      call (SerialPrintln
              ("Novo log de voo iniciado: " ++ currentLogFilename s)) ;;
      Ret s
    else
      call (SerialPrintln "Erro ao criar arquivo de log de voo.") ;;
      Ret s.

Definition endFlightLog (s : State) : script State :=
  if negb (isFlightLogging s) then Ret s
  else
    let s := mkState POST_FLIGHT (currentLogFilename s) (sdReady s)
                     false (flightStartTime s) in
    now <- millis ;;
    let flightDuration := u32 (now - flightStartTime s) / 1000 in
    file <- call (SdOpen (currentLogFilename s)) ;;
    (if (file : bool) then
       call (FilePrintln (currentLogFilename s) "# FIM DO VOO") ;;
       call (FilePrintf (currentLogFilename s)
               "# Duração do Voo: %lu segundos\n" [ArgZ flightDuration]) ;;
       call (FileClose (currentLogFilename s))
     else Ret tt) ;;
    call (SerialPrintf "Voo finalizado. Duração: %lu segundos\n"
            [ArgZ flightDuration]) ;;
    Ret (set_currentLogFilename EmptyString s).

(** The receive callback registered with [esp_now_register_recv_cb]. *)
Definition onEspNowReceive (mac incomingData : list byte) (len : Z)
    (s : State) : script State :=
  if len =? ControlCommand.sizeof then
    let command := ControlCommand.memcpy incomingData in
    if ControlCommand.type command =? START_FLIGHT then
      if FlightState_eqb (currentFlightState s) GROUND_STATE
      then startNewFlightLog s
      else Ret s
    else if ControlCommand.type command =? END_FLIGHT then
      if FlightState_eqb (currentFlightState s) FLIGHT_ACTIVE
      then endFlightLog s
      else Ret s
    else
      call (SerialPrintln "Comando não reconhecido") ;;
      Ret s
  else Ret s.

End FlightLog.

(** ** src/main.cpp: the ground unit's telemetry receive path *)

Module Base.

(** [dadosRecebidos] is kept as its object representation: the ground
    unit only copies bytes into it. *)
Record State : Type := mkState {
  dadosRecebidos : list byte;
  dadosAtualizados : bool
}.

(** [SensorData dadosRecebidos = {0}; volatile bool dadosAtualizados =
    false;] *)
Definition initial : State :=
  mkState (repeat x00 (Z.to_nat SensorData.sizeof)) false.

Definition onEspNowReceive (src_addr incomingData : list byte) (len : Z)
    (s : State) : script State :=
  if negb (len =? SensorData.sizeof) then
    call (SerialPrintf "Tamanho de dados inválido. Esperado: %d, Recebido: %d\n"
            [ArgZ SensorData.sizeof; ArgZ len]) ;;
    Ret s
  else
    let macStr := format_mac src_addr in
    let s := mkState (firstn (Z.to_nat SensorData.sizeof) incomingData)
                     (dadosAtualizados s) in
    let s := mkState (dadosRecebidos s) true in
    call (SerialPrintln "Dados recebidos:") ;;
    call (SerialPrintf "MAC: %s\n" [ArgS macStr]) ;;
    call (SerialPrintln "-----------") ;;
    Ret s.

End Base.

(** ** A bench world with scripted answers *)

Record Bench : Type := mkBench {
  bench_clock : list Z;          (* successive answers of [millis()] *)
  bench_adc : Z;
  bench_mpu : vec3 * vec3 * R;
  bench_pressure : R;
  bench_altitude : R;
  bench_peer_known : bool;
  bench_add_peer : esp_err_t;
  bench_send : esp_err_t;
  bench_init : esp_err_t;
  bench_sd_open : bool
}.

Definition bench_respond (R : Type) (e : io R) (w : Bench) : R * Bench :=
  match e in io R return R * Bench with
  | Millis =>
      (hd 0 (bench_clock w),
       mkBench (tl (bench_clock w)) (bench_adc w) (bench_mpu w)
               (bench_pressure w) (bench_altitude w) (bench_peer_known w)
               (bench_add_peer w) (bench_send w) (bench_init w)
               (bench_sd_open w))
  | Delay _ => (tt, w)
  | AnalogRead _ => (bench_adc w, w)
  | SerialPrintln _ => (tt, w)
  | SerialPrintf _ _ => (tt, w)
  | MpuGetEvent => (bench_mpu w, w)
  | BmpReadPressure => (bench_pressure w, w)
  | BmpReadAltitude _ => (bench_altitude w, w)
  | GpsLocationLat => (0%R, w)
  | GpsLocationLng => (0%R, w)
  | GpsAltitudeMeters => (0%R, w)
  | GpsDateYear => (2000, w)
  | GpsDateMonth => (0, w)
  | GpsDateDay => (0, w)
  | GpsTimeHour => (0, w)
  | GpsTimeMinute => (0, w)
  | GpsTimeSecond => (0, w)
  | WiFiModeSta => (tt, w)
  | EspNowInit => (bench_init w, w)
  | EspNowRegisterSendCb => (ESP_OK, w)
  | EspNowIsPeerExist _ => (bench_peer_known w, w)
  | EspNowAddPeer _ => (bench_add_peer w, w)
  | EspNowSend _ _ _ => (bench_send w, w)
  | SdOpen _ => (bench_sd_open w, w)
  | FilePrintln _ _ => (tt, w)
  | FilePrintf _ _ _ => (tt, w)
  | FileClose _ => (tt, w)
  end.

Definition bench (clock : list Z) : Bench :=
  mkBench clock 0 (mk_vec3 0 0 0, mk_vec3 0 0 0, 0%R) 0 0
          true ESP_OK ESP_OK ESP_OK true.

(** ** Observations on runs *)

(** The world [w] answers the call [e] with [r] and moves on to [w']. *)
Definition answers {W : Type} (respond : forall R : Type, io R -> W -> R * W)
    {R : Type} (w : W) (e : io R) (r : R) (w' : W) : Prop :=
  respond R e w = (r, w').

(** The records handed to [esp_now_send], in order. *)
Definition sent_payload (ev : event) : list SensorData.t :=
  match ev with
  | Ev e _ => match e with EspNowSend _ d _ => [d] | _ => [] end
  end.
Definition sent_payloads (tr : list event) : list SensorData.t :=
  flat_map sent_payload tr.

(** A sample was taken: the motion sensor was read. *)
Definition is_sensor_read (ev : event) : bool :=
  match ev with
  | Ev e _ => match e with MpuGetEvent => true | _ => false end
  end.

(** A transmission was attempted: the ESP-NOW peer table was consulted. *)
Definition is_peer_query (ev : event) : bool :=
  match ev with
  | Ev e _ => match e with EspNowIsPeerExist _ => true | _ => false end
  end.

(** A logging session was begun: the CSV header went into a new file. *)
Definition is_header_write (ev : event) : bool :=
  match ev with
  | Ev e _ =>
      match e with
      | FilePrintln _ line => String.eqb line FlightLog.CSV_HEADER
      | _ => false
      end
  end.
Definition sessions_begun (tr : list event) : nat :=
  List.length (filter is_header_write tr).

(** The raw answers of [millis()], in order. *)
Definition clock_reading (ev : event) : list Z :=
  match ev with
  | Ev e r =>
      match e in io R return R -> list Z with
      | Millis => fun t => [t]
      | _ => fun _ => []
      end r
  end.
Definition clock_readings (tr : list event) : list Z :=
  flat_map clock_reading tr.

(** [SD.open] handed back a usable file. *)
Definition is_sd_opened (ev : event) : bool :=
  match ev with
  | Ev e r =>
      match e in io R return R -> bool with
      | SdOpen _ => fun ok => ok
      | _ => fun _ => false
      end r
  end.
Definition sd_opened (tr : list event) : bool := existsb is_sd_opened tr.

(** A telemetry record whose every field but the flight-unit voltage is
    zero. *)
Definition zero_but_voltage (d : SensorData.t) : Prop :=
  d = SensorData.set_voltage_rocket
        (VoltageData.voltage_rocket (SensorData.tensao d)) SensorData.zero.

(** The flight-state globals agree: logging is on exactly in
    [FLIGHT_ACTIVE]. *)
Definition coherent (s : FlightLog.State) : Prop :=
  FlightLog.isFlightLogging s = true
  <-> FlightLog.currentFlightState s = FLIGHT_ACTIVE.


(** What may follow a call of [esp_now_send] that answered [res], by the
    error taxonomy of the link: the events [tail] after the send and the
    outcome [o] of the tick, [s1] being the state at the send. *)
Definition after_send (res : esp_err_t) (tail : list event)
    (o : outcome Rocket.State) (s1 : Rocket.State) : Prop :=
  match res with
  | ESP_OK =>
      tail = [Ev (SerialPrintln "ENVIADO com sucesso") tt] /\ o = Done s1
  | ESP_ERR_ESPNOW_NOT_INIT =>
      exists ri : esp_err_t,
        if is_ESP_OK ri then
          exists rc ra : esp_err_t,
            tail = Ev (SerialPrintln "ESP-NOW nao inicializado") tt
                   :: Ev WiFiModeSta tt
                   :: Ev EspNowInit ri
                   :: Ev EspNowRegisterSendCb rc
                   :: Ev (EspNowAddPeer Rocket.broadcastPeer) ra
                   :: (if is_ESP_OK ra then []
                       else [Ev (SerialPrintln "Falha ao adicionar peer") tt])
            /\ o = Done s1
        else
          tail = [Ev (SerialPrintln "ESP-NOW nao inicializado") tt;
                  Ev WiFiModeSta tt;
                  Ev EspNowInit ri;
                  Ev (SerialPrintln "Falha na inicializacao do ESP-NOW") tt]
          /\ o = Rebooted
  | ESP_ERR_ESPNOW_ARG =>
      tail = [Ev (SerialPrintln "Argumento invalido") tt] /\ o = Done s1
  | ESP_ERR_ESPNOW_NO_MEM =>
      tail = [Ev (SerialPrintln "Sem memoria") tt] /\ o = Done s1
  | ESP_ERR_other code =>
      tail = [Ev (SerialPrintf "Erro desconhecido: %d\n" [ArgZ code]) tt]
      /\ o = Done s1
  end.

(** The state [s] with the flight-unit voltage of the record rewritten
    from the ADC reading [adc]. *)
Definition with_voltage (adc : Z) (s : Rocket.State) : Rocket.State :=
  Rocket.set_sensorData
    (SensorData.set_voltage_rocket (Rocket.tensaoReal adc)
       (Rocket.sensorData s)) s.

(** The state the bench uses for a sample taken after the warm-up tick:
    last sample and last fusion at 1000 ms, angles at zero. *)
Definition warmed_up : Rocket.State :=
  Rocket.mkState 1000 0 0 0 SensorData.zero 1000.

(** A state whose last sample and last transmission were taken 50 ms
    before the millisecond counter wraps around. *)
Definition before_wrap : Rocket.State :=
  Rocket.mkState (2 ^ 32 - 50) (2 ^ 32 - 50) 0 0 SensorData.zero 0.

(** Bench worlds for the link: clock, whether the peer is known, and the
    answers of [esp_now_add_peer], [esp_now_send] and [esp_now_init]. *)
Definition bench_link (clock : list Z) (known : bool)
    (add send init : esp_err_t) : Bench :=
  mkBench clock 0 (mk_vec3 0 0 0, mk_vec3 0 0 0, 0%R) 0 0
          known add send init true.

(** Bench worlds for the sampling step: clock, ADC reading, motion. *)
Definition bench_sampling (clock : list Z) (adc : Z) (a g : vec3) : Bench :=
  mkBench clock adc (a, g, 0%R) 0 0 true ESP_OK ESP_OK ESP_OK true.

(** A sequence of deliveries to the command callback, each with its
    sender address, buffer and reported length. *)
Fixpoint receive_all (deliveries : list (list byte * list byte * Z))
    (s : FlightLog.State) : script FlightLog.State :=
  match deliveries with
  | [] => Ret s
  | (mac, incomingData, len) :: rest =>
      s' <- FlightLog.onEspNowReceive mac incomingData len s ;;
      receive_all rest s'
  end.

(** ** Sample command buffers *)

(** start-flight, timestamp 255, sequence 0: the checksum byte 0 is the
    specified sum (256 mod 256), and the validator accepts it too. *)
Definition start_packet : list byte :=
  [x01; x00; x00; x00; xff; x00; x00; x00; x00; x00; x00; x00].

(** end-flight, timestamp 254, sequence 0, checksum 0. *)
Definition end_packet : list byte :=
  [x02; x00; x00; x00; xfe; x00; x00; x00; x00; x00; x00; x00].

(** start-flight, timestamp 0, sequence 0, with a checksum byte (0x55)
    that is neither the specified sum nor accepted by the validator. *)
Definition corrupt_start_packet : list byte :=
  [x01; x00; x00; x00; x00; x00; x00; x00; x00; x00; x55; x00].

(** end-flight with the same wrong checksum byte. *)
Definition corrupt_end_packet : list byte :=
  [x02; x00; x00; x00; x00; x00; x00; x00; x00; x00; x55; x00].

(** The flight-state globals as they would be with the SD card
    initialised. *)
Definition ground_sd_ready : FlightLog.State :=
  FlightLog.mkState GROUND_STATE EmptyString true false 0.

(** The globals after a flight was started at [millis() == 0]. *)
Definition flying_since_0 : FlightLog.State :=
  FlightLog.mkState FLIGHT_ACTIVE "/flight_log_000000.csv" true true 0.

(** * The rest of the firmware *)

Definition u16 (v : Z) : Z := v mod 2 ^ 16.

(** ** src/main.cpp: the ground unit sends a command *)

Module Ground.

(** [Config::EspNow] of the ground unit (Base/include/Config.h). *)
Definition broadcastAddress : list byte := [x10; x06; x1c; x69; xc1; x44].
Definition CHANNEL : Z := 1.

(** The globals [sendFlightCommand] works on:
    [uint16_t nextSequenceId = 0; esp_now_peer_info_t peerInfo = {};] *)
Record State : Type := mkState {
  nextSequenceId : Z;
  peerInfo : esp_now_peer_info_t
}.

Definition initial : State :=
  mkState 0 (mk_peer (repeat x00 6) 0 false).

(** What the world hands to one call of [sendFlightCommand]. *)
Record Answers : Type := mkAnswers {
  peer_exists : bool;     (* esp_now_is_peer_exist *)
  add_peer : esp_err_t;   (* esp_now_add_peer, when it is called *)
  clock : Z;              (* millis() *)
  tail_padding : byte;    (* the padding byte of the local [cmd], never written *)
  send : esp_err_t        (* esp_now_send *)
}.

Inductive serial : Type :=
| Println (line : string)
| PrintfSendFailure (fmt kind : string) (result : esp_err_t).

(** What one call does to the world. *)
Record Effects : Type := mkEffects {
  peers_added : list esp_now_peer_info_t;  (* calls of esp_now_add_peer *)
  sent : list (list byte * list byte);     (* address and bytes of esp_now_send *)
  printed : list serial
}.

(** [reinterpret_cast<uint8_t*>(&cmd)] over [sizeof(cmd)] bytes: the same
    layout as [ControlCommand]. *)
Definition object_bytes (c : LaunchCommand.t) (padding : byte) : list byte :=
  le_bytes 4 (LaunchCommand.type c) ++ le_bytes 4 (LaunchCommand.timestamp c)
  ++ le_bytes 2 (LaunchCommand.sequenceId c)
  ++ [byte_of_Z (LaunchCommand.checksum c); padding].

(** [cmd.type = type; cmd.timestamp = millis();
     cmd.sequenceId = nextSequenceId++;
     cmd.checksum = cmd.calculateChecksum();] *)
Definition prepare (type : CommandType) (a : Answers) (s : State)
    : LaunchCommand.t :=
  let cmd := LaunchCommand.mk type (u32 (clock a)) (nextSequenceId s) 0 in
  LaunchCommand.mk type (u32 (clock a)) (nextSequenceId s)
    (LaunchCommand.calculateChecksum cmd).

Definition transmit (type : CommandType) (a : Answers) (s : State)
    (added : list esp_now_peer_info_t) : State * Effects :=
  let cmd := prepare type a s in
  let s' := mkState (u16 (nextSequenceId s + 1)) (peerInfo s) in
  (s',
   mkEffects added
     [(broadcastAddress, object_bytes cmd (tail_padding a))]
     (if is_ESP_OK (send a) then []
      else [PrintfSendFailure
              "Falha ao enviar comando %s! Código de erro: %d\n"
              (if type =? START_FLIGHT then "INICIAR" else "ENCERRAR")
              (send a)])).

Definition sendFlightCommand (type : CommandType) (a : Answers) (s : State)
    : State * Effects :=
  let s := mkState (nextSequenceId s) (mk_peer broadcastAddress CHANNEL false) in
  if negb (peer_exists a) then
    if negb (is_ESP_OK (add_peer a)) then
      (s, mkEffects [peerInfo s] [] [Println "Falha ao adicionar peer"])
    else transmit type a s [peerInfo s]
  else transmit type a s [].

(** Successive calls, each with its kind and its answers. *)
Fixpoint send_all (calls : list (CommandType * Answers)) (s : State)
    : State * list Effects :=
  match calls with
  | [] => (s, [])
  | (type, a) :: rest =>
      let (s1, e) := sendFlightCommand type a s in
      let (s2, es) := send_all rest s1 in
      (s2, e :: es)
  end.

End Ground.

(** The buffers a list of effects handed to [esp_now_send], in order. *)
Definition buffers_sent (es : list Ground.Effects) : list (list byte) :=
  flat_map (fun e => map snd (Ground.sent e)) es.

(** ** The v1.1 flight firmware as a whole *)

Module Firmware11.

(** Its globals: those of the sampling and sending steps (the same as in
    v1.2) and the flight-state globals. *)
Record State : Type := mkState {
  sensing : Rocket.State;
  flight : FlightLog.State
}.

Definition initial : State := mkState Rocket.initial FlightLog.initial.

(** The placeholder position block of v1.1, initialised by position into
    [{latitude, longitude, altitude, day, month, year, hour, minute,
      second}]. *)
Definition placeholder_gps : GPSData.t :=
  GPSData.mk 100.0 1100.0 0.11 2025 6 2 20 30 49.

(** [updateSensorData] of v1.1: as in v1.2 up to the position block. *)
Definition updateSensorData (s : Rocket.State) : script Rocket.State :=
  currentTime <- millis ;;
  leituraADC <- call (AnalogRead Config.Hardware.ADC_PIN) ;;
  let s := Rocket.set_sensorData
             (SensorData.set_voltage_rocket (Rocket.tensaoReal leituraADC)
                (Rocket.sensorData s)) s in
  if u32 (currentTime - Rocket.lastSensorReadTime s) <? SENSOR_READ_INTERVAL
  then Ret s
  else
    let s := Rocket.set_lastSensorReadTime currentTime s in
    ' (a, g, temp) <- call MpuGetEvent ;;
    if Rocket.lastUpdateTime s =? 0 then
      Ret (Rocket.set_lastUpdateTime currentTime s)
    else
      let dt :=
        (IZR (u32 (currentTime - Rocket.lastUpdateTime s)) / 1000.0)%R in
      let s := Rocket.set_lastUpdateTime currentTime s in
      let pitch' :=
        (COMPLEMENTARY_FILTER_ALPHA
           * (Rocket.pitch s + x g * dt * Arduino.RAD_TO_DEG)
         + (1 - COMPLEMENTARY_FILTER_ALPHA) * Rocket.accPitch a)%R in
      let roll' :=
        (COMPLEMENTARY_FILTER_ALPHA
           * (Rocket.roll s + y g * dt * Arduino.RAD_TO_DEG)
         + (1 - COMPLEMENTARY_FILTER_ALPHA) * Rocket.accRoll a)%R in
      let s := Rocket.set_angles pitch' roll' s in
      let s := Rocket.set_sensorData
                 (SensorData.set_acelerometro
                    (AcelerometerData.mk (x a) (y a) (z a)
                       (x g) (y g) (z g) temp pitch' roll')
                    (Rocket.sensorData s)) s in
      pressure <- call BmpReadPressure ;;
      altitude <- call (BmpReadAltitude 1013.25) ;;
      let s := Rocket.set_sensorData
                 (SensorData.set_altimetro
                    (AltimeterData.mk (pressure / 100.0) altitude)
                    (Rocket.sensorData s)) s in
      let s := Rocket.set_sensorData
                 (SensorData.set_timestamp (IZR currentTime)
                    (Rocket.sensorData s)) s in
      Ret (Rocket.set_sensorData
             (SensorData.set_gps placeholder_gps (Rocket.sensorData s)) s).

Definition CSV_ROW : string :=
  "%lu,%.2f,%.2f,%.2f,%.2f,%.2f,%.2f,%.2f,%.2f,%.2f,%.2f,%.2f\n".

(** The arguments of the row [logToSD] prints. *)
Definition csv_row (d : SensorData.t) : list arg :=
  let m := SensorData.acelerometro d in
  [ArgR (SensorData.timestamp d);
   ArgR (AcelerometerData.accX m); ArgR (AcelerometerData.accY m);
   ArgR (AcelerometerData.accZ m);
   ArgR (AcelerometerData.gyroX m); ArgR (AcelerometerData.gyroY m);
   ArgR (AcelerometerData.gyroZ m);
   ArgR (AcelerometerData.temp m);
   ArgR (AcelerometerData.pitch m); ArgR (AcelerometerData.roll m);
   ArgR (AltimeterData.pressure (SensorData.altimetro d));
   ArgR (AltimeterData.altitude (SensorData.altimetro d))].

Definition logToSD (s : State) : script unit :=
  let name := FlightLog.currentLogFilename (flight s) in
  if negb (FlightLog.isFlightLogging (flight s))
     || String.eqb name EmptyString
  then Ret tt
  else
    file <- call (SdOpen name) ;;
    if negb file then call (SerialPrintln "Erro ao abrir arquivo de log.")
    else
      call (FilePrintf name CSV_ROW
              (csv_row (Rocket.sensorData (sensing s)))) ;;
      call (FileClose name).

Definition loop (s : State) : script State :=
  r <- updateSensorData (sensing s) ;;
  r <- Rocket.transmitData r ;;
  let s := mkState r (flight s) in
  (if FlightLog.isFlightLogging (flight s)
   then logToSD s ;; Rocket.debugPrintData (sensing s)
   else Ret tt) ;;
  call (Delay 100) ;;
  Ret s.

(** The command callback, on the whole state. *)
Definition onEspNowReceive (mac incomingData : list byte) (len : Z)
    (s : State) : script State :=
  f <- FlightLog.onEspNowReceive mac incomingData len (flight s) ;;
  Ret (mkState (sensing s) f).

End Firmware11.

(** What happens to the running firmware: an iteration of [loop()], or a
    buffer delivered to the command callback between two iterations. *)
Inductive stimulus : Type :=
| Tick
| Delivery (mac incomingData : list byte) (len : Z).

Fixpoint operate (stimuli : list stimulus) (s : Firmware11.State)
    : script Firmware11.State :=
  match stimuli with
  | [] => Ret s
  | Tick :: rest => s' <- Firmware11.loop s ;; operate rest s'
  | Delivery mac incomingData len :: rest =>
      s' <- Firmware11.onEspNowReceive mac incomingData len s ;;
      operate rest s'
  end.

(** Iterations of the v1.2 [loop()]. *)
Fixpoint iterate (n : nat) (s : Rocket.State) : script Rocket.State :=
  match n with
  | O => Ret s
  | S n' => s' <- Rocket.loop s ;; iterate n' s'
  end.

(** Deliveries to the telemetry callback of the ground unit. *)
Fixpoint base_receive_all (deliveries : list (list byte * list byte * Z))
    (s : Base.State) : script Base.State :=
  match deliveries with
  | [] => Ret s
  | (src, incomingData, len) :: rest =>
      s' <- Base.onEspNowReceive src incomingData len s ;;
      base_receive_all rest s'
  end.

(** The record the ground unit holds after [deliveries], starting from
    [current]: the last buffer of the right length wins. *)
Fixpoint latest_record (deliveries : list (list byte * list byte * Z))
    (current : list byte) : list byte :=
  match deliveries with
  | [] => current
  | (_, incomingData, len) :: rest =>
      latest_record rest
        (if len =? SensorData.sizeof
         then firstn (Z.to_nat SensorData.sizeof) incomingData
         else current)
  end.

(** Any access to the SD card. *)
Definition is_sd_access (ev : event) : bool :=
  match ev with
  | Ev e _ =>
      match e with
      | SdOpen _ | FilePrintln _ _ | FilePrintf _ _ _ | FileClose _ => true
      | _ => false
      end
  end.

(** The rows written to log files: file, format and arguments. *)
Definition logged_row (ev : event) : list (string * string * list arg) :=
  match ev with
  | Ev e _ =>
      match e with
      | FilePrintf path fmt args => [(path, fmt, args)]
      | _ => []
      end
  end.
Definition logged_rows (tr : list event) : list (string * string * list arg) :=
  flat_map logged_row tr.

(** A flight was closed: the end-of-flight report went to the console. *)
Definition is_flight_end (ev : event) : bool :=
  match ev with
  | Ev e _ =>
      match e with
      | SerialPrintf fmt _ =>
          String.eqb fmt "Voo finalizado. Duração: %lu segundos\n"
      | _ => false
      end
  end.
Definition flights_ended (tr : list event) : nat :=
  List.length (filter is_flight_end tr).

(** The only moves of the flight-state machine. *)
Definition may_follow (a b : FlightState) : Prop :=
  a = b
  \/ (a = GROUND_STATE /\ b = FLIGHT_ACTIVE)
  \/ (a = FLIGHT_ACTIVE /\ b = POST_FLIGHT).

(** The base-station voltage field of the flight unit's record. *)
Definition voltage_base_of (s : Rocket.State) : R :=
  VoltageData.voltage_base (SensorData.tensao (Rocket.sensorData s)).

(** The ESP-NOW calls of a run, for what concerns sends. *)
Definition is_send (ev : event) : bool :=
  match ev with
  | Ev e _ => match e with EspNowSend _ _ _ => true | _ => false end
  end.

(** The answers of the GPS date queries and of the pressure sensor in a
    run, in order. *)
Definition gps_year_read (ev : event) : list Z :=
  match ev with
  | Ev e r =>
      match e in io R return R -> list Z with
      | GpsDateYear => fun v => [v]
      | _ => fun _ => []
      end r
  end.
Definition gps_day_read (ev : event) : list Z :=
  match ev with
  | Ev e r =>
      match e in io R return R -> list Z with
      | GpsDateDay => fun v => [v]
      | _ => fun _ => []
      end r
  end.
Definition pressure_read (ev : event) : list R :=
  match ev with
  | Ev e r =>
      match e in io T return T -> list R with
      | BmpReadPressure => fun v => [v]
      | _ => fun _ => []
      end r
  end.

(** The GPS part and the barometer part of the flight unit's record. *)
Definition gps_of (s : Rocket.State) : GPSData.t :=
  SensorData.gps (Rocket.sensorData s).
Definition altimetro_of (s : Rocket.State) : AltimeterData.t :=
  SensorData.altimetro (Rocket.sensorData s).
Definition voltage_rocket_of (s : Rocket.State) : R :=
  VoltageData.voltage_rocket (SensorData.tensao (Rocket.sensorData s)).

(** A decimal numeral read back as a number (leading zeros allowed). *)
Definition read_decimal (s : string) : option N :=
  option_map N.of_uint (DecimalString.NilZero.uint_of_string s).

(** The size of the buffer [generateLogFilename] prints into. *)
Definition LOG_FILENAME_BUFFER : Z := 32.

(** A delivery whose reported length is that of a telemetry record. *)
Definition well_sized (d : list byte * list byte * Z) : bool :=
  snd d =? SensorData.sizeof.

(** * Facts about bytes and the checksum *)

Lemma byte_val_range (b : byte) : 0 <= byte_val b < 256.
Proof.
  unfold byte_val. pose proof (Byte.to_N_bounded b) as H.
  split; [apply N2Z.is_nonneg|].
  apply N.lt_succ_r in H. lia.
Qed.

Lemma byte_of_Z_val (b : byte) : byte_of_Z (byte_val b) = b.
Proof.
  unfold byte_of_Z, u8, byte_val.
  pose proof (byte_val_range b) as H. unfold byte_val in H.
  rewrite Z.mod_small by (simpl; lia).
  rewrite N2Z.id, Byte.of_to_N. reflexivity.
Qed.

Lemma byte_val_of_Z (v : Z) : byte_val (byte_of_Z v) = v mod 256.
Proof.
  unfold byte_of_Z, u8, byte_val. change (2 ^ 8) with 256.
  pose proof (Z.mod_pos_bound v 256 ltac:(lia)) as H.
  destruct (Byte.of_N (Z.to_N (v mod 256))) as [b|] eqn:E.
  - apply Byte.to_of_N in E. rewrite E. lia.
  - apply Byte.of_N_None_iff in E. lia.
Qed.

Lemma le_bytes_length (n : nat) (v : Z) : List.length (le_bytes n v) = n.
Proof.
  revert v. induction n as [|n IH]; intros v; simpl; [|rewrite IH]; reflexivity.
Qed.

Lemma le_bytes_value (bs : list byte) :
  le_bytes (List.length bs) (le_value bs) = bs.
Proof.
  induction bs as [|b bs IH]; [reflexivity|].
  change (le_bytes (List.length (b :: bs)) (le_value (b :: bs)))
    with (byte_of_Z (byte_val b + 2 ^ 8 * le_value bs)
          :: le_bytes (List.length bs)
               (Z.shiftr (byte_val b + 2 ^ 8 * le_value bs) 8)).
  pose proof (byte_val_range b) as Hb.
  f_equal.
  - rewrite <- (byte_of_Z_val b) at 2. unfold byte_of_Z, u8.
    replace ((byte_val b + 2 ^ 8 * le_value bs) mod 2 ^ 8)
      with (byte_val b mod 2 ^ 8); [reflexivity|].
    symmetry. rewrite (Z.mul_comm (2 ^ 8)). apply Z.mod_add. lia.
  - rewrite Z.shiftr_div_pow2 by lia.
    replace ((byte_val b + 2 ^ 8 * le_value bs) / 2 ^ 8) with (le_value bs);
      [exact IH|].
    rewrite (Z.mul_comm (2 ^ 8)), Z.div_add by lia.
    rewrite (Z.div_small (byte_val b)) by (simpl; lia). lia.
Qed.

Lemma fold_u8_range (bs : list byte) (acc : Z) :
  0 <= acc < 256 ->
  0 <= fold_left (fun sum b => u8 (sum + byte_val b)) bs acc < 256.
Proof.
  revert acc. induction bs as [|b bs IH]; intros acc Hacc; simpl; [exact Hacc|].
  apply IH. unfold u8. apply Z.mod_pos_bound. lia.
Qed.

Lemma sum_bytes_range (bs : list byte) : 0 <= sum_bytes bs < 256.
Proof. apply fold_u8_range. lia. Qed.

Lemma sum_bytes_snoc (bs : list byte) (b : byte) :
  sum_bytes (bs ++ [b]) = u8 (sum_bytes bs + byte_val b).
Proof. unfold sum_bytes. rewrite fold_left_app. reflexivity. Qed.

Lemma fold_u8_total (bs : list byte) (acc : Z) :
  fold_left (fun sum b => u8 (sum + byte_val b)) bs (acc mod 256)
  = (acc + byte_total bs) mod 256.
Proof.
  revert acc. induction bs as [|b bs IH]; intros acc; simpl.
  - rewrite Z.add_0_r. reflexivity.
  - unfold u8 at 2. change (2 ^ 8) with 256.
    rewrite Zplus_mod_idemp_l, IH. f_equal. lia.
Qed.

Lemma sum_bytes_total (bs : list byte) : sum_bytes bs = byte_total bs mod 256.
Proof. exact (fold_u8_total bs 0). Qed.

Lemma calculateChecksum_split (c : ControlCommand.t) :
  ControlCommand.calculateChecksum c
  = u8 (sum_bytes (ControlCommand.preceding_bytes c)
        + byte_val (ControlCommand.checksum c)).
Proof.
  unfold ControlCommand.calculateChecksum, ControlCommand.preceding_bytes,
    ControlCommand.object_bytes.
  change (Z.to_nat (ControlCommand.sizeof - ControlCommand.sizeof_checksum))
    with 11%nat.
  cbn [le_bytes app firstn].
  match goal with
  | |- _ = u8 (sum_bytes ?pre + _) =>
      exact (sum_bytes_snoc pre (ControlCommand.checksum c))
  end.
Qed.

(** What the validator of the flight unit really tests: its loop runs over
    the checksum byte as well, so the stored checksum cancels out. *)
Lemma isValid_iff_preceding_sum_zero (c : ControlCommand.t) :
  ControlCommand.isValid c = true
  <-> sum_bytes (ControlCommand.preceding_bytes c) = 0.
Proof.
  unfold ControlCommand.isValid.
  rewrite Z.eqb_eq, calculateChecksum_split. unfold u8. change (2 ^ 8) with 256.
  pose proof (sum_bytes_range (ControlCommand.preceding_bytes c)) as Hs.
  pose proof (byte_val_range (ControlCommand.checksum c)) as Hc.
  split; intros H.
  - revert H. generalize (sum_bytes (ControlCommand.preceding_bytes c))
      (byte_val (ControlCommand.checksum c)) Hs Hc.
    intros p k Hp Hk H.
    destruct (Z.eq_dec p 0) as [|Hne]; [assumption|exfalso].
    destruct (Z_lt_ge_dec (p + k) 256) as [Hlt|Hge].
    + rewrite Z.mod_small in H by lia. lia.
    + replace (p + k) with ((p + k - 256) + 1 * 256) in H by lia.
      rewrite Z.mod_add, Z.mod_small in H by lia. lia.
  - rewrite H. simpl. symmetry. apply Z.mod_small. lia.
Qed.

Lemma isValid_ignores_checksum (ty ts sq : Z) (k k' p p' : byte) :
  ControlCommand.isValid (ControlCommand.mk ty ts sq k p)
  = ControlCommand.isValid (ControlCommand.mk ty ts sq k' p').
Proof.
  apply eq_true_iff_eq. rewrite !isValid_iff_preceding_sum_zero. reflexivity.
Qed.

Lemma object_bytes_memcpy (bs : list byte) :
  List.length bs = 12%nat ->
  ControlCommand.object_bytes (ControlCommand.memcpy bs) = bs.
Proof.
  intros H.
  do 13 (destruct bs as [|? bs]; try discriminate H).
  unfold ControlCommand.object_bytes, ControlCommand.memcpy.
  cbn [ControlCommand.type ControlCommand.timestamp ControlCommand.sequenceId
       ControlCommand.checksum ControlCommand.padding firstn skipn nth].
  pose proof (le_bytes_value [b; b0; b1; b2]) as E1.
  pose proof (le_bytes_value [b3; b4; b5; b6]) as E2.
  pose proof (le_bytes_value [b7; b8]) as E3.
  cbn [List.length] in E1, E2, E3.
  rewrite E1, E2, E3. reflexivity.
Qed.

Lemma byte_val_inj (a b : byte) : byte_val a = byte_val b -> a = b.
Proof.
  intros H. rewrite <- (byte_of_Z_val a), <- (byte_of_Z_val b), H. reflexivity.
Qed.

(** On the code's own notion of validity, changing one byte among the ten
    that precede the checksum field turns a valid record into an invalid
    one. *)
Lemma single_byte_change_invalidates (bs : list byte) (i : nat) (b' : byte) :
  List.length bs = 12%nat ->
  (i < 10)%nat ->
  b' <> nth i bs x00 ->
  ControlCommand.isValid (ControlCommand.memcpy bs) = true ->
  ControlCommand.isValid (ControlCommand.memcpy (flip_byte i b' bs)) = false.
Proof.
  intros Hlen Hi Hb Hv.
  apply not_true_is_false. intros Hv'.
  rewrite isValid_iff_preceding_sum_zero in Hv, Hv'.
  unfold ControlCommand.preceding_bytes in Hv, Hv'.
  assert (Hd : forall a c : byte, c <> a -> byte_val c <> byte_val a)
    by (intros a c Hne He; apply Hne, byte_val_inj, He).
  do 13 (destruct bs as [|? bs]; try discriminate Hlen).
  rewrite object_bytes_memcpy in Hv by reflexivity.
  rewrite sum_bytes_total in Hv, Hv'.
  do 10 (destruct i as [|i];
         [ rewrite object_bytes_memcpy in Hv' by reflexivity;
           apply Hd in Hb; cbn in Hb, Hv, Hv';
           match type of Hb with
           | byte_val ?u <> byte_val ?v =>
               pose proof (byte_val_range u); pose proof (byte_val_range v)
           end;
           apply Z.mod_divide in Hv; [|lia]; apply Z.mod_divide in Hv'; [|lia];
           destruct Hv as [q Hv]; destruct Hv' as [q' Hv']; lia
         | ]).
  lia.
Qed.

(** The checksum the ground unit computes is the one the specification
    describes. *)
Lemma LaunchCommand_checksum_is_spec (ty ts sq k : Z) (k' p : byte) :
  LaunchCommand.calculateChecksum (LaunchCommand.mk ty ts sq k)
  = spec_checksum (ControlCommand.mk ty ts sq k' p).
Proof.
  unfold LaunchCommand.calculateChecksum, spec_checksum, u8.
  cbn [LaunchCommand.type LaunchCommand.timestamp LaunchCommand.sequenceId
       ControlCommand.type ControlCommand.timestamp ControlCommand.sequenceId
       le_bytes byte_total fold_right].
  rewrite !byte_val_of_Z, !Z.shiftr_shiftr by lia.
  change 255 with (Z.ones 8). rewrite !Z.land_ones by lia.
  change (2 ^ 8) with 256. change (8 + 8 + 8) with 24. change (8 + 8) with 16.
  f_equal. lia.
Qed.

(** C2 (code defect).  The record [start-flight, timestamp 0, sequence 0]
    carrying exactly the specified checksum (1, the sum modulo 256 of the
    bytes before the checksum field, which is also what the ground unit's
    [LaunchCommand::calculateChecksum] stores) is rejected by [isValid],
    and the all-zero record with the checksum byte 0x55, which is not the
    specified sum, is accepted: the loop of
    [ControlCommand::calculateChecksum] also adds the checksum byte. *)
Theorem isValid_disagrees_with_specified_checksum :
  (byte_val (ControlCommand.checksum (ControlCommand.mk START_FLIGHT 0 0 x01 x00))
     = spec_checksum (ControlCommand.mk START_FLIGHT 0 0 x01 x00)
   /\ LaunchCommand.calculateChecksum (LaunchCommand.mk START_FLIGHT 0 0 0) = 1
   /\ ControlCommand.isValid (ControlCommand.mk START_FLIGHT 0 0 x01 x00) = false)
  /\ (byte_val (ControlCommand.checksum (ControlCommand.mk NO_COMMAND 0 0 x55 x00))
        <> spec_checksum (ControlCommand.mk NO_COMMAND 0 0 x55 x00)
      /\ ControlCommand.isValid (ControlCommand.mk NO_COMMAND 0 0 x55 x00) = true).
Proof.
  repeat split; try reflexivity.
  vm_compute. discriminate.
Qed.

(** * Running scripts *)

Ltac ask respond :=
  match goal with
  | |- context [respond ?R ?e ?w] =>
      let r := fresh "r" in
      let w' := fresh "w" in
      let E := fresh "E" in
      destruct (respond R e w) as [r w'] eqn:E;
      try (match type of r with unit => destruct r end)
  end.

Ltac find_event :=
  cbn [In]; repeat (first [left; reflexivity | right]).

Section RunFacts.
Context {W : Type} (respond : forall R : Type, io R -> W -> R * W).

Lemma run_Vis {A R : Type} (e : io R) (k : R -> script A) (w w' : W) (r : R) :
  answers respond w e r w' ->
  run respond (Vis e k) w
  = (Ev e r :: trace_of respond (k r) w',
     outcome_of respond (k r) w',
     world_after respond (k r) w').
Proof.
  unfold answers, trace_of, outcome_of, world_after. intros H.
  cbn [run]. rewrite H. destruct (run respond (k r) w') as [[tr o] w''].
  reflexivity.
Qed.

Lemma trace_of_Vis {A R : Type} (e : io R) (k : R -> script A)
    (w w' : W) (r : R) :
  answers respond w e r w' ->
  trace_of respond (Vis e k) w = Ev e r :: trace_of respond (k r) w'.
Proof.
  intros H. unfold trace_of at 1. rewrite (run_Vis e k w w' r H). reflexivity.
Qed.

Lemma outcome_of_Vis {A R : Type} (e : io R) (k : R -> script A)
    (w w' : W) (r : R) :
  answers respond w e r w' ->
  outcome_of respond (Vis e k) w = outcome_of respond (k r) w'.
Proof.
  intros H. unfold outcome_of at 1. rewrite (run_Vis e k w w' r H).
  reflexivity.
Qed.

Lemma world_after_Vis {A R : Type} (e : io R) (k : R -> script A)
    (w w' : W) (r : R) :
  answers respond w e r w' ->
  world_after respond (Vis e k) w = world_after respond (k r) w'.
Proof.
  intros H. unfold world_after at 1. rewrite (run_Vis e k w w' r H).
  reflexivity.
Qed.

Lemma Done_inj {A : Type} (a b : A) : Done a = Done b -> a = b.
Proof. intros H. injection H as H. exact H. Qed.

Lemma run_eta {A : Type} (p : script A) (w : W) :
  run respond p w
  = (trace_of respond p w, outcome_of respond p w, world_after respond p w).
Proof.
  unfold trace_of, outcome_of, world_after.
  destruct (run respond p w) as [[tr o] w']. reflexivity.
Qed.

Lemma run_bind {A B : Type} (p : script A) (f : A -> script B) (w : W) :
  run respond (bind p f) w
  = match outcome_of respond p w with
    | Done a =>
        (trace_of respond p w
           ++ trace_of respond (f a) (world_after respond p w),
         outcome_of respond (f a) (world_after respond p w),
         world_after respond (f a) (world_after respond p w))
    | Rebooted =>
        (trace_of respond p w, Rebooted, world_after respond p w)
    end.
Proof.
  revert w. induction p as [a|R e k IH|]; intros w.
  - cbn [bind]. unfold trace_of, outcome_of, world_after. cbn [run fst snd app].
    destruct (run respond (f a) w) as [[tr o] w']. reflexivity.
  - specialize (IH (fst (respond R e w)) (snd (respond R e w))).
    unfold trace_of, outcome_of, world_after in *. cbn [bind run].
    destruct (respond R e w) as [r w']. cbn [fst snd] in IH.
    destruct (run respond (bind (k r) f) w') as [[tr o] w''].
    destruct (run respond (k r) w') as [[tr1 o1] w1]. cbn [fst snd] in *.
    destruct o1 as [a|].
    + destruct (run respond (f a) w1) as [[tr2 o2] w2]. cbn [fst snd] in *.
      inversion IH; subst. reflexivity.
    + inversion IH; subst. reflexivity.
  - reflexivity.
Qed.

End RunFacts.

(** * The command receive path and the flight-state machine *)

Section FlightLogFacts.
Context {W : Type} (respond : forall R : Type, io R -> W -> R * W).

Ltac crank :=
  repeat (cbn [run bind call millis FlightLog.generateLogFilename];
          ask respond).

(** What one call of [startNewFlightLog] does, read off its run. *)
Lemma startNewFlightLog_run (s : FlightLog.State) (w : W) :
  let tr := trace_of respond (FlightLog.startNewFlightLog s) w in
  exists s',
    outcome_of respond (FlightLog.startNewFlightLog s) w = Done s'
    /\ FlightLog.sdReady s' = FlightLog.sdReady s
    /\ if FlightLog.sdReady s && sd_opened tr
       then FlightLog.currentFlightState s' = FLIGHT_ACTIVE
            /\ FlightLog.isFlightLogging s' = true
            /\ FlightLog.flightStartTime s'
               = u32 (last (clock_readings tr) 0)
            /\ FlightLog.currentLogFilename s'
               = ("/flight_log_"
                  ++ decimal_06 (u32 (hd 0 (clock_readings tr)) / 1000)
                  ++ ".csv")%string
            /\ In (Ev (FilePrintln (FlightLog.currentLogFilename s')
                         FlightLog.CSV_HEADER) tt) tr
            /\ sessions_begun tr = 1%nat
       else FlightLog.currentFlightState s' = FlightLog.currentFlightState s
            /\ FlightLog.isFlightLogging s' = FlightLog.isFlightLogging s
            /\ FlightLog.flightStartTime s' = FlightLog.flightStartTime s
            /\ sessions_begun tr = 0%nat.
Proof.
  unfold trace_of, outcome_of, FlightLog.startNewFlightLog.
  destruct (FlightLog.sdReady s) eqn:Hsd; cbn [negb andb].
  - crank. destruct r0.
    + crank. cbn. eexists; repeat split; try reflexivity; auto.
    + crank. cbn. eexists; repeat split; try reflexivity; auto.
  - crank. cbn. eexists; repeat split; try reflexivity; auto.
Qed.

(** Every run of [startNewFlightLog], call by call.  With the card not
    flagged ready only the diagnostic is printed.  Otherwise the clock is
    read for the file name and [SD.open] is called on it; when it hands
    back a file the header is written, the file closed, the clock read
    again for the start of the flight and the globals set; when it does
    not, only the file name has changed. *)
Lemma startNewFlightLog_cases (s : FlightLog.State) (w : W) :
  let tr := trace_of respond (FlightLog.startNewFlightLog s) w in
  let o := outcome_of respond (FlightLog.startNewFlightLog s) w in
  if FlightLog.sdReady s then
    exists (t : Z) (ok : bool),
      let name :=
        ("/flight_log_" ++ decimal_06 (u32 t / 1000) ++ ".csv")%string in
      if ok then
        exists t' : Z,
          tr = [Ev Millis t; Ev (SdOpen name) true;
                Ev (FilePrintln name FlightLog.CSV_HEADER) tt;
                Ev (FileClose name) tt; Ev Millis t';
                Ev (SerialPrintln ("Novo log de voo iniciado: " ++ name)) tt]
          /\ o = Done (FlightLog.mkState FLIGHT_ACTIVE name
                         (FlightLog.sdReady s) true (u32 t'))
      else
        tr = [Ev Millis t; Ev (SdOpen name) false;
              Ev (SerialPrintln "Erro ao criar arquivo de log de voo.") tt]
        /\ o = Done (FlightLog.set_currentLogFilename name s)
  else
    tr = [Ev (SerialPrintln "Cartão SD não está pronto!") tt] /\ o = Done s.
Proof.
  unfold trace_of, outcome_of, FlightLog.startNewFlightLog.
  destruct (FlightLog.sdReady s) eqn:Hsd; cbn [negb].
  - crank. exists r. destruct r0.
    + exists true. crank. exists r0.
      unfold FlightLog.set_currentLogFilename.
      cbn [fst snd FlightLog.sdReady FlightLog.currentLogFilename].
      rewrite ?Hsd. split; reflexivity.
    + exists false. crank. cbn [fst snd]. split; reflexivity.
  - crank. cbn [fst snd]. split; reflexivity.
Qed.

(** What one call of [endFlightLog] does while a session is open. *)
Lemma endFlightLog_run (s : FlightLog.State) (w : W) :
  FlightLog.isFlightLogging s = true ->
  let tr := trace_of respond (FlightLog.endFlightLog s) w in
  let duration :=
    u32 (u32 (hd 0 (clock_readings tr)) - FlightLog.flightStartTime s)
    / 1000 in
  exists s',
    outcome_of respond (FlightLog.endFlightLog s) w = Done s'
    /\ FlightLog.currentFlightState s' = POST_FLIGHT
    /\ FlightLog.isFlightLogging s' = false
    /\ FlightLog.currentLogFilename s' = EmptyString
    /\ FlightLog.sdReady s' = FlightLog.sdReady s
    /\ FlightLog.flightStartTime s' = FlightLog.flightStartTime s
    /\ In (Ev (SerialPrintf "Voo finalizado. Duração: %lu segundos\n"
                 [ArgZ duration]) tt) tr
    /\ (sd_opened tr = true ->
        In (Ev (FilePrintln (FlightLog.currentLogFilename s)
                  "# FIM DO VOO") tt) tr
        /\ In (Ev (FilePrintf (FlightLog.currentLogFilename s)
                     "# Duração do Voo: %lu segundos\n"
                     [ArgZ duration]) tt) tr).
Proof.
  intros Hlog. unfold trace_of, outcome_of, FlightLog.endFlightLog.
  rewrite Hlog. cbn [negb]. crank. destruct r0.
  - crank. cbn. eexists; repeat split; try reflexivity; find_event.
  - crank. cbn. eexists; repeat split; try reflexivity; try discriminate;
      find_event.
Qed.

Lemma onEspNowReceive_start (mac pkt : list byte) (s : FlightLog.State) :
  ControlCommand.type (ControlCommand.memcpy pkt) = START_FLIGHT ->
  FlightLog.onEspNowReceive mac pkt ControlCommand.sizeof s
  = if FlightState_eqb (FlightLog.currentFlightState s) GROUND_STATE
    then FlightLog.startNewFlightLog s
    else Ret s.
Proof.
  intros H. unfold FlightLog.onEspNowReceive.
  rewrite Z.eqb_refl, H. reflexivity.
Qed.

Lemma onEspNowReceive_end (mac pkt : list byte) (s : FlightLog.State) :
  ControlCommand.type (ControlCommand.memcpy pkt) = END_FLIGHT ->
  FlightLog.onEspNowReceive mac pkt ControlCommand.sizeof s
  = if FlightState_eqb (FlightLog.currentFlightState s) FLIGHT_ACTIVE
    then FlightLog.endFlightLog s
    else Ret s.
Proof.
  intros H. unfold FlightLog.onEspNowReceive.
  rewrite Z.eqb_refl, H. reflexivity.
Qed.

(** The receive path never looks at the checksum byte (nor at the
    padding byte): two buffers that agree on their first ten bytes are
    handled alike. *)
Lemma onEspNowReceive_ignores_checksum
    (mac pre : list byte) (k p k' p' : byte) (len : Z) (s : FlightLog.State) :
  List.length pre = 10%nat ->
  FlightLog.onEspNowReceive mac (pre ++ [k; p]) len s
  = FlightLog.onEspNowReceive mac (pre ++ [k'; p']) len s.
Proof.
  intros H. do 11 (destruct pre as [|? pre]; try discriminate H).
  reflexivity.
Qed.

(** The receive path keeps the flight-state globals coherent and never
    resets the device. *)
Lemma onEspNowReceive_coherent
    (mac pkt : list byte) (len : Z) (s : FlightLog.State) (w : W) :
  coherent s ->
  exists s',
    outcome_of respond (FlightLog.onEspNowReceive mac pkt len s) w = Done s'
    /\ coherent s'.
Proof.
  intros Hc. unfold FlightLog.onEspNowReceive.
  destruct (len =? ControlCommand.sizeof); [|exists s; split; [reflexivity|exact Hc]].
  cbv zeta.
  destruct (ControlCommand.type (ControlCommand.memcpy pkt) =? START_FLIGHT).
  - destruct (FlightLog.currentFlightState s) eqn:Hst; cbn [FlightState_eqb];
      try (exists s; split; [reflexivity|exact Hc]).
    destruct (startNewFlightLog_run s w) as (s' & Ho & _ & Hcase).
    exists s'. split; [exact Ho|].
    destruct (FlightLog.sdReady s && sd_opened _).
    + destruct Hcase as (Ha & Hb & _). unfold coherent. rewrite Ha, Hb. tauto.
    + destruct Hcase as (Ha & Hb & _). unfold coherent in *.
      rewrite Ha, Hb. exact Hc.
  - destruct (ControlCommand.type (ControlCommand.memcpy pkt) =? END_FLIGHT).
    + destruct (FlightLog.currentFlightState s) eqn:Hst; cbn [FlightState_eqb];
        try (exists s; split; [reflexivity|exact Hc]).
      assert (Hlog : FlightLog.isFlightLogging s = true) by (apply Hc, Hst).
      destruct (endFlightLog_run s w Hlog) as (s' & Ho & Ha & Hb & _).
      exists s'. split; [exact Ho|]. unfold coherent. rewrite Ha, Hb.
      split; discriminate.
    + unfold outcome_of. crank. exists s. split; [reflexivity|exact Hc].
Qed.

(** C3.  A buffer whose length differs from the fixed record size is
    rejected without touching shared state: on the flight unit the
    command callback does nothing at all (no call, flight-state globals
    unchanged); on the ground unit the telemetry callback only prints a
    diagnostic and leaves the stored telemetry record and the
    data-updated flag as they were. *)
Theorem wrong_length_is_rejected
    (mac cmd : list byte) (len : Z) (s : FlightLog.State)
    (src data : list byte) (len' : Z) (b : Base.State) (w : W) :
  len <> ControlCommand.sizeof ->
  len' <> SensorData.sizeof ->
  run respond (FlightLog.onEspNowReceive mac cmd len s) w = ([], Done s, w)
  /\ exists w',
       run respond (Base.onEspNowReceive src data len' b) w
       = ([Ev (SerialPrintf
                 "Tamanho de dados inválido. Esperado: %d, Recebido: %d\n"
                 [ArgZ SensorData.sizeof; ArgZ len']) tt],
          Done b, w').
Proof.
  intros Hlen Hlen'. split.
  - unfold FlightLog.onEspNowReceive.
    apply Z.eqb_neq in Hlen. rewrite Hlen. reflexivity.
  - unfold Base.onEspNowReceive.
    apply Z.eqb_neq in Hlen'. rewrite Hlen'. cbn [negb]. crank.
    eexists. reflexivity.
Qed.

(** C4, as amended.  A start-flight command received in [GROUND_STATE]
    (any twelve-byte buffer of that kind, the validated ones among them)
    starts the flight exactly when the SD card is flagged ready and
    [SD.open] hands back the new log file.  With the card flagged ready
    the callback reads the clock, names the file after it and calls
    [SD.open]; when a file comes back it writes the CSV header (the
    logging session), closes the file, reads the clock again and leaves
    [FLIGHT_ACTIVE], logging on, with that reading as the flight-start
    timestamp; when none comes back it reports the error and the state
    stays [GROUND_STATE], no header written and no timestamp recorded.
    With the card not flagged ready it only prints the diagnostic and no
    global changes. *)
Theorem start_flight_needs_storage
    (mac pkt : list byte) (s : FlightLog.State) (w : W) :
  ControlCommand.type (ControlCommand.memcpy pkt) = START_FLIGHT ->
  FlightLog.currentFlightState s = GROUND_STATE ->
  let p := FlightLog.onEspNowReceive mac pkt ControlCommand.sizeof s in
  let tr := trace_of respond p w in
  let o := outcome_of respond p w in
  if FlightLog.sdReady s then
    exists (t : Z) (ok : bool),
      let name :=
        ("/flight_log_" ++ decimal_06 (u32 t / 1000) ++ ".csv")%string in
      if ok then
        exists t' : Z,
          tr = [Ev Millis t; Ev (SdOpen name) true;
                Ev (FilePrintln name FlightLog.CSV_HEADER) tt;
                Ev (FileClose name) tt; Ev Millis t';
                Ev (SerialPrintln ("Novo log de voo iniciado: " ++ name)) tt]
          /\ o = Done (FlightLog.mkState FLIGHT_ACTIVE name
                         (FlightLog.sdReady s) true (u32 t'))
          /\ sessions_begun tr = 1%nat
      else
        tr = [Ev Millis t; Ev (SdOpen name) false;
              Ev (SerialPrintln "Erro ao criar arquivo de log de voo.") tt]
        /\ o = Done (FlightLog.mkState GROUND_STATE name
                       (FlightLog.sdReady s) (FlightLog.isFlightLogging s)
                       (FlightLog.flightStartTime s))
        /\ sessions_begun tr = 0%nat
  else
    tr = [Ev (SerialPrintln "Cartão SD não está pronto!") tt]
    /\ o = Done s
    /\ sessions_begun tr = 0%nat.
Proof.
  intros Hty Hst p tr o. subst p tr o.
  rewrite (onEspNowReceive_start mac pkt s Hty), Hst. cbn [FlightState_eqb].
  pose proof (startNewFlightLog_cases s w) as Hc. cbv zeta in Hc.
  destruct (FlightLog.sdReady s) eqn:Hsd.
  - destruct Hc as (t & ok & Hc). exists t, ok. cbv zeta. destruct ok.
    + destruct Hc as (t' & Htr & Ho). exists t'.
      rewrite Htr, Ho, ?Hsd. repeat split.
    + destruct Hc as (Htr & Ho). rewrite Htr, Ho.
      unfold FlightLog.set_currentLogFilename. rewrite Hst, ?Hsd.
      repeat split.
  - destruct Hc as (Htr & Ho). rewrite Htr, Ho. repeat split.
Qed.


End FlightLogFacts.

Section CommandSequences.
Context {W : Type} (respond : forall R : Type, io R -> W -> R * W).

(** C7, as amended.  Two consecutive start-flight commands received
    from [GROUND_STATE].  With the SD card flagged ready and [SD.open]
    handing back the log file, the first command makes the one
    transition to [FLIGHT_ACTIVE] and begins the one logging session, and
    the second is a no-op: no call, no global changed.  With the card
    flagged ready and [SD.open] failing, the first command leaves
    [GROUND_STATE] and the second is handled as a first one.  With the
    card not flagged ready each of the two only prints the diagnostic.
    In every case at most one session is begun, and the state ends in
    [FLIGHT_ACTIVE] exactly when one was.  An end-flight command received
    while the state is not [FLIGHT_ACTIVE] is a no-op. *)
Theorem repeated_commands_are_idempotent
    (mac mac' first second other : list byte) (s q : FlightLog.State)
    (w : W) :
  ControlCommand.type (ControlCommand.memcpy first) = START_FLIGHT ->
  ControlCommand.type (ControlCommand.memcpy second) = START_FLIGHT ->
  FlightLog.currentFlightState s = GROUND_STATE ->
  ControlCommand.type (ControlCommand.memcpy other) = END_FLIGHT ->
  FlightLog.currentFlightState q <> FLIGHT_ACTIVE ->
  (let p1 := FlightLog.onEspNowReceive mac first ControlCommand.sizeof s in
   let tr1 := trace_of respond p1 w in
   exists s1,
     outcome_of respond p1 w = Done s1
     /\ let w1 := world_after respond p1 w in
        let p2 :=
          FlightLog.onEspNowReceive mac' second ControlCommand.sizeof s1 in
        let tr := tr1 ++ trace_of respond p2 w1 in
        (if FlightLog.sdReady s then
           exists (t : Z) (ok : bool),
             let name :=
               ("/flight_log_" ++ decimal_06 (u32 t / 1000) ++ ".csv")%string
             in
             if ok then
               exists t' : Z,
                 tr1 = [Ev Millis t; Ev (SdOpen name) true;
                        Ev (FilePrintln name FlightLog.CSV_HEADER) tt;
                        Ev (FileClose name) tt; Ev Millis t';
                        Ev (SerialPrintln
                              ("Novo log de voo iniciado: " ++ name)) tt]
                 /\ s1 = FlightLog.mkState FLIGHT_ACTIVE name
                           (FlightLog.sdReady s) true (u32 t')
                 /\ run respond p2 w1 = ([], Done s1, w1)
                 /\ sessions_begun tr = 1%nat
             else
               tr1 = [Ev Millis t; Ev (SdOpen name) false;
                      Ev (SerialPrintln
                            "Erro ao criar arquivo de log de voo.") tt]
               /\ s1 = FlightLog.set_currentLogFilename name s
               /\ p2 = FlightLog.startNewFlightLog s1
         else
           tr1 = [Ev (SerialPrintln "Cartão SD não está pronto!") tt]
           /\ s1 = s
           /\ trace_of respond p2 w1
              = [Ev (SerialPrintln "Cartão SD não está pronto!") tt]
           /\ outcome_of respond p2 w1 = Done s)
        /\ exists s2,
             outcome_of respond p2 w1 = Done s2
             /\ (sessions_begun tr <= 1)%nat
             /\ (sessions_begun tr = 1%nat
                 <-> FlightLog.currentFlightState s2 = FLIGHT_ACTIVE)
             /\ (sessions_begun tr = 0%nat
                 <-> FlightLog.currentFlightState s2 = GROUND_STATE)
             /\ (FlightLog.currentFlightState s1 = FLIGHT_ACTIVE ->
                 run respond p2 w1 = ([], Done s1, w1)))
  /\ run respond
       (FlightLog.onEspNowReceive mac other ControlCommand.sizeof q) w
     = ([], Done q, w).
Proof.
  intros H1 H2 Hst He Hq. split.
  - cbv zeta.
    rewrite (onEspNowReceive_start mac first s H1), Hst.
    cbn [FlightState_eqb].
    destruct (startNewFlightLog_run respond s w) as (s1 & Ho1 & _ & Hcase1).
    cbv zeta in Hcase1. exists s1. split; [exact Ho1|].
    rewrite (onEspNowReceive_start mac' second s1 H2).
    split.
    + pose proof (startNewFlightLog_cases respond s w) as Hc.
      cbv zeta in Hc. rewrite Ho1 in Hc.
      destruct (FlightLog.sdReady s) eqn:Hsd.
      * destruct Hc as (t & ok & Hc). exists t, ok. cbv zeta. destruct ok.
        -- destruct Hc as (t' & Htr & Ho). exists t'.
           apply Done_inj in Ho. rewrite ?Hsd in Ho.
           assert (Hf : FlightLog.currentFlightState s1 = FLIGHT_ACTIVE)
             by (rewrite Ho; reflexivity).
           rewrite Hf. cbn [FlightState_eqb].
           split; [exact Htr|]. split; [exact Ho|].
           split; [reflexivity|]. rewrite Htr. reflexivity.
        -- destruct Hc as (Htr & Ho). apply Done_inj in Ho.
           assert (Hg : FlightLog.currentFlightState s1 = GROUND_STATE)
             by (rewrite Ho; exact Hst).
           rewrite Hg. cbn [FlightState_eqb].
           split; [exact Htr|]. split; [exact Ho|]. reflexivity.
      * destruct Hc as (Htr & Ho). apply Done_inj in Ho.
        split; [exact Htr|]. split; [exact Ho|].
        rewrite Ho, Hst. cbn [FlightState_eqb].
        unfold trace_of, outcome_of, FlightLog.startNewFlightLog.
        rewrite Hsd. cbn [negb run bind call].
        destruct (respond unit _ _) as [[] w2]. split; reflexivity.
    + unfold sessions_begun. rewrite filter_app, length_app.
      fold (sessions_begun
              (trace_of respond (FlightLog.startNewFlightLog s) w)).
      destruct (FlightLog.sdReady s && sd_opened _).
      * destruct Hcase1 as (Ha & _ & _ & _ & _ & Hn). rewrite Ha, Hn.
        cbn [FlightState_eqb]. exists s1.
        unfold trace_of, outcome_of. cbn [run fst snd filter List.length].
        rewrite Ha. repeat split; try reflexivity; try lia; try discriminate.
      * destruct Hcase1 as (Ha & _ & _ & Hn). rewrite Ha, Hst, Hn.
        cbn [FlightState_eqb].
        destruct (startNewFlightLog_run respond s1
                    (world_after respond (FlightLog.startNewFlightLog s) w))
          as (s2 & Ho2 & _ & Hcase2).
        cbv zeta in Hcase2. exists s2. split; [exact Ho2|].
        fold (sessions_begun
                (trace_of respond (FlightLog.startNewFlightLog s1)
                   (world_after respond (FlightLog.startNewFlightLog s) w))).
        destruct (FlightLog.sdReady s1 && sd_opened _).
        -- destruct Hcase2 as (Hb & _ & _ & _ & _ & Hm). rewrite Hb, Hm.
           repeat split; try reflexivity; try lia; try discriminate.
        -- destruct Hcase2 as (Hb & _ & _ & Hm). rewrite Hb, Hm, Ha, Hst.
           repeat split; try reflexivity; try lia; try discriminate.
  - rewrite (onEspNowReceive_end mac other q He).
    destruct (FlightLog.currentFlightState q); try reflexivity.
    contradiction Hq. reflexivity.
Qed.

End CommandSequences.

Section StorageNeverReady.
Context {W : Type} (respond : forall R : Type, io R -> W -> R * W).

Lemma onEspNowReceive_without_sd
    (mac pkt : list byte) (len : Z) (s : FlightLog.State) (w : W) :
  FlightLog.sdReady s = false ->
  FlightLog.currentFlightState s = GROUND_STATE ->
  outcome_of respond (FlightLog.onEspNowReceive mac pkt len s) w = Done s.
Proof.
  intros Hsd Hst. unfold outcome_of, FlightLog.onEspNowReceive.
  destruct (len =? ControlCommand.sizeof); [|reflexivity]. cbv zeta.
  destruct (ControlCommand.type (ControlCommand.memcpy pkt) =? START_FLIGHT).
  - rewrite Hst. cbn [FlightState_eqb]. unfold FlightLog.startNewFlightLog.
    rewrite Hsd. cbn [negb bind call run].
    destruct (respond unit _ w) as [[] w']. reflexivity.
  - destruct (ControlCommand.type (ControlCommand.memcpy pkt) =? END_FLIGHT).
    + rewrite Hst. reflexivity.
    + cbn [bind call run]. destruct (respond unit _ w) as [[] w']. reflexivity.
Qed.

(** In the v1.1 firmware nothing sets [sdReady] (the SD initialisation of
    [setup()] is commented out, and [loop()] does not write the flight-state
    globals): whatever is delivered to the command callback, the globals
    keep their initial values and the machine never leaves
    [GROUND_STATE]. *)
Lemma flight_state_stays_on_ground
    (deliveries : list (list byte * list byte * Z)) (w : W) :
  outcome_of respond (receive_all deliveries FlightLog.initial) w
  = Done FlightLog.initial.
Proof.
  revert w. induction deliveries as [|[[mac pkt] len] rest IH]; intros w.
  - reflexivity.
  - cbn [receive_all]. unfold outcome_of at 1. rewrite run_bind.
    rewrite (onEspNowReceive_without_sd mac pkt len FlightLog.initial w
               eq_refl eq_refl).
    cbn [fst snd]. apply IH.
Qed.

End StorageNeverReady.

(** * Runs on the bench *)

(** C1 (code defect).  The receive callback never calls [isValid]: a
    start-flight buffer whose checksum byte is wrong (wrong for the
    specified sum and rejected by [isValid]) starts the flight when the SD
    card is ready, and reaches [startNewFlightLog] even on the firmware's
    initial globals; an end-flight buffer with a wrong checksum ends a
    running flight. *)
Theorem corrupt_command_is_acted_upon :
  (ControlCommand.isValid (ControlCommand.memcpy corrupt_start_packet) = false
   /\ byte_val (ControlCommand.checksum
                  (ControlCommand.memcpy corrupt_start_packet))
      <> spec_checksum (ControlCommand.memcpy corrupt_start_packet))
  /\ outcome_of bench_respond
       (FlightLog.onEspNowReceive [] corrupt_start_packet 12 ground_sd_ready)
       (bench [7000; 7001])
     = Done (FlightLog.mkState FLIGHT_ACTIVE "/flight_log_000007.csv"
               true true 7001)
  /\ trace_of bench_respond
       (FlightLog.onEspNowReceive [] corrupt_start_packet 12 FlightLog.initial)
       (bench [])
     = [Ev (SerialPrintln "Cartão SD não está pronto!") tt]
  /\ (ControlCommand.isValid (ControlCommand.memcpy corrupt_end_packet) = false
      /\ outcome_of bench_respond
           (FlightLog.onEspNowReceive [] corrupt_end_packet 12 flying_since_0)
           (bench [5000])
         = Done (FlightLog.mkState POST_FLIGHT EmptyString true false 0)).
Proof.
  repeat split; try reflexivity.
  vm_compute. discriminate.
Qed.

(** C4, as stated, fails on the firmware's own initial globals: a
    start-flight command with a good checksum received in [GROUND_STATE]
    leaves the state in [GROUND_STATE], begins no session and records no
    timestamp, because [sdReady] is false. *)
Lemma start_flight_ignored_without_sd :
  ControlCommand.isValid (ControlCommand.memcpy start_packet) = true
  /\ byte_val (ControlCommand.checksum (ControlCommand.memcpy start_packet))
     = spec_checksum (ControlCommand.memcpy start_packet)
  /\ ControlCommand.type (ControlCommand.memcpy start_packet) = START_FLIGHT
  /\ FlightLog.currentFlightState FlightLog.initial = GROUND_STATE
  /\ exists s',
       outcome_of bench_respond
         (FlightLog.onEspNowReceive [] start_packet 12 FlightLog.initial)
         (bench [7000; 7001]) = Done s'
       /\ FlightLog.currentFlightState s' <> FLIGHT_ACTIVE
       /\ FlightLog.isFlightLogging s' = false
       /\ sessions_begun
            (trace_of bench_respond
               (FlightLog.onEspNowReceive [] start_packet 12 FlightLog.initial)
               (bench [7000; 7001])) = 0%nat.
Proof.
  repeat split; try reflexivity.
  exists FlightLog.initial. repeat split; try reflexivity. discriminate.
Qed.

Lemma start_flight_needs_storage_witness :
  let p := FlightLog.onEspNowReceive [] start_packet ControlCommand.sizeof
             ground_sd_ready in
  let tr := trace_of bench_respond p (bench [7000; 7001]) in
  let o := outcome_of bench_respond p (bench [7000; 7001]) in
  exists (t : Z) (ok : bool),
    let name :=
      ("/flight_log_" ++ decimal_06 (u32 t / 1000) ++ ".csv")%string in
    if ok then
      exists t' : Z,
        tr = [Ev Millis t; Ev (SdOpen name) true;
              Ev (FilePrintln name FlightLog.CSV_HEADER) tt;
              Ev (FileClose name) tt; Ev Millis t';
              Ev (SerialPrintln ("Novo log de voo iniciado: " ++ name)) tt]
        /\ o = Done (FlightLog.mkState FLIGHT_ACTIVE name
                       (FlightLog.sdReady ground_sd_ready) true (u32 t'))
        /\ sessions_begun tr = 1%nat
    else
      tr = [Ev Millis t; Ev (SdOpen name) false;
            Ev (SerialPrintln "Erro ao criar arquivo de log de voo.") tt]
      /\ o = Done (FlightLog.mkState GROUND_STATE name
                     (FlightLog.sdReady ground_sd_ready)
                     (FlightLog.isFlightLogging ground_sd_ready)
                     (FlightLog.flightStartTime ground_sd_ready))
      /\ sessions_begun tr = 0%nat.
Proof.
  exact (start_flight_needs_storage bench_respond [] start_packet
           ground_sd_ready (bench [7000; 7001]) eq_refl eq_refl).
Defined.

(** C7, as stated, fails on the firmware's own initial globals: after two
    start-flight commands with good checksums the state is still
    [GROUND_STATE] and no logging session was begun. *)
Lemma two_starts_without_sd_never_transition :
  ControlCommand.isValid (ControlCommand.memcpy start_packet) = true
  /\ FlightLog.currentFlightState FlightLog.initial = GROUND_STATE
  /\ exists s1 s2,
       let p1 := FlightLog.onEspNowReceive [] start_packet 12
                   FlightLog.initial in
       let p2 := FlightLog.onEspNowReceive [] start_packet 12 s1 in
       let w1 := world_after bench_respond p1 (bench [7000; 7001]) in
       outcome_of bench_respond p1 (bench [7000; 7001]) = Done s1
       /\ outcome_of bench_respond p2 w1 = Done s2
       /\ FlightLog.currentFlightState s2 = GROUND_STATE
       /\ FlightLog.currentFlightState s2 <> FLIGHT_ACTIVE
       /\ sessions_begun (trace_of bench_respond p1 (bench [7000; 7001])
                          ++ trace_of bench_respond p2 w1) <> 1%nat.
Proof.
  repeat split; try reflexivity.
  exists FlightLog.initial, FlightLog.initial.
  repeat split; try reflexivity; discriminate.
Qed.

Lemma repeated_commands_are_idempotent_witness :
  (let p1 := FlightLog.onEspNowReceive [] start_packet ControlCommand.sizeof
               ground_sd_ready in
   let tr1 := trace_of bench_respond p1 (bench [0; 0; 10]) in
   exists s1,
     outcome_of bench_respond p1 (bench [0; 0; 10]) = Done s1
     /\ let w1 := world_after bench_respond p1 (bench [0; 0; 10]) in
        let p2 :=
          FlightLog.onEspNowReceive [] start_packet ControlCommand.sizeof s1 in
        let tr := tr1 ++ trace_of bench_respond p2 w1 in
        (exists (t : Z) (ok : bool),
           let name :=
             ("/flight_log_" ++ decimal_06 (u32 t / 1000) ++ ".csv")%string
           in
           if ok then
             exists t' : Z,
               tr1 = [Ev Millis t; Ev (SdOpen name) true;
                      Ev (FilePrintln name FlightLog.CSV_HEADER) tt;
                      Ev (FileClose name) tt; Ev Millis t';
                      Ev (SerialPrintln
                            ("Novo log de voo iniciado: " ++ name)) tt]
               /\ s1 = FlightLog.mkState FLIGHT_ACTIVE name
                         (FlightLog.sdReady ground_sd_ready) true (u32 t')
               /\ run bench_respond p2 w1 = ([], Done s1, w1)
               /\ sessions_begun tr = 1%nat
           else
             tr1 = [Ev Millis t; Ev (SdOpen name) false;
                    Ev (SerialPrintln
                          "Erro ao criar arquivo de log de voo.") tt]
             /\ s1 = FlightLog.set_currentLogFilename name ground_sd_ready
             /\ p2 = FlightLog.startNewFlightLog s1)
        /\ exists s2,
             outcome_of bench_respond p2 w1 = Done s2
             /\ (sessions_begun tr <= 1)%nat
             /\ (sessions_begun tr = 1%nat
                 <-> FlightLog.currentFlightState s2 = FLIGHT_ACTIVE)
             /\ (sessions_begun tr = 0%nat
                 <-> FlightLog.currentFlightState s2 = GROUND_STATE)
             /\ (FlightLog.currentFlightState s1 = FLIGHT_ACTIVE ->
                 run bench_respond p2 w1 = ([], Done s1, w1)))
  /\ run bench_respond
       (FlightLog.onEspNowReceive [] end_packet ControlCommand.sizeof
          ground_sd_ready) (bench [0; 0; 10])
     = ([], Done ground_sd_ready, bench [0; 0; 10]).
Proof.
  refine (repeated_commands_are_idempotent bench_respond [] [] start_packet
            start_packet end_packet ground_sd_ready ground_sd_ready
            (bench [0; 0; 10]) eq_refl eq_refl eq_refl eq_refl _).
  discriminate.
Defined.


Lemma wrong_length_is_rejected_witness :
  run bench_respond
    (FlightLog.onEspNowReceive [] (firstn 11 start_packet) 11 flying_since_0)
    (bench [])
  = ([], Done flying_since_0, bench [])
  /\ exists w',
       run bench_respond
         (Base.onEspNowReceive [] (repeat x00 93) 93 Base.initial) (bench [])
       = ([Ev (SerialPrintf
                 "Tamanho de dados inválido. Esperado: %d, Recebido: %d\n"
                 [ArgZ SensorData.sizeof; ArgZ 93]) tt],
          Done Base.initial, w').
Proof.
  apply (wrong_length_is_rejected bench_respond [] (firstn 11 start_packet) 11
           flying_since_0 [] (repeat x00 93) 93 Base.initial (bench []));
    discriminate.
Defined.

(** The scenario of a whole flight on the bench: started at [millis() == 0]
    with the SD card ready, ended at 5000 ms, reported as 5 seconds. *)
Lemma flight_of_five_seconds :
  outcome_of bench_respond
    (FlightLog.onEspNowReceive [] start_packet 12 ground_sd_ready)
    (bench [0; 0; 5000])
  = Done flying_since_0
  /\ run bench_respond
       (FlightLog.onEspNowReceive [] end_packet 12 flying_since_0)
       (bench [5000])
     = ([Ev Millis 5000;
         Ev (SdOpen "/flight_log_000000.csv") true;
         Ev (FilePrintln "/flight_log_000000.csv" "# FIM DO VOO") tt;
         Ev (FilePrintf "/flight_log_000000.csv"
               "# Duração do Voo: %lu segundos\n" [ArgZ 5]) tt;
         Ev (FileClose "/flight_log_000000.csv") tt;
         Ev (SerialPrintf "Voo finalizado. Duração: %lu segundos\n"
               [ArgZ 5]) tt],
        Done (FlightLog.mkState POST_FLIGHT EmptyString true false 0),
        bench []).
Proof. split; reflexivity. Qed.

(** * The flight unit's sampling and transmission steps *)

Section RocketFacts.
Context {W : Type} (respond : forall R : Type, io R -> W -> R * W).

Ltac crank :=
  repeat (cbn [run bind call millis negb is_ESP_OK fst snd
               Rocket.setupEspNow Rocket.handleCommunicationErrors
               Rocket.sendSensorData];
          ask respond).

(** The handler of the send result, followed by the return of the
    tick. *)
Lemma handleCommunicationErrors_run
    (res : esp_err_t) (s1 : Rocket.State) (w : W) :
  let p := bind (Rocket.handleCommunicationErrors res) (fun _ => Ret s1) in
  after_send res (trace_of respond p w) (outcome_of respond p w) s1.
Proof.
  unfold trace_of, outcome_of. destruct res; cbn [after_send].
  - crank. split; reflexivity.
  - crank. exists r. destruct r; crank; cbn [is_ESP_OK].
    1:{ exists r, r0. destruct r0; crank; split; reflexivity. }
    all: split; reflexivity.
  - crank. split; reflexivity.
  - crank. split; reflexivity.
  - crank. split; reflexivity.
Qed.

(** C9.  Every run of [transmitData], case by case.  Below the cadence
    nothing happens.  Otherwise the peer table is consulted; an unknown
    peer is added first, and when adding fails the tick ends with the
    error message and no [esp_now_send].  A send is followed by what
    [after_send] allows: a not-initialised result is followed by the
    whole of [setupEspNow] (station mode, [esp_now_init], the send
    callback registered again, the peer added again; a device reset when
    [esp_now_init] fails), any other failure by one log line only, and
    no second send is attempted in the tick. *)
Theorem transmit_registers_peer_and_classifies_errors
    (s : Rocket.State) (w : W) :
  let tr := trace_of respond (Rocket.transmitData s) w in
  let o := outcome_of respond (Rocket.transmitData s) w in
  let addr := Config.EspNow.broadcastAddress in
  exists t : Z,
    let s1 := Rocket.set_lastTransmissionTime (u32 t) s in
    let send := EspNowSend addr (Rocket.sensorData s) SensorData.sizeof in
    if u32 (u32 t - Rocket.lastTransmissionTime s) <? TRANSMISSION_INTERVAL
    then tr = [Ev Millis t] /\ o = Done s
    else
      exists known : bool,
        if known then
          exists (res : esp_err_t) (tail : list event),
            tr = Ev Millis t :: Ev (EspNowIsPeerExist addr) true
                 :: Ev send res :: tail
            /\ after_send res tail o s1
            /\ sent_payloads tail = []
        else
          exists r : esp_err_t,
            if is_ESP_OK r then
              exists (res : esp_err_t) (tail : list event),
                tr = Ev Millis t :: Ev (EspNowIsPeerExist addr) false
                     :: Ev (EspNowAddPeer Rocket.broadcastPeer) r
                     :: Ev send res :: tail
                /\ after_send res tail o s1
                /\ sent_payloads tail = []
            else
              tr = [Ev Millis t; Ev (EspNowIsPeerExist addr) false;
                    Ev (EspNowAddPeer Rocket.broadcastPeer) r;
                    Ev (SerialPrintln
                          "Falha ao adicionar peer para transmissão") tt]
              /\ o = Done s1.
Proof.
  cbv zeta. unfold Rocket.transmitData.
  destruct (respond Z Millis w) as [t w1] eqn:Et. exists t.
  cbn [bind call millis].
  rewrite (trace_of_Vis respond Millis _ w w1 t Et).
  rewrite (outcome_of_Vis respond Millis _ w w1 t Et).
  cbn beta.
  destruct (u32 (u32 t - Rocket.lastTransmissionTime s)
            <? TRANSMISSION_INTERVAL) eqn:Hgate.
  - split; reflexivity.
  - cbn [Rocket.lastTransmissionTime Rocket.set_lastTransmissionTime
           Rocket.sensorData].
    destruct (respond bool (EspNowIsPeerExist Config.EspNow.broadcastAddress) w1)
      as [known w2] eqn:Ek.
    exists known.
    cbn [bind call].
    rewrite (trace_of_Vis respond _ _ w1 w2 known Ek).
    rewrite (outcome_of_Vis respond _ _ w1 w2 known Ek).
    destruct known; cbn [negb bind].
    + unfold Rocket.sendSensorData at 1 2.
      cbn [bind call Rocket.sensorData].
      match goal with
      | |- context [trace_of respond (Vis ?e ?k) w2] =>
          destruct (respond _ e w2) as [res w3] eqn:Es;
          rewrite (trace_of_Vis respond e k w2 w3 res Es);
          rewrite (outcome_of_Vis respond e k w2 w3 res Es)
      end.
      exists res. eexists. split; [reflexivity|].
      split; [apply handleCommunicationErrors_run|].
      unfold trace_of. destruct res; crank; try reflexivity.
      destruct r; crank; try reflexivity. destruct r0; crank; reflexivity.
    + match goal with
      | |- context [trace_of respond (Vis ?e ?k) w2] =>
          destruct (respond _ e w2) as [r w3] eqn:Ea;
          rewrite (trace_of_Vis respond e k w2 w3 r Ea);
          rewrite (outcome_of_Vis respond e k w2 w3 r Ea)
      end.
      exists r.
      destruct (is_ESP_OK r) eqn:Hr; cbn [negb bind call].
      * unfold Rocket.sendSensorData at 1 2.
        cbn [bind call Rocket.sensorData].
        match goal with
        | |- context [trace_of respond (Vis ?e ?k) w3] =>
            destruct (respond _ e w3) as [res w4] eqn:Es;
            rewrite (trace_of_Vis respond e k w3 w4 res Es);
            rewrite (outcome_of_Vis respond e k w3 w4 res Es)
        end.
        exists res. eexists. split; [reflexivity|].
        split; [apply handleCommunicationErrors_run|].
        unfold trace_of. destruct res; crank; try reflexivity.
        destruct r0; crank; try reflexivity. destruct r1; crank; reflexivity.
      * unfold trace_of, outcome_of. crank. split; reflexivity.
Qed.

Ltac feed :=
  repeat (cbn [bind call millis];
          match goal with
          | H : answers respond ?w ?e ?r ?w' |- context [run respond (Vis ?e ?k) ?w] =>
              rewrite (run_Vis respond e k w w' r H)
          | H : answers respond ?w ?e ?r ?w'
            |- context [trace_of respond (Vis ?e ?k) ?w] =>
              rewrite (trace_of_Vis respond e k w w' r H)
          | H : answers respond ?w ?e ?r ?w'
            |- context [outcome_of respond (Vis ?e ?k) ?w] =>
              rewrite (outcome_of_Vis respond e k w w' r H)
          | H : answers respond ?w ?e ?r ?w'
            |- context [world_after respond (Vis ?e ?k) ?w] =>
              rewrite (world_after_Vis respond e k w w' r H)
          end; cbn beta).

Lemma updateSensorData_below_gate
    (s : Rocket.State) (w w1 w2 : W) (t adc : Z) :
  answers respond w Millis t w1 ->
  answers respond w1 (AnalogRead Config.Hardware.ADC_PIN) adc w2 ->
  u32 (u32 t - Rocket.lastSensorReadTime s) < SENSOR_READ_INTERVAL ->
  run respond (Rocket.updateSensorData s) w
  = ([Ev Millis t; Ev (AnalogRead Config.Hardware.ADC_PIN) adc],
     Done (with_voltage adc s), w2).
Proof.
  intros Ht Ha Hgate. apply Z.ltb_lt in Hgate.
  unfold Rocket.updateSensorData. feed.
  cbn [Rocket.lastSensorReadTime Rocket.set_sensorData].
  rewrite Hgate. reflexivity.
Qed.

Lemma transmitData_below_gate (s : Rocket.State) (w w1 : W) (t : Z) :
  answers respond w Millis t w1 ->
  u32 (u32 t - Rocket.lastTransmissionTime s) < TRANSMISSION_INTERVAL ->
  run respond (Rocket.transmitData s) w = ([Ev Millis t], Done s, w1).
Proof.
  intros Ht Hgate. apply Z.ltb_lt in Hgate.
  unfold Rocket.transmitData. feed. rewrite Hgate. reflexivity.
Qed.

Lemma updateSensorData_warm_up
    (s : Rocket.State) (w w1 w2 w3 : W) (t adc : Z) (m : vec3 * vec3 * R) :
  answers respond w Millis t w1 ->
  answers respond w1 (AnalogRead Config.Hardware.ADC_PIN) adc w2 ->
  answers respond w2 MpuGetEvent m w3 ->
  SENSOR_READ_INTERVAL <= u32 (u32 t - Rocket.lastSensorReadTime s) ->
  Rocket.lastUpdateTime s = 0 ->
  run respond (Rocket.updateSensorData s) w
  = ([Ev Millis t; Ev (AnalogRead Config.Hardware.ADC_PIN) adc;
      Ev MpuGetEvent m],
     Done (Rocket.set_lastUpdateTime (u32 t)
             (Rocket.set_lastSensorReadTime (u32 t) (with_voltage adc s))),
     w3).
Proof.
  intros Ht Ha Hm Hgate Hup.
  assert (Hg : (u32 (u32 t - Rocket.lastSensorReadTime s)
                <? SENSOR_READ_INTERVAL) = false)
    by (apply Z.ltb_ge; exact Hgate).
  unfold Rocket.updateSensorData. feed.
  cbn [Rocket.lastSensorReadTime Rocket.set_sensorData].
  rewrite Hg. feed. destruct m as [[a g] temp].
  cbn [Rocket.lastUpdateTime Rocket.set_lastSensorReadTime
       Rocket.set_sensorData].
  rewrite Hup. reflexivity.
Qed.

(** A sample taken after the warm-up tick: the fused angles and what
    goes into the record. *)
Lemma updateSensorData_fused
    (s : Rocket.State) (w w1 w2 w3 : W) (t adc : Z) (a g : vec3) (temp : R) :
  answers respond w Millis t w1 ->
  answers respond w1 (AnalogRead Config.Hardware.ADC_PIN) adc w2 ->
  answers respond w2 MpuGetEvent (a, g, temp) w3 ->
  SENSOR_READ_INTERVAL <= u32 (u32 t - Rocket.lastSensorReadTime s) ->
  Rocket.lastUpdateTime s <> 0 ->
  let dt := (IZR (u32 (u32 t - Rocket.lastUpdateTime s)) / 1000.0)%R in
  let pitch' :=
    (COMPLEMENTARY_FILTER_ALPHA
       * (Rocket.pitch s + x g * dt * Arduino.RAD_TO_DEG)
     + (1 - COMPLEMENTARY_FILTER_ALPHA) * Rocket.accPitch a)%R in
  let roll' :=
    (COMPLEMENTARY_FILTER_ALPHA
       * (Rocket.roll s + y g * dt * Arduino.RAD_TO_DEG)
     + (1 - COMPLEMENTARY_FILTER_ALPHA) * Rocket.accRoll a)%R in
  exists s',
    outcome_of respond (Rocket.updateSensorData s) w = Done s'
    /\ Rocket.pitch s' = pitch'
    /\ Rocket.roll s' = roll'
    /\ SensorData.acelerometro (Rocket.sensorData s')
       = AcelerometerData.mk (x a) (y a) (z a) (x g) (y g) (z g) temp
           pitch' roll'
    /\ Rocket.lastUpdateTime s' = u32 t
    /\ SensorData.timestamp (Rocket.sensorData s') = IZR (u32 t).
Proof.
  intros Ht Ha Hm Hgate Hup.
  assert (Hg : (u32 (u32 t - Rocket.lastSensorReadTime s)
                <? SENSOR_READ_INTERVAL) = false)
    by (apply Z.ltb_ge; exact Hgate).
  apply Z.eqb_neq in Hup.
  unfold Rocket.updateSensorData. feed.
  cbn [Rocket.lastSensorReadTime Rocket.set_sensorData].
  rewrite Hg. feed.
  cbn [Rocket.lastUpdateTime Rocket.set_lastSensorReadTime
       Rocket.set_sensorData].
  rewrite Hup.
  unfold outcome_of. crank.
  eexists. repeat split; reflexivity.
Qed.

(** Whatever a tick of [transmitData] sends is the shared record as it
    stands, and it sends at most once. *)
Lemma transmitData_payloads (s : Rocket.State) (w : W) :
  sent_payloads (trace_of respond (Rocket.transmitData s) w) = []
  \/ sent_payloads (trace_of respond (Rocket.transmitData s) w)
     = [Rocket.sensorData s].
Proof.
  unfold trace_of, Rocket.transmitData. crank.
  destruct (u32 (u32 r - Rocket.lastTransmissionTime s)
            <? TRANSMISSION_INTERVAL); [left; reflexivity|].
  crank. destruct r0; crank.
  - right. destruct r0; crank; try reflexivity.
    destruct r0; crank; try reflexivity. destruct r1; crank; reflexivity.
  - destruct r0; crank; try (left; reflexivity).
    right. destruct r0; crank; try reflexivity.
    destruct r0; crank; try reflexivity. destruct r1; crank; reflexivity.
Qed.

(** A tick of [transmitData] that passes its cadence gate with the link
    up (the peer known, or unknown and added without error) hands the
    shared record to [esp_now_send], once. *)
Lemma transmitData_sends
    (s : Rocket.State) (v v1 v2 : W) (t : Z) (known : bool) :
  answers respond v Millis t v1 ->
  TRANSMISSION_INTERVAL <= u32 (u32 t - Rocket.lastTransmissionTime s) ->
  answers respond v1 (EspNowIsPeerExist Config.EspNow.broadcastAddress)
    known v2 ->
  (known = false ->
   exists v3,
     answers respond v2 (EspNowAddPeer Rocket.broadcastPeer) ESP_OK v3) ->
  sent_payloads (trace_of respond (Rocket.transmitData s) v)
  = [Rocket.sensorData s].
Proof.
  intros Ht Hgate Hk Hadd. apply Z.ltb_ge in Hgate.
  unfold Rocket.transmitData. feed. rewrite Hgate. feed.
  destruct known; cbn [negb].
  - unfold trace_of. crank. destruct r; crank; try reflexivity.
    destruct r; crank; try reflexivity. destruct r0; crank; reflexivity.
  - destruct (Hadd eq_refl) as (v3 & Ha). feed. cbn [is_ESP_OK negb].
    unfold trace_of. crank. destruct r; crank; try reflexivity.
    destruct r; crank; try reflexivity. destruct r0; crank; reflexivity.
Qed.

(** C5, as amended.  With [t] the clock reading of the call and the
    elapsed times taken modulo 2^32: a sample is taken exactly when at
    least 100 ms have elapsed since the last one, a transmission is
    attempted exactly when at least 500 ms have elapsed since the last
    one; below its cadence the transmission step is a no-op, and the
    sampling step changes nothing but the flight-unit voltage of the
    telemetry record, which it writes on every call. *)
Theorem cadence_gates (s : Rocket.State) (w w1 : W) (t : Z) :
  answers respond w Millis t w1 ->
  let sampling := u32 (u32 t - Rocket.lastSensorReadTime s) in
  let sending := u32 (u32 t - Rocket.lastTransmissionTime s) in
  existsb is_sensor_read (trace_of respond (Rocket.updateSensorData s) w)
    = (SENSOR_READ_INTERVAL <=? sampling)
  /\ existsb is_peer_query (trace_of respond (Rocket.transmitData s) w)
     = (TRANSMISSION_INTERVAL <=? sending)
  /\ (sampling < SENSOR_READ_INTERVAL ->
      exists (adc : Z) (w2 : W),
        run respond (Rocket.updateSensorData s) w
        = ([Ev Millis t; Ev (AnalogRead Config.Hardware.ADC_PIN) adc],
           Done (with_voltage adc s), w2))
  /\ (sending < TRANSMISSION_INTERVAL ->
      run respond (Rocket.transmitData s) w = ([Ev Millis t], Done s, w1)).
Proof.
  intros Ht sampling sending. subst sampling sending.
  destruct (respond Z (AnalogRead Config.Hardware.ADC_PIN) w1)
    as [adc w2] eqn:Ea.
  fold (answers respond w1 (AnalogRead Config.Hardware.ADC_PIN) adc w2) in Ea.
  repeat split.
  - destruct (Z.leb_spec SENSOR_READ_INTERVAL
                (u32 (u32 t - Rocket.lastSensorReadTime s))) as [Hge|Hlt].
    + apply Z.ltb_ge in Hge.
      unfold Rocket.updateSensorData. feed.
      cbn [Rocket.lastSensorReadTime Rocket.set_sensorData].
      rewrite Hge.
      destruct (respond _ MpuGetEvent w2) as [m w3] eqn:Em.
      fold (answers respond w2 MpuGetEvent m w3) in Em. feed.
      reflexivity.
    + unfold trace_of.
      rewrite (updateSensorData_below_gate s w w1 w2 t adc Ht Ea Hlt).
      reflexivity.
  - destruct (Z.leb_spec TRANSMISSION_INTERVAL
                (u32 (u32 t - Rocket.lastTransmissionTime s))) as [Hge|Hlt].
    + apply Z.ltb_ge in Hge.
      unfold Rocket.transmitData. feed. rewrite Hge.
      destruct (respond _ (EspNowIsPeerExist Config.EspNow.broadcastAddress) w1)
        as [known w2'] eqn:Ek.
      fold (answers respond w1
              (EspNowIsPeerExist Config.EspNow.broadcastAddress) known w2')
        in Ek.
      feed. reflexivity.
    + unfold trace_of. rewrite (transmitData_below_gate s w w1 t Ht Hlt).
      reflexivity.
  - intros Hlt. exists adc, w2.
    apply (updateSensorData_below_gate s w w1 w2 t adc Ht Ea Hlt).
  - intros Hlt. apply (transmitData_below_gate s w w1 t Ht Hlt).
Qed.


(** C10.  As long as no fusion has happened ([lastUpdateTime] still 0
    and the record zero but for the voltage, as at start-up), a call of
    [updateSensorData] leaves every field of the telemetry record but
    the flight-unit voltage at zero; when it passes the cadence gate it
    returns right after the motion sensor was read, having only noted
    the time.  A transmission tick that follows broadcasts that
    zero-filled record: whenever [transmitData] passes its own gate with
    the link up (the peer known, or added without error) it hands exactly
    this record to [esp_now_send], once; and whatever it sends, if
    anything, is that record. *)
Theorem warm_up_tick_leaves_zero_record (s : Rocket.State) (w v : W) :
  Rocket.lastUpdateTime s = 0 ->
  zero_but_voltage (Rocket.sensorData s) ->
  let tr := trace_of respond (Rocket.updateSensorData s) w in
  exists s1,
    outcome_of respond (Rocket.updateSensorData s) w = Done s1
    /\ zero_but_voltage (Rocket.sensorData s1)
    /\ Rocket.pitch s1 = Rocket.pitch s
    /\ Rocket.roll s1 = Rocket.roll s
    /\ (existsb is_sensor_read tr = true ->
        exists (t adc : Z) (m : vec3 * vec3 * R),
          tr = [Ev Millis t; Ev (AnalogRead Config.Hardware.ADC_PIN) adc;
                Ev MpuGetEvent m]
          /\ Rocket.lastSensorReadTime s1 = u32 t
          /\ Rocket.lastUpdateTime s1 = u32 t)
    /\ (sent_payloads (trace_of respond (Rocket.transmitData s1) v) = []
        \/ sent_payloads (trace_of respond (Rocket.transmitData s1) v)
           = [Rocket.sensorData s1])
    /\ Forall zero_but_voltage
         (sent_payloads (trace_of respond (Rocket.transmitData s1) v))
    /\ Rocket.lastTransmissionTime s1 = Rocket.lastTransmissionTime s
    /\ (forall (t' : Z) (v1 v2 : W) (known : bool),
          answers respond v Millis t' v1 ->
          TRANSMISSION_INTERVAL
          <= u32 (u32 t' - Rocket.lastTransmissionTime s) ->
          answers respond v1
            (EspNowIsPeerExist Config.EspNow.broadcastAddress) known v2 ->
          (known = false ->
           exists v3,
             answers respond v2 (EspNowAddPeer Rocket.broadcastPeer)
               ESP_OK v3) ->
          sent_payloads (trace_of respond (Rocket.transmitData s1) v)
          = [Rocket.sensorData s1]).
Proof.
  intros Hup Hz tr. subst tr.
  destruct (respond Z Millis w) as [t w1] eqn:Et.
  destruct (respond Z (AnalogRead Config.Hardware.ADC_PIN) w1)
    as [adc w2] eqn:Ea.
  destruct (respond _ MpuGetEvent w2) as [m w3] eqn:Em.
  assert (Hzv : zero_but_voltage (Rocket.sensorData (with_voltage adc s))).
  { unfold zero_but_voltage in *. unfold with_voltage.
    cbn [Rocket.sensorData Rocket.set_sensorData]. rewrite Hz. reflexivity. }
  assert (Hsend : forall s1,
             zero_but_voltage (Rocket.sensorData s1) ->
             (sent_payloads (trace_of respond (Rocket.transmitData s1) v) = []
              \/ sent_payloads (trace_of respond (Rocket.transmitData s1) v)
                 = [Rocket.sensorData s1])
             /\ Forall zero_but_voltage
                  (sent_payloads
                     (trace_of respond (Rocket.transmitData s1) v))).
  { intros s1 Hz1. split; [apply transmitData_payloads|].
    destruct (transmitData_payloads s1 v) as [E|E]; rewrite E;
      repeat constructor; exact Hz1. }
  destruct (Z.ltb_spec (u32 (u32 t - Rocket.lastSensorReadTime s))
              SENSOR_READ_INTERVAL) as [Hlt|Hge].
  - unfold trace_of, outcome_of.
    rewrite (updateSensorData_below_gate s w w1 w2 t adc Et Ea Hlt).
    cbn [fst snd]. exists (with_voltage adc s).
    repeat split; try reflexivity; try exact Hzv; try apply Hsend;
      try exact Hzv.
    + cbn. discriminate.
    + intros t' v1 v2 known Ht' Hgate Hk Hadd.
      apply (fun s0 => transmitData_sends s0 v v1 v2 t' known Ht');
        [exact Hgate|exact Hk|exact Hadd].
  - unfold trace_of, outcome_of.
    rewrite (updateSensorData_warm_up s w w1 w2 w3 t adc m Et Ea Em Hge Hup).
    cbn [fst snd]. eexists.
    repeat split; try reflexivity; try exact Hzv; try apply Hsend;
      try exact Hzv.
    + intros _. exists t, adc, m. repeat split; reflexivity.
    + intros t' v1 v2 known Ht' Hgate Hk Hadd.
      apply (fun s0 => transmitData_sends s0 v v1 v2 t' known Ht');
        [exact Hgate|exact Hk|exact Hadd].
Qed.

End RocketFacts.

(** * The sampling and transmission steps on the bench *)

(** C5, as stated, fails for the sampling step: 50 ms after the last
    sample the cadence has not elapsed, yet the call changes the state,
    because the flight-unit voltage is written before the gate. *)
Lemma sampling_below_cadence_writes_voltage :
  u32 (u32 1050 - Rocket.lastSensorReadTime warmed_up) < SENSOR_READ_INTERVAL
  /\ exists s',
       outcome_of bench_respond (Rocket.updateSensorData warmed_up)
         (bench_sampling [1050] 4095 (mk_vec3 0 0 0) (mk_vec3 0 0 0)) = Done s'
       /\ VoltageData.voltage_rocket
            (SensorData.tensao (Rocket.sensorData s'))
          <> VoltageData.voltage_rocket
               (SensorData.tensao (Rocket.sensorData warmed_up))
       /\ s' <> warmed_up.
Proof.
  split; [reflexivity|].
  exists (with_voltage 4095 warmed_up).
  assert (Hv : VoltageData.voltage_rocket
                 (SensorData.tensao
                    (Rocket.sensorData (with_voltage 4095 warmed_up)))
               <> VoltageData.voltage_rocket
                    (SensorData.tensao (Rocket.sensorData warmed_up))).
  { cbn. unfold Rocket.tensaoReal, VREF, Config.Hardware.ADC_MULTIPLIER. lra. }
  split; [|split].
  - unfold outcome_of.
    rewrite (updateSensorData_below_gate bench_respond warmed_up
               (bench_sampling [1050] 4095 (mk_vec3 0 0 0) (mk_vec3 0 0 0))
               (bench_sampling [] 4095 (mk_vec3 0 0 0) (mk_vec3 0 0 0))
               (bench_sampling [] 4095 (mk_vec3 0 0 0) (mk_vec3 0 0 0))
               1050 4095 eq_refl eq_refl eq_refl).
    reflexivity.
  - exact Hv.
  - intros H. apply Hv. rewrite H. reflexivity.
Qed.

Lemma cadence_gates_witness :
  let s := before_wrap in
  let w := bench [49] in
  let sampling := u32 (u32 49 - Rocket.lastSensorReadTime s) in
  let sending := u32 (u32 49 - Rocket.lastTransmissionTime s) in
  existsb is_sensor_read (trace_of bench_respond (Rocket.updateSensorData s) w)
    = (SENSOR_READ_INTERVAL <=? sampling)
  /\ existsb is_peer_query (trace_of bench_respond (Rocket.transmitData s) w)
     = (TRANSMISSION_INTERVAL <=? sending)
  /\ (sampling < SENSOR_READ_INTERVAL ->
      exists (adc : Z) (w2 : Bench),
        run bench_respond (Rocket.updateSensorData s) w
        = ([Ev Millis 49; Ev (AnalogRead Config.Hardware.ADC_PIN) adc],
           Done (with_voltage adc s), w2))
  /\ (sending < TRANSMISSION_INTERVAL ->
      run bench_respond (Rocket.transmitData s) w
      = ([Ev Millis 49], Done s, bench [])).
Proof.
  exact (cadence_gates bench_respond before_wrap (bench [49]) (bench []) 49
           eq_refl).
Defined.


Lemma warm_up_tick_leaves_zero_record_witness :
  let s := Rocket.initial in
  let w := bench [1000] in
  let v := bench [1000] in
  let tr := trace_of bench_respond (Rocket.updateSensorData s) w in
  exists s1,
    outcome_of bench_respond (Rocket.updateSensorData s) w = Done s1
    /\ zero_but_voltage (Rocket.sensorData s1)
    /\ existsb is_sensor_read tr = true
    /\ sent_payloads (trace_of bench_respond (Rocket.transmitData s1) v)
       = [Rocket.sensorData s1].
Proof.
  destruct (warm_up_tick_leaves_zero_record bench_respond Rocket.initial
              (bench [1000]) (bench [1000]) eq_refl eq_refl)
    as (s1 & Ho & Hz & _ & _ & _ & _ & _ & _ & Hsend).
  exists s1. split; [exact Ho|]. split; [exact Hz|]. split; [reflexivity|].
  apply (Hsend 1000 (bench []) (bench []) true).
  - reflexivity.
  - vm_compute. discriminate.
  - reflexivity.
  - discriminate.
Defined.

(** The static roll of a unit lying upside down and level: with the
    reading [+0.0] on x the firmware calls [atan2(-0.0, z)] with [z]
    negative, which is [-pi], so the roll is -180 degrees; with the
    reading [-0.0] it is +180 degrees. *)
Lemma roll_upside_down_follows_the_sign_of_zero :
  Rocket.accRoll (mk_vec3 0 0 (-1))
  = (- Rtrigo1.PI * 180.0 / Arduino.PI)%R
  /\ Rocket.accRoll (mk_float3 (mk_float 0 true) (fl 0) (fl (-1)))
     = (Rtrigo1.PI * 180.0 / Arduino.PI)%R.
Proof.
  unfold Rocket.accRoll, atan2, mk_vec3, fneg, fl.
  cbn [x z val minus_zero negb].
  split.
  - destruct (Rlt_dec 0 (-1)) as [H|_]; [lra|].
    destruct (Rlt_dec (-1) 0) as [_|H]; [|lra].
    destruct (Rlt_dec 0 (- 0)) as [H|_]; [lra|].
    destruct (Rlt_dec (- 0) 0) as [H|_]; [lra|].
    reflexivity.
  - destruct (Rlt_dec 0 (-1)) as [H|_]; [lra|].
    destruct (Rlt_dec (-1) 0) as [_|H]; [|lra].
    destruct (Rlt_dec 0 (- 0)) as [H|_]; [lra|].
    destruct (Rlt_dec (- 0) 0) as [H|_]; [lra|].
    reflexivity.
Qed.

(** The first iteration of [loop()], one second after start-up: the sample
    is the warm-up tick and the record that goes out is zero-filled. *)
Lemma first_broadcast_is_zero_filled :
  sent_payloads
    (trace_of bench_respond (Rocket.loop Rocket.initial) (bench [1000; 1000]))
  = [SensorData.set_voltage_rocket (Rocket.tensaoReal 0) SensorData.zero].
Proof. reflexivity. Qed.

(** Two ticks of [transmitData] on the bench, one second after start-up.
    With the peer unknown and [esp_now_add_peer] out of memory the tick
    ends without a send; with a send answered "not initialised" the
    transport is set up again in the same tick. *)
Lemma transmit_aborts_when_peer_cannot_be_added :
  run bench_respond (Rocket.transmitData Rocket.initial)
    (bench_link [1000] false ESP_ERR_ESPNOW_NO_MEM ESP_OK ESP_OK)
  = ([Ev Millis 1000;
      Ev (EspNowIsPeerExist Config.EspNow.broadcastAddress) false;
      Ev (EspNowAddPeer Rocket.broadcastPeer) ESP_ERR_ESPNOW_NO_MEM;
      Ev (SerialPrintln "Falha ao adicionar peer para transmissão") tt],
     Done (Rocket.set_lastTransmissionTime 1000 Rocket.initial),
     bench_link [] false ESP_ERR_ESPNOW_NO_MEM ESP_OK ESP_OK).
Proof. reflexivity. Qed.

Lemma transmit_sets_the_link_up_again :
  run bench_respond (Rocket.transmitData Rocket.initial)
    (bench_link [1000] true ESP_OK ESP_ERR_ESPNOW_NOT_INIT ESP_OK)
  = ([Ev Millis 1000;
      Ev (EspNowIsPeerExist Config.EspNow.broadcastAddress) true;
      Ev (EspNowSend Config.EspNow.broadcastAddress SensorData.zero 92)
         ESP_ERR_ESPNOW_NOT_INIT;
      Ev (SerialPrintln "ESP-NOW nao inicializado") tt;
      Ev WiFiModeSta tt;
      Ev EspNowInit ESP_OK;
      Ev EspNowRegisterSendCb ESP_OK;
      Ev (EspNowAddPeer Rocket.broadcastPeer) ESP_OK],
     Done (Rocket.set_lastTransmissionTime 1000 Rocket.initial),
     bench_link [] true ESP_OK ESP_ERR_ESPNOW_NOT_INIT ESP_OK).
Proof. reflexivity. Qed.

(** * More about the command record *)

Lemma le_value_le_bytes (n : nat) (v : Z) :
  le_value (le_bytes n v) = v mod 2 ^ (8 * Z.of_nat n).
Proof.
  revert v. induction n as [|n IH]; intros v.
  - cbn [le_bytes le_value]. rewrite Z.mul_0_r, Z.pow_0_r, Z.mod_1_r.
    reflexivity.
  - cbn [le_bytes le_value]. rewrite IH, byte_val_of_Z.
    rewrite Z.shiftr_div_pow2 by lia.
    replace (8 * Z.of_nat (S n)) with (8 + 8 * Z.of_nat n) by lia.
    rewrite Z.pow_add_r by lia. change (2 ^ 8) with 256.
    rewrite Z.rem_mul_r by (try lia; apply Z.pow_pos_nonneg; lia).
    reflexivity.
Qed.

Lemma ground_object_bytes (c : LaunchCommand.t) (padding : byte) :
  Ground.object_bytes c padding
  = ControlCommand.object_bytes
      (ControlCommand.mk (LaunchCommand.type c) (LaunchCommand.timestamp c)
         (LaunchCommand.sequenceId c) (byte_of_Z (LaunchCommand.checksum c))
         padding).
Proof. reflexivity. Qed.

Lemma memcpy_object_bytes (ty ts sq : Z) (k p : byte) :
  ControlCommand.memcpy
    (ControlCommand.object_bytes (ControlCommand.mk ty ts sq k p))
  = ControlCommand.mk (ty mod 2 ^ 32) (ts mod 2 ^ 32) (sq mod 2 ^ 16) k p.
Proof.
  unfold ControlCommand.memcpy, ControlCommand.object_bytes.
  cbn [ControlCommand.type ControlCommand.timestamp ControlCommand.sequenceId
       ControlCommand.checksum ControlCommand.padding].
  change (firstn 4 (le_bytes 4 ty ++ le_bytes 4 ts ++ le_bytes 2 sq ++ [k; p]))
    with (le_bytes 4 ty).
  change (firstn 4 (skipn 4
            (le_bytes 4 ty ++ le_bytes 4 ts ++ le_bytes 2 sq ++ [k; p])))
    with (le_bytes 4 ts).
  change (firstn 2 (skipn 8
            (le_bytes 4 ty ++ le_bytes 4 ts ++ le_bytes 2 sq ++ [k; p])))
    with (le_bytes 2 sq).
  change (nth 10 (le_bytes 4 ty ++ le_bytes 4 ts ++ le_bytes 2 sq ++ [k; p]) x00)
    with k.
  change (nth 11 (le_bytes 4 ty ++ le_bytes 4 ts ++ le_bytes 2 sq ++ [k; p]) x00)
    with p.
  rewrite !le_value_le_bytes. reflexivity.
Qed.

Lemma object_bytes_length (c : ControlCommand.t) :
  List.length (ControlCommand.object_bytes c) = 12%nat.
Proof. reflexivity. Qed.

(** X1.  [isValid] depends on the ten bytes before the checksum field and
    on nothing else: it holds exactly when they sum to 0 modulo 256, so
    replacing the checksum byte (or the padding byte) of any record never
    changes the verdict. *)
Theorem validator_reads_only_the_preceding_bytes
    (c : ControlCommand.t) (k p : byte) :
  (ControlCommand.isValid c = true
   <-> byte_total (ControlCommand.preceding_bytes c) mod 256 = 0)
  /\ ControlCommand.isValid
       (ControlCommand.mk (ControlCommand.type c) (ControlCommand.timestamp c)
          (ControlCommand.sequenceId c) k p)
     = ControlCommand.isValid c.
Proof.
  split.
  - rewrite isValid_iff_preceding_sum_zero, sum_bytes_total. reflexivity.
  - destruct c as [ty ts sq k0 p0]. apply isValid_ignores_checksum.
Qed.

(** X2.  A record the validator accepts is rejected once any single one
    of the ten bytes before its checksum field is replaced by a different
    byte. *)
Theorem validator_detects_one_changed_byte
    (bs : list byte) (i : nat) (b' : byte) :
  List.length bs = 12%nat ->
  (i < 10)%nat ->
  b' <> nth i bs x00 ->
  ControlCommand.isValid (ControlCommand.memcpy bs) = true ->
  ControlCommand.isValid (ControlCommand.memcpy (flip_byte i b' bs)) = false.
Proof. apply single_byte_change_invalidates. Qed.

Lemma validator_detects_one_changed_byte_witness :
  ControlCommand.isValid
    (ControlCommand.memcpy (flip_byte 4 x00 start_packet)) = false.
Proof.
  apply (validator_detects_one_changed_byte start_packet 4 x00).
  - reflexivity.
  - lia.
  - discriminate.
  - reflexivity.
Defined.

(** X3.  Copying a 12-byte buffer into a [ControlCommand] and reading the
    object's bytes back gives the buffer; and a command whose fields fit
    their types survives being written out and copied back in. *)
Theorem command_bytes_round_trip (bs : list byte) (c : ControlCommand.t) :
  List.length bs = 12%nat ->
  0 <= ControlCommand.type c < 2 ^ 32 ->
  0 <= ControlCommand.timestamp c < 2 ^ 32 ->
  0 <= ControlCommand.sequenceId c < 2 ^ 16 ->
  ControlCommand.object_bytes (ControlCommand.memcpy bs) = bs
  /\ ControlCommand.memcpy (ControlCommand.object_bytes c) = c
  /\ List.length (ControlCommand.object_bytes c)
     = Z.to_nat ControlCommand.sizeof.
Proof.
  intros Hlen Hty Hts Hsq. split; [apply object_bytes_memcpy, Hlen|].
  split; [|reflexivity].
  destruct c as [ty ts sq k p].
  cbn [ControlCommand.type ControlCommand.timestamp ControlCommand.sequenceId]
    in Hty, Hts, Hsq.
  rewrite memcpy_object_bytes, !Z.mod_small by lia. reflexivity.
Qed.

Lemma command_bytes_round_trip_witness :
  ControlCommand.object_bytes (ControlCommand.memcpy start_packet)
  = start_packet
  /\ ControlCommand.memcpy
       (ControlCommand.object_bytes (ControlCommand.mk 2 5000 7 x01 x00))
     = ControlCommand.mk 2 5000 7 x01 x00
  /\ List.length
       (ControlCommand.object_bytes (ControlCommand.mk 2 5000 7 x01 x00))
     = Z.to_nat ControlCommand.sizeof.
Proof.
  apply (command_bytes_round_trip start_packet
           (ControlCommand.mk 2 5000 7 x01 x00)); cbn; try reflexivity; lia.
Defined.

(** * The ground unit's commands, and the flight unit reading them *)

Lemma sendFlightCommand_transmits (type : CommandType) (a : Ground.Answers)
    (s : Ground.State) :
  Ground.peer_exists a = true \/ Ground.add_peer a = ESP_OK ->
  Ground.sent (snd (Ground.sendFlightCommand type a s))
  = [(Ground.broadcastAddress,
      Ground.object_bytes
        (Ground.prepare type a
           (Ground.mkState (Ground.nextSequenceId s)
              (mk_peer Ground.broadcastAddress Ground.CHANNEL false)))
        (Ground.tail_padding a))]
  /\ Ground.nextSequenceId (fst (Ground.sendFlightCommand type a s))
     = u16 (Ground.nextSequenceId s + 1).
Proof.
  intros H. unfold Ground.sendFlightCommand.
  destruct (Ground.peer_exists a); cbn [negb].
  - split; reflexivity.
  - destruct H as [H|H]; [discriminate|]. rewrite H. split; reflexivity.
Qed.

Lemma preceding_total_of_small_kind (ty ts sq : Z) (k p : byte) :
  0 <= ty < 256 ->
  byte_total (ControlCommand.preceding_bytes (ControlCommand.mk ty ts sq k p))
    mod 256
  = spec_checksum (ControlCommand.mk ty ts sq k p).
Proof.
  intros Hty. unfold spec_checksum, ControlCommand.preceding_bytes,
    ControlCommand.object_bytes.
  cbn [ControlCommand.type ControlCommand.timestamp ControlCommand.sequenceId
       ControlCommand.checksum ControlCommand.padding
       le_bytes app firstn byte_total fold_right].
  rewrite !byte_val_of_Z.
  rewrite !Z.shiftr_shiftr, !Z.shiftr_div_pow2 by lia.
  rewrite (Z.div_small ty (2 ^ 8)), (Z.div_small ty (2 ^ (8 + 8))),
    (Z.div_small ty (2 ^ (8 + 8 + 8))) by (cbn; lia).
  rewrite Z.mod_0_l by lia. f_equal. lia.
Qed.

(** X4.  What the ground unit broadcasts for a command is exactly what the
    flight unit copies in: twelve bytes that decode to the same kind, the
    ground clock reading, the sequence number the ground unit held before
    the call, and a checksum byte equal to the sum modulo 256 of the kind
    byte, the four timestamp bytes and the two sequence bytes. *)
Theorem ground_command_reaches_the_flight_unit
    (type : CommandType) (a : Ground.Answers) (s : Ground.State) :
  0 <= type < 2 ^ 32 ->
  0 <= Ground.nextSequenceId s < 2 ^ 16 ->
  Ground.peer_exists a = true \/ Ground.add_peer a = ESP_OK ->
  exists buffer : list byte,
    Ground.sent (snd (Ground.sendFlightCommand type a s))
    = [(Ground.broadcastAddress, buffer)]
    /\ Z.of_nat (List.length buffer) = ControlCommand.sizeof
    /\ ControlCommand.type (ControlCommand.memcpy buffer) = type
    /\ ControlCommand.timestamp (ControlCommand.memcpy buffer)
       = u32 (Ground.clock a)
    /\ ControlCommand.sequenceId (ControlCommand.memcpy buffer)
       = Ground.nextSequenceId s
    /\ ControlCommand.padding (ControlCommand.memcpy buffer)
       = Ground.tail_padding a
    /\ byte_val (ControlCommand.checksum (ControlCommand.memcpy buffer))
       = spec_checksum (ControlCommand.memcpy buffer).
Proof.
  intros Hty Hsq Hpeer.
  destruct (sendFlightCommand_transmits type a s Hpeer) as [Hsent _].
  eexists. split; [exact Hsent|].
  rewrite ground_object_bytes, memcpy_object_bytes.
  cbn [Ground.prepare LaunchCommand.type LaunchCommand.timestamp
       LaunchCommand.sequenceId LaunchCommand.checksum Ground.nextSequenceId
       ControlCommand.type ControlCommand.timestamp ControlCommand.sequenceId
       ControlCommand.checksum ControlCommand.padding].
  assert (Hu : u32 (Ground.clock a) mod 2 ^ 32 = u32 (Ground.clock a))
    by (unfold u32; apply Z.mod_mod; lia).
  rewrite Hu, !Z.mod_small by lia.
  repeat split.
  rewrite byte_val_of_Z.
  rewrite (LaunchCommand_checksum_is_spec type (u32 (Ground.clock a))
             (Ground.nextSequenceId s) 0
             (byte_of_Z (LaunchCommand.calculateChecksum
                           (LaunchCommand.mk type (u32 (Ground.clock a))
                              (Ground.nextSequenceId s) 0)))
             (Ground.tail_padding a)).
  unfold spec_checksum. apply Z.mod_mod. lia.
Qed.

Lemma ground_command_reaches_the_flight_unit_witness :
  exists buffer : list byte,
    Ground.sent
      (snd (Ground.sendFlightCommand START_FLIGHT
              (Ground.mkAnswers true ESP_OK 5000 x00 ESP_OK) Ground.initial))
    = [(Ground.broadcastAddress, buffer)]
    /\ Z.of_nat (List.length buffer) = ControlCommand.sizeof
    /\ ControlCommand.type (ControlCommand.memcpy buffer) = START_FLIGHT
    /\ ControlCommand.timestamp (ControlCommand.memcpy buffer)
       = u32 (Ground.clock (Ground.mkAnswers true ESP_OK 5000 x00 ESP_OK))
    /\ ControlCommand.sequenceId (ControlCommand.memcpy buffer)
       = Ground.nextSequenceId Ground.initial
    /\ ControlCommand.padding (ControlCommand.memcpy buffer)
       = Ground.tail_padding (Ground.mkAnswers true ESP_OK 5000 x00 ESP_OK)
    /\ byte_val (ControlCommand.checksum (ControlCommand.memcpy buffer))
       = spec_checksum (ControlCommand.memcpy buffer).
Proof.
  apply (ground_command_reaches_the_flight_unit START_FLIGHT
           (Ground.mkAnswers true ESP_OK 5000 x00 ESP_OK) Ground.initial).
  - unfold START_FLIGHT. lia.
  - cbn. lia.
  - left. reflexivity.
Defined.

(** X6.  The validator of the flight unit accepts a command sent by the
    ground unit exactly when the checksum the ground unit computed is 0:
    every start-flight or end-flight command with a non-zero checksum
    would be rejected by [isValid]. *)
Theorem validator_rejects_ground_commands
    (type : CommandType) (a : Ground.Answers) (s : Ground.State)
    (buffer : list byte) :
  0 <= type < 256 ->
  0 <= Ground.nextSequenceId s < 2 ^ 16 ->
  Ground.sent (snd (Ground.sendFlightCommand type a s))
  = [(Ground.broadcastAddress, buffer)] ->
  ControlCommand.isValid (ControlCommand.memcpy buffer)
  = (LaunchCommand.calculateChecksum
       (LaunchCommand.mk type (u32 (Ground.clock a))
          (Ground.nextSequenceId s) 0) =? 0).
Proof.
  intros Hty Hsq Hsent.
  assert (Hb : buffer
               = Ground.object_bytes
                   (Ground.prepare type a
                      (Ground.mkState (Ground.nextSequenceId s)
                         (mk_peer Ground.broadcastAddress Ground.CHANNEL false)))
                   (Ground.tail_padding a)).
  { unfold Ground.sendFlightCommand in Hsent.
    destruct (Ground.peer_exists a); cbn [negb] in Hsent.
    - unfold Ground.transmit in Hsent. cbn [snd Ground.sent] in Hsent.
      injection Hsent as Hb. symmetry. exact Hb.
    - destruct (is_ESP_OK (Ground.add_peer a)); cbn [negb] in Hsent.
      + unfold Ground.transmit in Hsent. cbn [snd Ground.sent] in Hsent.
        injection Hsent as Hb. symmetry. exact Hb.
      + cbn [snd Ground.sent] in Hsent. discriminate Hsent. }
  subst buffer. rewrite ground_object_bytes, memcpy_object_bytes.
  cbn [Ground.prepare LaunchCommand.type LaunchCommand.timestamp
       LaunchCommand.sequenceId LaunchCommand.checksum Ground.nextSequenceId].
  assert (Hu : u32 (Ground.clock a) mod 2 ^ 32 = u32 (Ground.clock a))
    by (unfold u32; apply Z.mod_mod; lia).
  rewrite Hu, !Z.mod_small by lia.
  apply eq_true_iff_eq.
  rewrite isValid_iff_preceding_sum_zero, sum_bytes_total, Z.eqb_eq.
  rewrite preceding_total_of_small_kind by exact Hty.
  rewrite <- (LaunchCommand_checksum_is_spec type (u32 (Ground.clock a))
                (Ground.nextSequenceId s) 0).
  reflexivity.
Qed.

Lemma validator_rejects_ground_commands_witness :
  ControlCommand.isValid
    (ControlCommand.memcpy
       (Ground.object_bytes
          (Ground.prepare START_FLIGHT
             (Ground.mkAnswers true ESP_OK 5000 x00 ESP_OK) Ground.initial)
          x00))
  = (LaunchCommand.calculateChecksum (LaunchCommand.mk START_FLIGHT 5000 0 0)
     =? 0).
Proof.
  apply (validator_rejects_ground_commands START_FLIGHT
           (Ground.mkAnswers true ESP_OK 5000 x00 ESP_OK) Ground.initial).
  - unfold START_FLIGHT. lia.
  - cbn. lia.
  - reflexivity.
Defined.

Lemma sendFlightCommand_cases (type : CommandType) (a : Ground.Answers)
    (s : Ground.State) :
  (Ground.sent (snd (Ground.sendFlightCommand type a s)) = []
   /\ Ground.nextSequenceId (fst (Ground.sendFlightCommand type a s))
      = Ground.nextSequenceId s)
  \/ (exists buffer : list byte,
        Ground.sent (snd (Ground.sendFlightCommand type a s))
        = [(Ground.broadcastAddress, buffer)]
        /\ ControlCommand.memcpy buffer
           = ControlCommand.mk (type mod 2 ^ 32) (u32 (Ground.clock a))
               (Ground.nextSequenceId s mod 2 ^ 16)
               (byte_of_Z (LaunchCommand.calculateChecksum
                             (LaunchCommand.mk type (u32 (Ground.clock a))
                                (Ground.nextSequenceId s) 0)))
               (Ground.tail_padding a)
        /\ Z.of_nat (List.length buffer) = ControlCommand.sizeof
        /\ Ground.nextSequenceId (fst (Ground.sendFlightCommand type a s))
           = u16 (Ground.nextSequenceId s + 1)).
Proof.
  assert (Hu : u32 (Ground.clock a) mod 2 ^ 32 = u32 (Ground.clock a))
    by (unfold u32; apply Z.mod_mod; lia).
  assert (Ht : Ground.peer_exists a = true \/ Ground.add_peer a = ESP_OK ->
               exists buffer : list byte,
                 Ground.sent (snd (Ground.sendFlightCommand type a s))
                 = [(Ground.broadcastAddress, buffer)]
                 /\ ControlCommand.memcpy buffer
                    = ControlCommand.mk (type mod 2 ^ 32) (u32 (Ground.clock a))
                        (Ground.nextSequenceId s mod 2 ^ 16)
                        (byte_of_Z (LaunchCommand.calculateChecksum
                                      (LaunchCommand.mk type (u32 (Ground.clock a))
                                         (Ground.nextSequenceId s) 0)))
                        (Ground.tail_padding a)
                 /\ Z.of_nat (List.length buffer) = ControlCommand.sizeof
                 /\ Ground.nextSequenceId
                      (fst (Ground.sendFlightCommand type a s))
                    = u16 (Ground.nextSequenceId s + 1)).
  { intros Hpeer.
    destruct (sendFlightCommand_transmits type a s Hpeer) as [Hsent Hnext].
    eexists. split; [exact Hsent|].
    rewrite ground_object_bytes, memcpy_object_bytes.
    cbn [Ground.prepare LaunchCommand.type LaunchCommand.timestamp
         LaunchCommand.sequenceId LaunchCommand.checksum Ground.nextSequenceId].
    rewrite Hu. repeat split. exact Hnext. }
  destruct (Ground.peer_exists a) eqn:Hp; [right; apply Ht; left; reflexivity|].
  destruct (Ground.add_peer a) eqn:Ha;
    try (right; apply Ht; right; reflexivity);
    left; unfold Ground.sendFlightCommand; rewrite Hp, Ha; split; reflexivity.
Qed.

(** X5.  Sequence numbers.  Over any series of calls of
    [sendFlightCommand], the commands that go out carry consecutive
    sequence numbers modulo 65536, starting from the counter's value; a
    call that gives up because the peer cannot be added sends nothing and
    uses no number. *)
Theorem sequence_numbers_are_consecutive
    (calls : list (CommandType * Ground.Answers)) (s : Ground.State) :
  0 <= Ground.nextSequenceId s < 2 ^ 16 ->
  let buffers := buffers_sent (snd (Ground.send_all calls s)) in
  map (fun b => ControlCommand.sequenceId (ControlCommand.memcpy b)) buffers
  = map (fun k => u16 (Ground.nextSequenceId s + Z.of_nat k))
      (seq 0 (List.length buffers))
  /\ Ground.nextSequenceId (fst (Ground.send_all calls s))
     = u16 (Ground.nextSequenceId s + Z.of_nat (List.length buffers)).
Proof.
  revert s. induction calls as [|[type a] rest IH]; intros s Hs.
  - cbn. split; [reflexivity|]. unfold u16. rewrite Z.add_0_r, Z.mod_small by lia.
    reflexivity.
  - cbn [Ground.send_all].
    destruct (Ground.sendFlightCommand type a s) as [s1 e] eqn:E1.
    pose proof (sendFlightCommand_cases type a s) as Hc. rewrite E1 in Hc.
    cbn [fst snd] in Hc.
    destruct (Ground.send_all rest s1) as [s2 es] eqn:E2.
    cbv zeta. cbn [fst snd buffers_sent flat_map].
    fold (buffers_sent es).
    destruct Hc as [[Hsent Hnext]|(buffer & Hsent & Hdec & _ & Hnext)].
    + rewrite Hsent. cbn [map app].
      assert (Hs1 : 0 <= Ground.nextSequenceId s1 < 2 ^ 16) by (rewrite Hnext; exact Hs).
      specialize (IH s1 Hs1). rewrite E2 in IH. cbv zeta in IH.
      cbn [fst snd] in IH. rewrite Hnext in IH. exact IH.
    + rewrite Hsent. cbn [map app snd List.length seq].
      assert (Hs1 : 0 <= Ground.nextSequenceId s1 < 2 ^ 16).
      { rewrite Hnext. unfold u16. apply Z.mod_pos_bound. lia. }
      specialize (IH s1 Hs1). rewrite E2 in IH. cbv zeta in IH.
      cbn [fst snd] in IH. destruct IH as [IHm IHn].
      assert (Hshift : forall k : Z,
                 u16 (Ground.nextSequenceId s1 + k)
                 = u16 (Ground.nextSequenceId s + (k + 1))).
      { intros k. rewrite Hnext. unfold u16.
        rewrite Zplus_mod_idemp_l. f_equal. lia. }
      split.
      * rewrite Hdec. cbn [ControlCommand.sequenceId].
        f_equal.
        -- unfold u16. rewrite Z.add_0_r. reflexivity.
        -- rewrite IHm, <- seq_shift, map_map.
           apply map_ext. intros k. rewrite Hshift. f_equal. lia.
      * rewrite IHn, Hshift. f_equal. lia.
Qed.

Lemma sequence_numbers_are_consecutive_witness :
  let calls :=
    [(START_FLIGHT, Ground.mkAnswers true ESP_OK 10 x00 ESP_OK);
     (END_FLIGHT, Ground.mkAnswers false ESP_ERR_ESPNOW_NO_MEM 20 x00 ESP_OK);
     (END_FLIGHT, Ground.mkAnswers false ESP_OK 30 x00 ESP_OK)] in
  let s := Ground.mkState 65535 (Ground.peerInfo Ground.initial) in
  let buffers := buffers_sent (snd (Ground.send_all calls s)) in
  map (fun b => ControlCommand.sequenceId (ControlCommand.memcpy b)) buffers
  = map (fun k => u16 (Ground.nextSequenceId s + Z.of_nat k))
      (seq 0 (List.length buffers))
  /\ Ground.nextSequenceId (fst (Ground.send_all calls s))
     = u16 (Ground.nextSequenceId s + Z.of_nat (List.length buffers)).
Proof.
  apply (sequence_numbers_are_consecutive
           [(START_FLIGHT, Ground.mkAnswers true ESP_OK 10 x00 ESP_OK);
            (END_FLIGHT,
             Ground.mkAnswers false ESP_ERR_ESPNOW_NO_MEM 20 x00 ESP_OK);
            (END_FLIGHT, Ground.mkAnswers false ESP_OK 30 x00 ESP_OK)]
           (Ground.mkState 65535 (Ground.peerInfo Ground.initial))).
  cbn. lia.
Defined.

(** X7.  The flight unit takes a start-flight command sent by the ground
    unit for a start and an end-flight command for an end: delivered to
    the command callback with its own length, the buffer leads to
    [startNewFlightLog] in [GROUND_STATE] (resp. to [endFlightLog] in
    [FLIGHT_ACTIVE]) and to nothing in the other states. *)
Theorem ground_commands_drive_the_flight_unit
    (a : Ground.Answers) (g : Ground.State) (mac start stop : list byte)
    (s : FlightLog.State) :
  Ground.sent (snd (Ground.sendFlightCommand START_FLIGHT a g))
  = [(Ground.broadcastAddress, start)] ->
  Ground.sent (snd (Ground.sendFlightCommand END_FLIGHT a g))
  = [(Ground.broadcastAddress, stop)] ->
  FlightLog.onEspNowReceive mac start (Z.of_nat (List.length start)) s
  = (if FlightState_eqb (FlightLog.currentFlightState s) GROUND_STATE
     then FlightLog.startNewFlightLog s
     else Ret s)
  /\ FlightLog.onEspNowReceive mac stop (Z.of_nat (List.length stop)) s
     = (if FlightState_eqb (FlightLog.currentFlightState s) FLIGHT_ACTIVE
        then FlightLog.endFlightLog s
        else Ret s).
Proof.
  intros Hstart Hstop.
  destruct (sendFlightCommand_cases START_FLIGHT a g)
    as [[H _]|(b1 & H1 & Hd1 & Hl1 & _)];
    [rewrite H in Hstart; discriminate|].
  destruct (sendFlightCommand_cases END_FLIGHT a g)
    as [[H _]|(b2 & H2 & Hd2 & Hl2 & _)];
    [rewrite H in Hstop; discriminate|].
  rewrite H1 in Hstart. injection Hstart as <-.
  rewrite H2 in Hstop. injection Hstop as <-.
  rewrite Hl1, Hl2. split.
  - apply onEspNowReceive_start. rewrite Hd1. reflexivity.
  - apply onEspNowReceive_end. rewrite Hd2. reflexivity.
Qed.

Lemma ground_commands_drive_the_flight_unit_witness :
  let a := Ground.mkAnswers true ESP_OK 5000 x00 ESP_OK in
  let start :=
    Ground.object_bytes (Ground.prepare START_FLIGHT a Ground.initial) x00 in
  let stop :=
    Ground.object_bytes (Ground.prepare END_FLIGHT a Ground.initial) x00 in
  FlightLog.onEspNowReceive [] start (Z.of_nat (List.length start))
    ground_sd_ready
  = (if FlightState_eqb (FlightLog.currentFlightState ground_sd_ready)
          GROUND_STATE
     then FlightLog.startNewFlightLog ground_sd_ready
     else Ret ground_sd_ready)
  /\ FlightLog.onEspNowReceive [] stop (Z.of_nat (List.length stop))
       ground_sd_ready
     = (if FlightState_eqb (FlightLog.currentFlightState ground_sd_ready)
             FLIGHT_ACTIVE
        then FlightLog.endFlightLog ground_sd_ready
        else Ret ground_sd_ready).
Proof.
  apply (ground_commands_drive_the_flight_unit
           (Ground.mkAnswers true ESP_OK 5000 x00 ESP_OK) Ground.initial []
           (Ground.object_bytes
              (Ground.prepare START_FLIGHT
                 (Ground.mkAnswers true ESP_OK 5000 x00 ESP_OK) Ground.initial)
              x00)
           (Ground.object_bytes
              (Ground.prepare END_FLIGHT
                 (Ground.mkAnswers true ESP_OK 5000 x00 ESP_OK) Ground.initial)
              x00)
           ground_sd_ready); reflexivity.
Defined.

(** * Sequences of calls *)

Section Composition.
Context {W : Type} (respond : forall R : Type, io R -> W -> R * W).

Lemma trace_of_bind {A B : Type} (p : script A) (f : A -> script B) (w : W) :
  trace_of respond (bind p f) w
  = match outcome_of respond p w with
    | Done a =>
        trace_of respond p w
        ++ trace_of respond (f a) (world_after respond p w)
    | Rebooted => trace_of respond p w
    end.
Proof.
  unfold trace_of at 1. rewrite run_bind.
  destruct (outcome_of respond p w); reflexivity.
Qed.

Lemma outcome_of_bind {A B : Type} (p : script A) (f : A -> script B) (w : W) :
  outcome_of respond (bind p f) w
  = match outcome_of respond p w with
    | Done a => outcome_of respond (f a) (world_after respond p w)
    | Rebooted => Rebooted
    end.
Proof.
  unfold outcome_of at 1. rewrite run_bind.
  destruct (outcome_of respond p w); reflexivity.
Qed.

Ltac crank :=
  repeat (cbn [run bind call millis FlightLog.generateLogFilename];
          ask respond).

(** One delivery to the command callback: the state it leaves, and how
    many sessions it began and flights it closed. *)
Lemma onEspNowReceive_step
    (mac pkt : list byte) (len : Z) (s : FlightLog.State) (w : W) :
  let p := FlightLog.onEspNowReceive mac pkt len s in
  exists s',
    outcome_of respond p w = Done s'
    /\ FlightLog.sdReady s' = FlightLog.sdReady s
    /\ ((s' = s
         /\ sessions_begun (trace_of respond p w) = 0%nat
         /\ flights_ended (trace_of respond p w) = 0%nat)
        \/ (FlightLog.currentFlightState s = GROUND_STATE
            /\ FlightLog.currentFlightState s' = GROUND_STATE
            /\ sessions_begun (trace_of respond p w) = 0%nat
            /\ flights_ended (trace_of respond p w) = 0%nat)
        \/ (FlightLog.currentFlightState s = GROUND_STATE
            /\ FlightLog.currentFlightState s' = FLIGHT_ACTIVE
            /\ sessions_begun (trace_of respond p w) = 1%nat
            /\ flights_ended (trace_of respond p w) = 0%nat)
        \/ (FlightLog.currentFlightState s = FLIGHT_ACTIVE
            /\ FlightLog.currentFlightState s' = POST_FLIGHT
            /\ sessions_begun (trace_of respond p w) = 0%nat
            /\ flights_ended (trace_of respond p w) = 1%nat)).
Proof.
  cbv zeta. unfold trace_of, outcome_of, FlightLog.onEspNowReceive.
  destruct (len =? ControlCommand.sizeof);
    [|exists s; repeat split; left; repeat split].
  cbv zeta.
  destruct (ControlCommand.type (ControlCommand.memcpy pkt) =? START_FLIGHT).
  - destruct (FlightLog.currentFlightState s) eqn:Hst; cbn [FlightState_eqb];
      try (exists s; repeat split; left; repeat split).
    unfold FlightLog.startNewFlightLog.
    destruct (FlightLog.sdReady s) eqn:Hsd; cbn [negb].
    + crank. destruct r0; crank; cbn.
      * eexists. split; [reflexivity|]. split; [exact Hsd|].
        right. right. left. repeat split.
      * eexists. split; [reflexivity|]. split; [exact Hsd|].
        right. left. repeat split. exact Hst.
    + crank. cbn. exists s. repeat split; try assumption.
      left. repeat split.
  - destruct (ControlCommand.type (ControlCommand.memcpy pkt) =? END_FLIGHT).
    + destruct (FlightLog.currentFlightState s) eqn:Hst; cbn [FlightState_eqb];
        try (exists s; repeat split; left; repeat split).
      unfold FlightLog.endFlightLog.
      destruct (FlightLog.isFlightLogging s) eqn:Hlog; cbn [negb];
        [|exists s; repeat split; left; repeat split].
      crank. destruct r0; crank; cbn.
      * eexists. split; [reflexivity|]. split; [reflexivity|].
        right. right. right. repeat split.
      * eexists. split; [reflexivity|]. split; [reflexivity|].
        right. right. right. repeat split.
    + crank. cbn. exists s. repeat split. left. repeat split.
Qed.

(** X8.  The flight-state machine only moves forward.  Whatever buffer
    is delivered, with whatever length, the callback returns (it never
    resets the device) and the state either stays or goes from
    [GROUND_STATE] to [FLIGHT_ACTIVE] or from [FLIGHT_ACTIVE] to
    [POST_FLIGHT]; [sdReady] is never written; and in [POST_FLIGHT] or
    [PRE_FLIGHT] no command changes any flight-state global, so a second
    flight cannot be started after a landing. *)
Theorem flight_state_only_moves_forward
    (mac pkt : list byte) (len : Z) (s : FlightLog.State) (w : W) :
  exists s',
    outcome_of respond (FlightLog.onEspNowReceive mac pkt len s) w = Done s'
    /\ may_follow (FlightLog.currentFlightState s)
         (FlightLog.currentFlightState s')
    /\ FlightLog.sdReady s' = FlightLog.sdReady s
    /\ (FlightLog.currentFlightState s = POST_FLIGHT
        \/ FlightLog.currentFlightState s = PRE_FLIGHT -> s' = s).
Proof.
  destruct (onEspNowReceive_step mac pkt len s w) as (s' & Ho & Hsd & Hc).
  exists s'. split; [exact Ho|]. unfold may_follow.
  destruct Hc as [(-> & _)|[(Ha & Hb & _)|[(Ha & Hb & _)|(Ha & Hb & _)]]].
  - repeat split; auto.
  - rewrite Ha, Hb. repeat split; auto.
    intros [H|H]; discriminate.
  - rewrite Ha, Hb. repeat split; auto.
    intros [H|H]; discriminate.
  - rewrite Ha, Hb. repeat split; auto.
    intros [H|H]; discriminate.
Qed.

(** X9.  One flight per power cycle.  Over any series of deliveries to
    the command callback, from any state, at most one logging session is
    begun and at most one flight is closed. *)
Theorem at_most_one_flight_is_logged
    (deliveries : list (list byte * list byte * Z)) (s : FlightLog.State)
    (w : W) :
  (sessions_begun (trace_of respond (receive_all deliveries s) w) <= 1)%nat
  /\ (flights_ended (trace_of respond (receive_all deliveries s) w) <= 1)%nat.
Proof.
  assert (G : forall deliveries s w,
             let tr := trace_of respond (receive_all deliveries s) w in
             (sessions_begun tr
              <= match FlightLog.currentFlightState s with
                 | GROUND_STATE => 1
                 | _ => 0
                 end)%nat
             /\ (flights_ended tr
                 <= match FlightLog.currentFlightState s with
                    | GROUND_STATE | FLIGHT_ACTIVE => 1
                    | _ => 0
                    end)%nat).
  { clear. intros deliveries.
    induction deliveries as [|[[mac pkt] len] rest IH]; intros s w; cbv zeta.
    - cbn. destruct (FlightLog.currentFlightState s); split; lia.
    - cbn [receive_all]. rewrite trace_of_bind.
      destruct (onEspNowReceive_step mac pkt len s w) as (s' & Ho & _ & Hc).
      cbv zeta in Hc. rewrite Ho.
      unfold sessions_begun, flights_ended.
      rewrite !filter_app, !length_app.
      fold (sessions_begun
              (trace_of respond (FlightLog.onEspNowReceive mac pkt len s) w)).
      fold (flights_ended
              (trace_of respond (FlightLog.onEspNowReceive mac pkt len s) w)).
      specialize (IH s' (world_after respond
                           (FlightLog.onEspNowReceive mac pkt len s) w)).
      cbv zeta in IH. unfold sessions_begun, flights_ended in IH.
      destruct IH as [IH1 IH2].
      destruct Hc as [(-> & Hn & Hm)|[(Ha & Hb & Hn & Hm)
                     |[(Ha & Hb & Hn & Hm)|(Ha & Hb & Hn & Hm)]]];
        rewrite Hn, Hm; try rewrite Ha; try rewrite Hb in IH1, IH2;
        split; lia. }
  specialize (G deliveries s w). cbv zeta in G.
  destruct G as [G1 G2].
  destruct (FlightLog.currentFlightState s); split; lia.
Qed.

(** X10.  A twelve-byte buffer whose kind is neither start-flight nor
    end-flight (no-command, abort-mission, reset-system or any other
    value) only produces the diagnostic line: no global changes and
    nothing else is called. *)
Theorem other_kinds_are_only_reported
    (mac pkt : list byte) (s : FlightLog.State) (w : W) :
  ControlCommand.type (ControlCommand.memcpy pkt) <> START_FLIGHT ->
  ControlCommand.type (ControlCommand.memcpy pkt) <> END_FLIGHT ->
  exists w',
    run respond (FlightLog.onEspNowReceive mac pkt ControlCommand.sizeof s) w
    = ([Ev (SerialPrintln "Comando não reconhecido") tt], Done s, w').
Proof.
  intros H1 H2. apply Z.eqb_neq in H1, H2.
  unfold FlightLog.onEspNowReceive. rewrite Z.eqb_refl, H1, H2.
  crank. eexists. reflexivity.
Qed.

(** X11.  The logging flag is on exactly in [FLIGHT_ACTIVE], and stays
    so over any series of deliveries that starts from such a state. *)
Theorem logging_flag_follows_the_state
    (deliveries : list (list byte * list byte * Z)) (s : FlightLog.State)
    (w : W) :
  coherent s ->
  exists s',
    outcome_of respond (receive_all deliveries s) w = Done s'
    /\ coherent s'.
Proof.
  revert s w. induction deliveries as [|[[mac pkt] len] rest IH]; intros s w Hc.
  - exists s. split; [reflexivity|exact Hc].
  - cbn [receive_all]. rewrite outcome_of_bind.
    destruct (onEspNowReceive_coherent respond mac pkt len s w Hc)
      as (s1 & Ho & Hc1).
    rewrite Ho. apply IH, Hc1.
Qed.

End Composition.

Lemma other_kinds_are_only_reported_witness :
  exists w',
    run bench_respond
      (FlightLog.onEspNowReceive []
         (ControlCommand.object_bytes
            (ControlCommand.mk ABORT_MISSION 0 0 x03 x00))
         ControlCommand.sizeof flying_since_0) (bench [])
    = ([Ev (SerialPrintln "Comando não reconhecido") tt],
       Done flying_since_0, w').
Proof.
  apply (other_kinds_are_only_reported bench_respond []
           (ControlCommand.object_bytes
              (ControlCommand.mk ABORT_MISSION 0 0 x03 x00))
           flying_since_0 (bench [])); discriminate.
Defined.

Lemma logging_flag_follows_the_state_witness :
  exists s',
    outcome_of bench_respond
      (receive_all [([], start_packet, 12); ([], end_packet, 12)]
         ground_sd_ready) (bench [0; 0; 5000])
    = Done s'
    /\ coherent s'.
Proof.
  apply (logging_flag_follows_the_state bench_respond
           [([], start_packet, 12); ([], end_packet, 12)] ground_sd_ready
           (bench [0; 0; 5000])).
  split; discriminate.
Defined.

(** * Whole iterations of the flight unit's loop *)

Section LoopFacts.
Context {W : Type} (respond : forall R : Type, io R -> W -> R * W).

Ltac split_run :=
  repeat (cbn [run bind call millis negb orb is_ESP_OK fst snd
               Rocket.setupEspNow Rocket.handleCommunicationErrors
               Rocket.sendSensorData Rocket.debugPrintData];
          first
            [ ask respond
            | match goal with
              | |- context [negb ?v] => is_var v; destruct v
              | |- context [is_ESP_OK ?v] => is_var v; destruct v
              | |- context [Rocket.handleCommunicationErrors ?v] =>
                  is_var v; destruct v
              | |- context [match ?v with _ => _ end] => is_var v; destruct v
              end
            | match goal with
              | |- context [if ?c then _ else _] =>
                  lazymatch c with
                  | context [respond] => fail
                  | _ => destruct c eqn:?
                  end
              end ]).

(** What [updateSensorData] (v1.2) leaves alone. *)
Lemma updateSensorData_frame (s : Rocket.State) (w : W) :
  let tr := trace_of respond (Rocket.updateSensorData s) w in
  exists s',
    outcome_of respond (Rocket.updateSensorData s) w = Done s'
    /\ Rocket.lastTransmissionTime s' = Rocket.lastTransmissionTime s
    /\ voltage_base_of s' = voltage_base_of s
    /\ sent_payloads tr = []
    /\ existsb is_sd_access tr = false.
Proof.
  cbv zeta. unfold trace_of, outcome_of, Rocket.updateSensorData.
  split_run; cbn; eexists; repeat split; reflexivity.
Qed.

(** What [updateSensorData] (v1.1) leaves alone. *)
Lemma updateSensorData11_frame (s : Rocket.State) (w : W) :
  let tr := trace_of respond (Firmware11.updateSensorData s) w in
  exists s',
    outcome_of respond (Firmware11.updateSensorData s) w = Done s'
    /\ existsb is_sd_access tr = false
    /\ logged_rows tr = [].
Proof.
  cbv zeta. unfold trace_of, outcome_of, Firmware11.updateSensorData.
  split_run; cbn; eexists; repeat split; reflexivity.
Qed.

(** What [transmitData] leaves alone. *)
Lemma transmitData_frame (s : Rocket.State) (w : W) :
  let tr := trace_of respond (Rocket.transmitData s) w in
  existsb is_sd_access tr = false
  /\ logged_rows tr = []
  /\ forall s',
       outcome_of respond (Rocket.transmitData s) w = Done s' ->
       exists t,
         hd_error tr = Some (Ev Millis t)
         /\ ((s' = s
              /\ u32 (u32 t - Rocket.lastTransmissionTime s)
                 < TRANSMISSION_INTERVAL)
             \/ (s' = Rocket.set_lastTransmissionTime (u32 t) s
                 /\ TRANSMISSION_INTERVAL
                    <= u32 (u32 t - Rocket.lastTransmissionTime s))).
Proof.
  cbv zeta. unfold trace_of, outcome_of, Rocket.transmitData.
  cbn [run bind call millis]. ask respond.
  destruct (Z.ltb_spec (u32 (u32 r - Rocket.lastTransmissionTime s))
              TRANSMISSION_INTERVAL) as [Hlt|Hge].
  - cbn. split; [reflexivity|]. split; [reflexivity|].
    intros s' H. injection H as <-.
    exists r. split; [reflexivity|]. left. split; [reflexivity|exact Hlt].
  - split_run; cbn; (split; [reflexivity|]); (split; [reflexivity|]);
      intros s' H; try discriminate H; injection H as <-;
      exists r; (split; [reflexivity|]); right; (split; [reflexivity|exact Hge]).
Qed.

Lemma debugPrintData_run (s : Rocket.State) (w : W) :
  let tr := trace_of respond (Rocket.debugPrintData s) w in
  outcome_of respond (Rocket.debugPrintData s) w = Done tt
  /\ sent_payloads tr = []
  /\ existsb is_sd_access tr = false
  /\ logged_rows tr = [].
Proof.
  cbv zeta. unfold trace_of, outcome_of, Rocket.debugPrintData.
  split_run. cbn. repeat split.
Qed.

End LoopFacts.

Section LoopTheorems.
Context {W : Type} (respond : forall R : Type, io R -> W -> R * W).

Ltac split_run :=
  repeat (cbn [run bind call millis negb orb is_ESP_OK fst snd
               Rocket.debugPrintData];
          first
            [ ask respond
            | match goal with
              | |- context [match ?v with _ => _ end] => is_var v; destruct v
              end
            | match goal with
              | |- context [if ?c then _ else _] =>
                  lazymatch c with
                  | context [respond] => fail
                  | _ => destruct c eqn:?
                  end
              end ]).

(** The end of an iteration of the v1.2 loop, after the two steps. *)
Lemma loop_tail_run (s : Rocket.State) (w : W) :
  let p := bind (Rocket.debugPrintData s)
             (fun _ => bind (call (Delay 100)) (fun _ => Ret s)) in
  outcome_of respond p w = Done s
  /\ sent_payloads (trace_of respond p w) = [].
Proof.
  cbv zeta. unfold trace_of, outcome_of, Rocket.debugPrintData.
  split_run. cbn. split; reflexivity.
Qed.

(** An iteration of the v1.2 loop: what it sends and what it returns. *)
Lemma loop_run (s : Rocket.State) (w : W) :
  exists s1,
    outcome_of respond (Rocket.updateSensorData s) w = Done s1
    /\ voltage_base_of s1 = voltage_base_of s
    /\ (sent_payloads (trace_of respond (Rocket.loop s) w) = []
        \/ sent_payloads (trace_of respond (Rocket.loop s) w)
           = [Rocket.sensorData s1])
    /\ forall s',
         outcome_of respond (Rocket.loop s) w = Done s' ->
         Rocket.sensorData s' = Rocket.sensorData s1.
Proof.
  destruct (updateSensorData_frame respond s w)
    as (s1 & Ho & _ & Hvb & Hsent & _).
  cbv zeta in Hsent. exists s1. split; [exact Ho|]. split; [exact Hvb|].
  unfold Rocket.loop. rewrite trace_of_bind, outcome_of_bind, Ho.
  set (w1 := world_after respond (Rocket.updateSensorData s) w).
  rewrite trace_of_bind, outcome_of_bind.
  destruct (transmitData_frame respond s1 w1) as (_ & _ & Hframe).
  pose proof (transmitData_payloads respond s1 w1) as Hpay.
  unfold sent_payloads in *. rewrite !flat_map_app, Hsent. cbn [app].
  destruct (outcome_of respond (Rocket.transmitData s1) w1) as [s2|] eqn:Ho2.
  - destruct (loop_tail_run s2
                (world_after respond (Rocket.transmitData s1) w1))
      as [Hot Hst].
    cbv zeta in Hot, Hst. unfold sent_payloads in Hst.
    rewrite flat_map_app, Hst, app_nil_r, Hot.
    split; [exact Hpay|].
    intros s' H. injection H as <-.
    destruct (Hframe s2 eq_refl) as (t & _ & [[-> _]|[-> _]]); reflexivity.
  - split; [exact Hpay|]. intros s' H. discriminate H.
Qed.

(** X14.  Within one iteration of the v1.2 loop, sampling comes before
    transmission: if the iteration broadcasts a record, it broadcasts it
    once, and it is the record as [updateSensorData] of the same
    iteration left it. *)
Theorem broadcast_follows_the_sample (s : Rocket.State) (w : W) :
  exists s1,
    outcome_of respond (Rocket.updateSensorData s) w = Done s1
    /\ (sent_payloads (trace_of respond (Rocket.loop s) w) = []
        \/ sent_payloads (trace_of respond (Rocket.loop s) w)
           = [Rocket.sensorData s1]).
Proof.
  destruct (loop_run s w) as (s1 & Ho & _ & Hsent & _).
  exists s1. split; assumption.
Qed.

(** X20.  The flight unit never measures the base-station voltage: over
    any number of iterations of the v1.2 loop, every record it broadcasts
    carries in [voltage_base] the value that field had at the start (zero
    from start-up), and so does the record it ends with. *)
Theorem base_voltage_is_never_written (n : nat) (s : Rocket.State) (w : W) :
  Forall (fun d => VoltageData.voltage_base (SensorData.tensao d)
                   = voltage_base_of s)
    (sent_payloads (trace_of respond (iterate n s) w))
  /\ forall s',
       outcome_of respond (iterate n s) w = Done s' ->
       voltage_base_of s' = voltage_base_of s.
Proof.
  revert s w. induction n as [|n IH]; intros s w.
  - cbn. split; [constructor|]. intros s' H. injection H as <-. reflexivity.
  - cbn [iterate]. rewrite trace_of_bind, outcome_of_bind.
    destruct (loop_run s w) as (s1 & _ & Hvb & Hsent & Hout).
    assert (Hloop : Forall (fun d => VoltageData.voltage_base (SensorData.tensao d)
                                     = voltage_base_of s)
                      (sent_payloads (trace_of respond (Rocket.loop s) w))).
    { destruct Hsent as [E|E]; rewrite E; repeat constructor. exact Hvb. }
    destruct (outcome_of respond (Rocket.loop s) w) as [s2|] eqn:Ho.
    + assert (Hvb2 : voltage_base_of s2 = voltage_base_of s).
      { unfold voltage_base_of in *. rewrite (Hout s2 eq_refl). exact Hvb. }
      destruct (IH s2 (world_after respond (Rocket.loop s) w)) as [IH1 IH2].
      rewrite Hvb2 in IH1, IH2. split.
      * unfold sent_payloads. rewrite flat_map_app.
        apply Forall_app. split; [exact Hloop|exact IH1].
      * exact IH2.
    + split; [exact Hloop|]. intros s' H. discriminate H.
Qed.

(** What [logToSD] does, followed by the rest of the v1.1 iteration. *)
Lemma loop11_tail_run (s : Firmware11.State) (w : W) :
  let p :=
    bind (if FlightLog.isFlightLogging (Firmware11.flight s)
          then bind (Firmware11.logToSD s)
                 (fun _ => Rocket.debugPrintData (Firmware11.sensing s))
          else Ret tt)
      (fun _ => bind (call (Delay 100)) (fun _ => Ret s)) in
  let tr := trace_of respond p w in
  let name := FlightLog.currentLogFilename (Firmware11.flight s) in
  outcome_of respond p w = Done s
  /\ (FlightLog.isFlightLogging (Firmware11.flight s) = false ->
      existsb is_sd_access tr = false)
  /\ (logged_rows tr = []
      \/ (FlightLog.isFlightLogging (Firmware11.flight s) = true
          /\ name <> EmptyString
          /\ logged_rows tr
             = [(name, Firmware11.CSV_ROW,
                 Firmware11.csv_row
                   (Rocket.sensorData (Firmware11.sensing s)))])).
Proof.
  cbv zeta. unfold trace_of, outcome_of, Firmware11.logToSD.
  destruct (FlightLog.isFlightLogging (Firmware11.flight s)) eqn:Hlog.
  - cbn [negb orb].
    destruct (String.eqb_spec
                (FlightLog.currentLogFilename (Firmware11.flight s))
                EmptyString) as [He|Hne].
    + unfold Rocket.debugPrintData. split_run. cbn.
      split; [reflexivity|]. split; [discriminate|]. left. reflexivity.
    + unfold Rocket.debugPrintData.
      split_run; cbn; (split; [reflexivity|]); (split; [discriminate|]);
        first [ left; reflexivity
              | right; split; [reflexivity|]; split; [exact Hne|reflexivity] ].
  - split_run. cbn. split; [reflexivity|]. split; [reflexivity|].
    left. reflexivity.
Qed.

(** An iteration of the v1.1 loop. *)
Lemma loop11_run (s : Firmware11.State) (w : W) :
  let tr := trace_of respond (Firmware11.loop s) w in
  let name := FlightLog.currentLogFilename (Firmware11.flight s) in
  exists r1,
    outcome_of respond
      (Firmware11.updateSensorData (Firmware11.sensing s)) w = Done r1
    /\ (forall s',
          outcome_of respond (Firmware11.loop s) w = Done s' ->
          Firmware11.flight s' = Firmware11.flight s
          /\ Rocket.sensorData (Firmware11.sensing s') = Rocket.sensorData r1)
    /\ (FlightLog.isFlightLogging (Firmware11.flight s) = false ->
        existsb is_sd_access tr = false)
    /\ (logged_rows tr = []
        \/ (FlightLog.isFlightLogging (Firmware11.flight s) = true
            /\ name <> EmptyString
            /\ logged_rows tr
               = [(name, Firmware11.CSV_ROW,
                   Firmware11.csv_row (Rocket.sensorData r1))])).
Proof.
  cbv zeta.
  destruct (updateSensorData11_frame respond (Firmware11.sensing s) w)
    as (r1 & Ho & Hsd & Hrows).
  cbv zeta in Hsd, Hrows. exists r1. split; [exact Ho|].
  unfold Firmware11.loop. rewrite trace_of_bind, outcome_of_bind, Ho.
  set (w1 := world_after respond
               (Firmware11.updateSensorData (Firmware11.sensing s)) w).
  rewrite trace_of_bind, outcome_of_bind.
  destruct (transmitData_frame respond r1 w1) as (Hsd2 & Hrows2 & Hframe).
  cbv zeta in Hsd2, Hrows2, Hframe.
  unfold logged_rows in *. rewrite existsb_app, flat_map_app, Hsd, Hrows.
  cbn [app orb].
  destruct (outcome_of respond (Rocket.transmitData r1) w1) as [r2|] eqn:Ho2.
  - assert (Hsame : Rocket.sensorData r2 = Rocket.sensorData r1).
    { destruct (Hframe r2 eq_refl) as (t & _ & [[-> _]|[-> _]]); reflexivity. }
    destruct (loop11_tail_run
                (Firmware11.mkState r2 (Firmware11.flight s))
                (world_after respond (Rocket.transmitData r1) w1))
      as (Hot & Hsd3 & Hrows3).
    cbv zeta in Hot, Hsd3, Hrows3.
    cbn [Firmware11.flight Firmware11.sensing] in Hot, Hsd3, Hrows3.
    unfold logged_rows in Hrows3. rewrite Hsame in Hrows3.
    cbn [Firmware11.flight Firmware11.sensing].
    rewrite Hot, existsb_app, flat_map_app, Hsd2, Hrows2. cbn [app orb].
    split; [|split].
    + intros s' H. injection H as <-. split; [reflexivity|exact Hsame].
    + exact Hsd3.
    + exact Hrows3.
  - rewrite Hsd2, Hrows2.
    split; [intros s' H; discriminate H|]. split; [reflexivity|].
    left. reflexivity.
Qed.

(** X13.  While a flight is being logged, an iteration of the v1.1 loop
    appends at most one row to the log, to the current log file, and the
    row holds the record as [updateSensorData] of the same iteration left
    it; an iteration never changes the flight-state globals. *)
Theorem log_row_follows_the_sample (s : Firmware11.State) (w : W) :
  let tr := trace_of respond (Firmware11.loop s) w in
  let name := FlightLog.currentLogFilename (Firmware11.flight s) in
  exists r1,
    outcome_of respond
      (Firmware11.updateSensorData (Firmware11.sensing s)) w = Done r1
    /\ (forall s',
          outcome_of respond (Firmware11.loop s) w = Done s' ->
          Firmware11.flight s' = Firmware11.flight s)
    /\ (logged_rows tr = []
        \/ (FlightLog.isFlightLogging (Firmware11.flight s) = true
            /\ name <> EmptyString
            /\ logged_rows tr
               = [(name, Firmware11.CSV_ROW,
                   Firmware11.csv_row (Rocket.sensorData r1))])).
Proof.
  destruct (loop11_run s w) as (r1 & Ho & Hout & _ & Hrows).
  exists r1. split; [exact Ho|]. split; [|exact Hrows].
  intros s' H. apply (Hout s' H).
Qed.

(** X12.  The v1.1 firmware as built never logs: from its initial
    globals, whatever iterations of the loop and deliveries to the command
    callback follow one another, the SD card is never accessed and the
    flight-state globals keep their initial values. *)
Theorem v11_never_touches_the_sd_card (stimuli : list stimulus)
    (r : Rocket.State) (w : W) :
  let s := Firmware11.mkState r FlightLog.initial in
  existsb is_sd_access (trace_of respond (operate stimuli s) w) = false
  /\ forall s',
       outcome_of respond (operate stimuli s) w = Done s' ->
       Firmware11.flight s' = FlightLog.initial.
Proof.
  cbv zeta. revert r w.
  induction stimuli as [|[|mac pkt len] rest IH]; intros r w.
  - cbn. split; [reflexivity|]. intros s' H. injection H as <-. reflexivity.
  - cbn [operate]. rewrite trace_of_bind, outcome_of_bind.
    destruct (loop11_run (Firmware11.mkState r FlightLog.initial) w)
      as (r1 & _ & Hout & Hsd & _).
    cbv zeta in Hsd. cbn [Firmware11.flight] in Hout, Hsd.
    specialize (Hsd eq_refl).
    destruct (outcome_of respond
                (Firmware11.loop (Firmware11.mkState r FlightLog.initial)) w)
      as [s1|] eqn:Ho.
    + destruct (Hout s1 eq_refl) as [Hf _].
      destruct s1 as [r' f']. cbn [Firmware11.flight] in Hf. subst f'.
      rewrite existsb_app, Hsd. cbn [orb]. apply IH.
    + split; [exact Hsd|]. intros s' H. discriminate H.
  - cbn [operate]. rewrite trace_of_bind, outcome_of_bind.
    unfold Firmware11.onEspNowReceive.
    rewrite trace_of_bind, outcome_of_bind.
    cbn [Firmware11.flight Firmware11.sensing].
    rewrite (onEspNowReceive_without_sd respond mac pkt len FlightLog.initial w
               eq_refl eq_refl).
    assert (Hquiet : existsb is_sd_access
                       (trace_of respond
                          (FlightLog.onEspNowReceive mac pkt len
                             FlightLog.initial) w) = false).
    { unfold trace_of, FlightLog.onEspNowReceive.
      destruct (len =? ControlCommand.sizeof); [|reflexivity]. cbv zeta.
      destruct (ControlCommand.type (ControlCommand.memcpy pkt) =? START_FLIGHT).
      - cbn. destruct (respond unit _ w) as [[] w']. reflexivity.
      - destruct (ControlCommand.type (ControlCommand.memcpy pkt)
                  =? END_FLIGHT).
        + reflexivity.
        + cbn. destruct (respond unit _ w) as [[] w']. reflexivity. }
    cbn [trace_of run fst snd outcome_of] in *.
    unfold trace_of, outcome_of in *. cbn [run fst snd].
    rewrite app_nil_r, existsb_app, Hquiet. cbn [orb].
    apply IH.
Qed.

End LoopTheorems.

(** * Cadences, the millisecond counter and the fusion, continued *)

Lemma elapsed_across_wrap (last e t : Z) :
  0 <= e < 2 ^ 32 ->
  u32 t = u32 (last + e) ->
  u32 (u32 t - last) = e.
Proof.
  intros He Ht. rewrite Ht. unfold u32.
  rewrite Zminus_mod_idemp_l.
  replace (last + e - last) with e by lia. apply Z.mod_small. exact He.
Qed.

Section TimingFacts.
Context {W : Type} (respond : forall R : Type, io R -> W -> R * W).

Ltac feed :=
  repeat (cbn [bind call millis];
          match goal with
          | H : answers respond ?w ?e ?r ?w'
            |- context [run respond (Vis ?e ?k) ?w] =>
              rewrite (run_Vis respond e k w w' r H)
          | H : answers respond ?w ?e ?r ?w'
            |- context [trace_of respond (Vis ?e ?k) ?w] =>
              rewrite (trace_of_Vis respond e k w w' r H)
          | H : answers respond ?w ?e ?r ?w'
            |- context [outcome_of respond (Vis ?e ?k) ?w] =>
              rewrite (outcome_of_Vis respond e k w w' r H)
          | H : answers respond ?w ?e ?r ?w'
            |- context [world_after respond (Vis ?e ?k) ?w] =>
              rewrite (world_after_Vis respond e k w w' r H)
          end; cbn beta).

Ltac split_run :=
  repeat (cbn [run bind call millis negb orb is_ESP_OK fst snd];
          first
            [ ask respond
            | match goal with
              | |- context [negb ?v] => is_var v; destruct v
              | |- context [is_ESP_OK ?v] => is_var v; destruct v
              | |- context [Rocket.handleCommunicationErrors ?v] =>
                  is_var v; destruct v
              | |- context [match ?v with _ => _ end] => is_var v; destruct v
              end
            | match goal with
              | |- context [if ?c then _ else _] =>
                  lazymatch c with
                  | context [respond] => fail
                  | _ => destruct c eqn:?
                  end
              end ]).

(** Which sample and which transmission a call makes, by the clock
    reading [t] of the call. *)
Lemma triggers_by_clock (s : Rocket.State) (w w1 : W) (t : Z) :
  answers respond w Millis t w1 ->
  existsb is_sensor_read (trace_of respond (Rocket.updateSensorData s) w)
    = (SENSOR_READ_INTERVAL <=? u32 (u32 t - Rocket.lastSensorReadTime s))
  /\ existsb is_peer_query (trace_of respond (Rocket.transmitData s) w)
     = (TRANSMISSION_INTERVAL
        <=? u32 (u32 t - Rocket.lastTransmissionTime s)).
Proof.
  intros Ht. split.
  - unfold Rocket.updateSensorData. feed.
    destruct (respond Z (AnalogRead Config.Hardware.ADC_PIN) w1)
      as [adc w2] eqn:Ea.
    fold (answers respond w1 (AnalogRead Config.Hardware.ADC_PIN) adc w2) in Ea.
    feed. cbn [Rocket.lastSensorReadTime Rocket.set_sensorData].
    destruct (Z.leb_spec SENSOR_READ_INTERVAL
                (u32 (u32 t - Rocket.lastSensorReadTime s))) as [Hge|Hlt].
    + apply Z.ltb_ge in Hge. rewrite Hge.
      destruct (respond _ MpuGetEvent w2) as [m w3] eqn:Em.
      fold (answers respond w2 MpuGetEvent m w3) in Em. feed. reflexivity.
    + apply Z.ltb_lt in Hlt. rewrite Hlt. reflexivity.
  - unfold Rocket.transmitData. feed.
    destruct (Z.leb_spec TRANSMISSION_INTERVAL
                (u32 (u32 t - Rocket.lastTransmissionTime s))) as [Hge|Hlt].
    + apply Z.ltb_ge in Hge. rewrite Hge.
      destruct (respond _ (EspNowIsPeerExist Config.EspNow.broadcastAddress) w1)
        as [known w2] eqn:Ek.
      fold (answers respond w1
              (EspNowIsPeerExist Config.EspNow.broadcastAddress) known w2) in Ek.
      feed. reflexivity.
    + apply Z.ltb_lt in Hlt. rewrite Hlt. reflexivity.
Qed.

(** The state after a call of [transmitData] that returned. *)
Lemma transmitData_after (s s' : Rocket.State) (w w1 : W) (t : Z) :
  answers respond w Millis t w1 ->
  outcome_of respond (Rocket.transmitData s) w = Done s' ->
  (s' = s
   /\ u32 (u32 t - Rocket.lastTransmissionTime s) < TRANSMISSION_INTERVAL)
  \/ (s' = Rocket.set_lastTransmissionTime (u32 t) s
      /\ TRANSMISSION_INTERVAL
         <= u32 (u32 t - Rocket.lastTransmissionTime s)).
Proof.
  intros Ht Ho.
  destruct (transmitData_frame respond s w) as (_ & _ & Hframe).
  destruct (Hframe s' Ho) as (t0 & Hhd & Hcase).
  assert (E : t0 = t).
  { unfold Rocket.transmitData in Hhd. revert Hhd. feed. cbn [hd_error].
    intros Hhd.
    apply (f_equal (fun o => match o with
                             | Some ev => clock_reading ev
                             | None => []
                             end)) in Hhd.
    cbn in Hhd. injection Hhd as Hhd. symmetry. exact Hhd. }
  subst t0. exact Hcase.
Qed.

(** The state after a call of [updateSensorData] that took a sample. *)
Lemma updateSensorData_after (s : Rocket.State) (w w1 : W) (t : Z) :
  answers respond w Millis t w1 ->
  SENSOR_READ_INTERVAL <= u32 (u32 t - Rocket.lastSensorReadTime s) ->
  exists s',
    outcome_of respond (Rocket.updateSensorData s) w = Done s'
    /\ Rocket.lastSensorReadTime s' = u32 t.
Proof.
  intros Ht Hge. apply Z.ltb_ge in Hge.
  unfold Rocket.updateSensorData, outcome_of. cbn [run bind call millis].
  unfold answers in Ht. rewrite Ht.
  ask respond. cbn [Rocket.lastSensorReadTime Rocket.set_sensorData].
  rewrite Hge. split_run; cbn; eexists; split; reflexivity.
Qed.

(** X15.  No duplicate triggers.  After a call of [transmitData] that
    attempted a transmission at clock reading [t] and returned (whether
    the record went out, the send failed, or the tick was given up
    because the peer could not be added), a call less than 500 ms later
    does nothing; and after a call of [updateSensorData] that took a
    sample at [t], a call less than 100 ms later takes none. *)
Theorem no_second_trigger_within_the_cadence
    (s : Rocket.State) (w w1 v v1 : W) (t t' : Z) :
  answers respond w Millis t w1 ->
  answers respond v Millis t' v1 ->
  (forall s1,
     TRANSMISSION_INTERVAL <= u32 (u32 t - Rocket.lastTransmissionTime s) ->
     outcome_of respond (Rocket.transmitData s) w = Done s1 ->
     u32 (u32 t' - u32 t) < TRANSMISSION_INTERVAL ->
     run respond (Rocket.transmitData s1) v = ([Ev Millis t'], Done s1, v1))
  /\ (SENSOR_READ_INTERVAL <= u32 (u32 t - Rocket.lastSensorReadTime s) ->
      u32 (u32 t' - u32 t) < SENSOR_READ_INTERVAL ->
      exists s1,
        outcome_of respond (Rocket.updateSensorData s) w = Done s1
        /\ existsb is_sensor_read
             (trace_of respond (Rocket.updateSensorData s1) v) = false).
Proof.
  intros Ht Ht'. split.
  - intros s1 Hge Ho Hlt.
    destruct (transmitData_after s s1 w w1 t Ht Ho) as [[_ H]|[-> _]]; [lia|].
    apply transmitData_below_gate; [exact Ht'|].
    cbn [Rocket.lastTransmissionTime Rocket.set_lastTransmissionTime].
    exact Hlt.
  - intros Hge Hlt.
    destruct (updateSensorData_after s w w1 t Ht Hge) as (s1 & Ho & Hlast).
    exists s1. split; [exact Ho|].
    destruct (triggers_by_clock s1 v v1 t' Ht') as [Htr _].
    rewrite Htr, Hlast. apply Z.leb_gt. exact Hlt.
Qed.

(** X18.  The cadences hold across the overflow of the millisecond
    counter: if the clock reads [(last + e) mod 2^32], [e] milliseconds
    (less than 2^32) after the last sample, a sample is taken exactly when
    [e >= 100]; and likewise a transmission is attempted exactly when
    [e' >= 500] milliseconds have passed since the last one. *)
Theorem cadences_survive_the_counter_wrap
    (s : Rocket.State) (w w1 : W) (t e e' : Z) :
  answers respond w Millis t w1 ->
  0 <= e < 2 ^ 32 ->
  0 <= e' < 2 ^ 32 ->
  u32 t = u32 (Rocket.lastSensorReadTime s + e) ->
  u32 t = u32 (Rocket.lastTransmissionTime s + e') ->
  existsb is_sensor_read (trace_of respond (Rocket.updateSensorData s) w)
    = (SENSOR_READ_INTERVAL <=? e)
  /\ existsb is_peer_query (trace_of respond (Rocket.transmitData s) w)
     = (TRANSMISSION_INTERVAL <=? e').
Proof.
  intros Ht He He' Hs Hx.
  destruct (triggers_by_clock s w w1 t Ht) as [H1 H2].
  rewrite H1, H2.
  rewrite (elapsed_across_wrap (Rocket.lastSensorReadTime s) e t He Hs).
  rewrite (elapsed_across_wrap (Rocket.lastTransmissionTime s) e' t He' Hx).
  split; reflexivity.
Qed.

(** X17.  The flight duration is right across the overflow of the
    millisecond counter: a flight that ends [e] milliseconds (less than
    2^32) after it started is reported as [e / 1000] seconds, whatever
    the counter read at the start. *)
Theorem duration_survives_the_counter_wrap
    (mac pkt : list byte) (s : FlightLog.State) (w w1 : W) (t e : Z) :
  ControlCommand.type (ControlCommand.memcpy pkt) = END_FLIGHT ->
  FlightLog.currentFlightState s = FLIGHT_ACTIVE ->
  FlightLog.isFlightLogging s = true ->
  answers respond w Millis t w1 ->
  0 <= e < 2 ^ 32 ->
  u32 t = u32 (FlightLog.flightStartTime s + e) ->
  In (Ev (SerialPrintf "Voo finalizado. Duração: %lu segundos\n"
            [ArgZ (e / 1000)]) tt)
    (trace_of respond
       (FlightLog.onEspNowReceive mac pkt ControlCommand.sizeof s) w).
Proof.
  intros Hty Hst Hlog Ht He Hwrap.
  rewrite (onEspNowReceive_end mac pkt s Hty), Hst. cbn [FlightState_eqb].
  unfold FlightLog.endFlightLog. rewrite Hlog. cbn [negb]. feed.
  cbn [FlightLog.flightStartTime FlightLog.currentLogFilename].
  rewrite (elapsed_across_wrap (FlightLog.flightStartTime s) e t He Hwrap).
  unfold trace_of. split_run; cbn; find_event.
Qed.

End TimingFacts.

Lemma no_second_trigger_within_the_cadence_witness :
  (forall s1,
     TRANSMISSION_INTERVAL
     <= u32 (u32 1000 - Rocket.lastTransmissionTime Rocket.initial) ->
     outcome_of bench_respond (Rocket.transmitData Rocket.initial)
       (bench_link [1000] false ESP_ERR_ESPNOW_NO_MEM ESP_OK ESP_OK)
     = Done s1 ->
     u32 (u32 1050 - u32 1000) < TRANSMISSION_INTERVAL ->
     run bench_respond (Rocket.transmitData s1) (bench [1050])
     = ([Ev Millis 1050], Done s1, bench []))
  /\ (SENSOR_READ_INTERVAL
      <= u32 (u32 1000 - Rocket.lastSensorReadTime Rocket.initial) ->
      u32 (u32 1050 - u32 1000) < SENSOR_READ_INTERVAL ->
      exists s1,
        outcome_of bench_respond (Rocket.updateSensorData Rocket.initial)
          (bench_link [1000] false ESP_ERR_ESPNOW_NO_MEM ESP_OK ESP_OK)
        = Done s1
        /\ existsb is_sensor_read
             (trace_of bench_respond (Rocket.updateSensorData s1)
                (bench [1050])) = false).
Proof.
  exact (no_second_trigger_within_the_cadence bench_respond Rocket.initial
           (bench_link [1000] false ESP_ERR_ESPNOW_NO_MEM ESP_OK ESP_OK)
           (bench_link [] false ESP_ERR_ESPNOW_NO_MEM ESP_OK ESP_OK)
           (bench [1050]) (bench []) 1000 1050 eq_refl eq_refl).
Defined.

Lemma cadences_survive_the_counter_wrap_witness :
  existsb is_sensor_read
    (trace_of bench_respond (Rocket.updateSensorData before_wrap) (bench [50]))
  = (SENSOR_READ_INTERVAL <=? 100)
  /\ existsb is_peer_query
       (trace_of bench_respond (Rocket.transmitData before_wrap) (bench [50]))
     = (TRANSMISSION_INTERVAL <=? 100).
Proof.
  apply (cadences_survive_the_counter_wrap bench_respond before_wrap
           (bench [50]) (bench []) 50 100 100); try reflexivity; lia.
Defined.

Lemma duration_survives_the_counter_wrap_witness :
  In (Ev (SerialPrintf "Voo finalizado. Duração: %lu segundos\n"
            [ArgZ (5000 / 1000)]) tt)
    (trace_of bench_respond
       (FlightLog.onEspNowReceive [] end_packet ControlCommand.sizeof
          (FlightLog.mkState FLIGHT_ACTIVE "/flight_log_4294966.csv" true true
             (2 ^ 32 - 1000)))
       (bench [4000])).
Proof.
  apply (duration_survives_the_counter_wrap bench_respond [] end_packet
           (FlightLog.mkState FLIGHT_ACTIVE "/flight_log_4294966.csv" true true
              (2 ^ 32 - 1000))
           (bench [4000]) (bench []) 4000 5000); try reflexivity; lia.
Defined.

(** * The sampling step, field by field *)

Section SamplingFacts.
Context {W : Type} (respond : forall R : Type, io R -> W -> R * W).

Ltac feed :=
  repeat (cbn [bind call millis];
          match goal with
          | H : answers respond ?w ?e ?r ?w'
            |- context [run respond (Vis ?e ?k) ?w] =>
              rewrite (run_Vis respond e k w w' r H)
          | H : answers respond ?w ?e ?r ?w'
            |- context [trace_of respond (Vis ?e ?k) ?w] =>
              rewrite (trace_of_Vis respond e k w w' r H)
          | H : answers respond ?w ?e ?r ?w'
            |- context [outcome_of respond (Vis ?e ?k) ?w] =>
              rewrite (outcome_of_Vis respond e k w w' r H)
          end; cbn beta).

Ltac crank :=
  repeat (cbn [run bind call millis fst snd]; ask respond).

(** A call made while the fusion is still waiting for its first sample
    ([lastUpdateTime] is 0) leaves the angles and every field of the
    record but the flight-unit voltage as they were. *)
Lemma updateSensorData_before_fusion (s : Rocket.State) (w : W) :
  Rocket.lastUpdateTime s = 0 ->
  exists s',
    outcome_of respond (Rocket.updateSensorData s) w = Done s'
    /\ Rocket.pitch s' = Rocket.pitch s
    /\ Rocket.roll s' = Rocket.roll s
    /\ SensorData.acelerometro (Rocket.sensorData s')
       = SensorData.acelerometro (Rocket.sensorData s)
    /\ SensorData.altimetro (Rocket.sensorData s')
       = SensorData.altimetro (Rocket.sensorData s)
    /\ SensorData.gps (Rocket.sensorData s')
       = SensorData.gps (Rocket.sensorData s)
    /\ SensorData.timestamp (Rocket.sensorData s')
       = SensorData.timestamp (Rocket.sensorData s).
Proof.
  intros Hup. unfold Rocket.updateSensorData, outcome_of.
  cbn [run bind call millis]. ask respond. ask respond.
  cbn [run fst snd Rocket.lastSensorReadTime Rocket.set_sensorData].
  destruct (u32 (u32 r - Rocket.lastSensorReadTime s) <? SENSOR_READ_INTERVAL).
  - cbn. eexists. split; [reflexivity|]. repeat split.
  - cbn [run bind call]. ask respond. destruct r1 as [[a g] temp].
    cbn [Rocket.lastUpdateTime Rocket.set_lastSensorReadTime
         Rocket.set_sensorData].
    rewrite Hup. cbn. eexists. split; [reflexivity|]. repeat split.
Qed.

(** X16.  The value 0 of [lastUpdateTime] doubles as the mark of
    "no sample yet".  A fused sample taken when the millisecond counter
    reads 0 (modulo 2^32) therefore stores that mark, and the next call,
    whatever the sensors and the clock answer, is treated as the warm-up
    tick again: the angles, the accelerometer block, the barometer block,
    the GPS block and the timestamp of the record stay as they were. *)
Theorem sample_at_clock_zero_restarts_the_warm_up
    (s : Rocket.State) (w w1 w2 w3 v : W) (t adc : Z) (a g : vec3) (temp : R) :
  answers respond w Millis t w1 ->
  answers respond w1 (AnalogRead Config.Hardware.ADC_PIN) adc w2 ->
  answers respond w2 MpuGetEvent (a, g, temp) w3 ->
  u32 t = 0 ->
  SENSOR_READ_INTERVAL <= u32 (u32 t - Rocket.lastSensorReadTime s) ->
  Rocket.lastUpdateTime s <> 0 ->
  exists s1 s2,
    outcome_of respond (Rocket.updateSensorData s) w = Done s1
    /\ outcome_of respond (Rocket.updateSensorData s1) v = Done s2
    /\ Rocket.pitch s2 = Rocket.pitch s1
    /\ Rocket.roll s2 = Rocket.roll s1
    /\ SensorData.acelerometro (Rocket.sensorData s2)
       = SensorData.acelerometro (Rocket.sensorData s1)
    /\ SensorData.altimetro (Rocket.sensorData s2)
       = SensorData.altimetro (Rocket.sensorData s1)
    /\ SensorData.gps (Rocket.sensorData s2)
       = SensorData.gps (Rocket.sensorData s1)
    /\ SensorData.timestamp (Rocket.sensorData s2)
       = SensorData.timestamp (Rocket.sensorData s1).
Proof.
  intros Ht Ha Hm Hzero Hgate Hup.
  destruct (updateSensorData_fused respond s w w1 w2 w3 t adc a g temp
              Ht Ha Hm Hgate Hup) as (s1 & Ho & _ & _ & _ & Hlast & _).
  rewrite Hzero in Hlast.
  destruct (updateSensorData_before_fusion s1 v Hlast) as (s2 & Ho2 & Hrest).
  exists s1, s2. split; [exact Ho|]. split; [exact Ho2|]. exact Hrest.
Qed.

(** X19.  The battery voltage is refreshed by every call, sampled or
    not, fused or not: a call that reads [adc] from the divider leaves
    [adc / 4095 * 3.3 * 2] volts in the record, which for a 12-bit
    reading lies between 0 and 6.6 V. *)
Theorem battery_voltage_follows_every_call
    (s : Rocket.State) (w w1 w2 : W) (t adc : Z) :
  answers respond w Millis t w1 ->
  answers respond w1 (AnalogRead Config.Hardware.ADC_PIN) adc w2 ->
  0 <= adc <= 4095 ->
  exists s',
    outcome_of respond (Rocket.updateSensorData s) w = Done s'
    /\ voltage_rocket_of s' = (IZR adc * 6.6 / 4095)%R
    /\ (0 <= voltage_rocket_of s' <= 6.6)%R.
Proof.
  intros Ht Ha Hadc.
  assert (Hv : Rocket.tensaoReal adc = (IZR adc * 6.6 / 4095)%R).
  { unfold Rocket.tensaoReal, VREF, Config.Hardware.ADC_MULTIPLIER. lra. }
  assert (Hr : (0 <= IZR adc * 6.6 / 4095 <= 6.6)%R).
  { destruct Hadc as [H0 H1]. apply IZR_le in H0, H1. lra. }
  assert (Hall : exists s',
             outcome_of respond (Rocket.updateSensorData s) w = Done s'
             /\ voltage_rocket_of s' = Rocket.tensaoReal adc).
  { unfold Rocket.updateSensorData. feed.
    cbn [Rocket.lastSensorReadTime Rocket.set_sensorData].
    unfold outcome_of.
    destruct (u32 (u32 t - Rocket.lastSensorReadTime s)
              <? SENSOR_READ_INTERVAL).
    - cbn. eexists. split; reflexivity.
    - cbn [run bind call]. ask respond. destruct r as [[a g] temp].
      cbn [Rocket.lastUpdateTime Rocket.set_lastSensorReadTime
           Rocket.set_sensorData].
      destruct (Rocket.lastUpdateTime s =? 0).
      + cbn. eexists. split; reflexivity.
      + crank. cbn. eexists. split; reflexivity. }
  destruct Hall as (s' & Ho & Hvolt). exists s'.
  split; [exact Ho|]. rewrite Hvolt, Hv. split; [reflexivity|exact Hr].
Qed.


(** X22.  What a fused sample stores of the GPS date and of the pressure.
    The record is filled by position, in the order
    latitude, longitude, altitude, year, month, day, ..., while the
    fields of [GPSData] are declared in the order
    ..., day, month, year, ...: the [day] field receives the year the GPS
    reports and the [year] field the day.  The pressure is stored in
    hectopascal, a hundredth of what the sensor reports. *)
Theorem gps_day_and_year_are_stored_swapped
    (s : Rocket.State) (w w1 : W) (t : Z) :
  answers respond w Millis t w1 ->
  SENSOR_READ_INTERVAL <= u32 (u32 t - Rocket.lastSensorReadTime s) ->
  Rocket.lastUpdateTime s <> 0 ->
  let tr := trace_of respond (Rocket.updateSensorData s) w in
  exists s',
    outcome_of respond (Rocket.updateSensorData s) w = Done s'
    /\ flat_map gps_year_read tr = [GPSData.day (gps_of s')]
    /\ flat_map gps_day_read tr = [GPSData.year (gps_of s')]
    /\ map (fun p => (p / 100.0)%R) (flat_map pressure_read tr)
       = [AltimeterData.pressure (altimetro_of s')].
Proof.
  intros Ht Hgate Hup. cbv zeta.
  assert (Hg : (u32 (u32 t - Rocket.lastSensorReadTime s)
                <? SENSOR_READ_INTERVAL) = false)
    by (apply Z.ltb_ge; exact Hgate).
  apply Z.eqb_neq in Hup.
  unfold Rocket.updateSensorData. feed.
  unfold trace_of, outcome_of.
  cbn [run bind call]. ask respond.
  cbn [run fst snd Rocket.lastSensorReadTime Rocket.set_sensorData].
  rewrite Hg. cbn [run bind call]. ask respond. destruct r0 as [[a g] temp].
  cbn [Rocket.lastUpdateTime Rocket.set_lastSensorReadTime
       Rocket.set_sensorData].
  rewrite Hup. crank. cbn. eexists. repeat split.
Qed.

End SamplingFacts.

Lemma sample_at_clock_zero_restarts_the_warm_up_witness :
  exists s1 s2,
    outcome_of bench_respond
      (Rocket.updateSensorData
         (Rocket.mkState (2 ^ 32 - 100) 0 0 0 SensorData.zero (2 ^ 32 - 100)))
      (bench_sampling [2 ^ 32] 2048 (mk_vec3 0 0 1) (mk_vec3 0 0 0))
    = Done s1
    /\ outcome_of bench_respond (Rocket.updateSensorData s1)
         (bench_sampling [100] 2048 (mk_vec3 0 1 0) (mk_vec3 1 1 1))
       = Done s2
    /\ Rocket.pitch s2 = Rocket.pitch s1
    /\ Rocket.roll s2 = Rocket.roll s1
    /\ SensorData.acelerometro (Rocket.sensorData s2)
       = SensorData.acelerometro (Rocket.sensorData s1)
    /\ SensorData.altimetro (Rocket.sensorData s2)
       = SensorData.altimetro (Rocket.sensorData s1)
    /\ SensorData.gps (Rocket.sensorData s2)
       = SensorData.gps (Rocket.sensorData s1)
    /\ SensorData.timestamp (Rocket.sensorData s2)
       = SensorData.timestamp (Rocket.sensorData s1).
Proof.
  apply (sample_at_clock_zero_restarts_the_warm_up bench_respond
           (Rocket.mkState (2 ^ 32 - 100) 0 0 0 SensorData.zero (2 ^ 32 - 100))
           (bench_sampling [2 ^ 32] 2048 (mk_vec3 0 0 1) (mk_vec3 0 0 0))
           (bench_sampling [] 2048 (mk_vec3 0 0 1) (mk_vec3 0 0 0))
           (bench_sampling [] 2048 (mk_vec3 0 0 1) (mk_vec3 0 0 0))
           (bench_sampling [] 2048 (mk_vec3 0 0 1) (mk_vec3 0 0 0))
           (bench_sampling [100] 2048 (mk_vec3 0 1 0) (mk_vec3 1 1 1))
           (2 ^ 32) 2048 (mk_vec3 0 0 1) (mk_vec3 0 0 0) 0%R).
  - reflexivity.
  - reflexivity.
  - reflexivity.
  - reflexivity.
  - vm_compute. discriminate.
  - cbn. lia.
Defined.

Lemma battery_voltage_follows_every_call_witness :
  exists s',
    outcome_of bench_respond (Rocket.updateSensorData Rocket.initial)
      (bench_sampling [1000] 4095 (mk_vec3 0 0 1) (mk_vec3 0 0 0))
    = Done s'
    /\ voltage_rocket_of s' = (IZR 4095 * 6.6 / 4095)%R
    /\ (0 <= voltage_rocket_of s' <= 6.6)%R.
Proof.
  apply (battery_voltage_follows_every_call bench_respond Rocket.initial
           (bench_sampling [1000] 4095 (mk_vec3 0 0 1) (mk_vec3 0 0 0))
           (bench_sampling [] 4095 (mk_vec3 0 0 1) (mk_vec3 0 0 0))
           (bench_sampling [] 4095 (mk_vec3 0 0 1) (mk_vec3 0 0 0))
           1000 4095).
  - reflexivity.
  - reflexivity.
  - lia.
Defined.


Lemma gps_day_and_year_are_stored_swapped_witness :
  let tr := trace_of bench_respond (Rocket.updateSensorData warmed_up)
              (bench [1100]) in
  exists s',
    outcome_of bench_respond (Rocket.updateSensorData warmed_up) (bench [1100])
    = Done s'
    /\ flat_map gps_year_read tr = [GPSData.day (gps_of s')]
    /\ flat_map gps_day_read tr = [GPSData.year (gps_of s')]
    /\ map (fun p => (p / 100.0)%R) (flat_map pressure_read tr)
       = [AltimeterData.pressure (altimetro_of s')].
Proof.
  apply (gps_day_and_year_are_stored_swapped bench_respond warmed_up
           (bench [1100]) (bench []) 1100).
  - reflexivity.
  - vm_compute. discriminate.
  - cbn. lia.
Defined.

(** * The name of the flight log *)

Lemma to_uint_nonnil (n : N) : N.to_uint n <> Decimal.Nil.
Proof.
  destruct n; [discriminate|]. apply DecimalPos.Unsigned.to_uint_nonnil.
Qed.

Lemma string_length_app (a b : string) :
  String.length (a ++ b) = (String.length a + String.length b)%nat.
Proof. induction a; cbn; [reflexivity|]. rewrite IHa. reflexivity. Qed.

Lemma zeros_length (k : nat) : String.length (zeros k) = k.
Proof. induction k; cbn; [reflexivity|]. rewrite IHk. reflexivity. Qed.

Lemma string_of_uint_length (d : Decimal.uint) :
  String.length (DecimalString.NilEmpty.string_of_uint d)
  = Decimal.nb_digits d.
Proof. induction d; cbn; try rewrite IHd; reflexivity. Qed.

Lemma decimal_length (v : Z) :
  String.length (decimal v) = Decimal.nb_digits (N.to_uint (Z.to_N v)).
Proof.
  unfold decimal. pose proof (to_uint_nonnil (Z.to_N v)) as Hn.
  destruct (N.to_uint (Z.to_N v)) eqn:E; try contradiction;
    apply (string_of_uint_length (_ _)).
Qed.

(** Zero padding does not change the number read back. *)
Lemma read_decimal_zeros (k : nat) (s : string) :
  s <> EmptyString ->
  read_decimal (zeros k ++ s) = read_decimal s.
Proof.
  intros Hs. unfold read_decimal.
  assert (Hne : forall r, r <> EmptyString ->
            DecimalString.NilZero.uint_of_string r
            = DecimalString.NilEmpty.uint_of_string r).
  { intros r Hr. destruct r; [contradiction|reflexivity]. }
  rewrite (Hne s Hs).
  assert (Hk : (zeros k ++ s)%string <> EmptyString).
  { destruct k; cbn; [exact Hs|discriminate]. }
  rewrite (Hne _ Hk). clear Hk.
  induction k; cbn [zeros String.append]; [reflexivity|].
  cbn [DecimalString.NilEmpty.uint_of_string].
  destruct (DecimalString.NilEmpty.uint_of_string (zeros k ++ s)) as [d|];
    destruct (DecimalString.NilEmpty.uint_of_string s) as [d'|];
    cbn in *; try discriminate; try reflexivity.
  exact IHk.
Qed.

Lemma decimal_nonempty (v : Z) : decimal v <> EmptyString.
Proof.
  intros E. apply (f_equal String.length) in E.
  rewrite decimal_length in E. cbn in E.
  apply DecimalFacts.nb_digits_0 in E. exact (to_uint_nonnil _ E).
Qed.

(** ["%06lu"] prints a numeral that reads back as the number printed. *)
Lemma read_decimal_06 (v : Z) :
  read_decimal (decimal_06 v) = Some (Z.to_N v).
Proof.
  unfold decimal_06. cbv zeta.
  rewrite (read_decimal_zeros _ _ (decimal_nonempty v)).
  unfold read_decimal, decimal.
  rewrite (DecimalString.NilZero.usu _ (to_uint_nonnil _)). cbn [option_map].
  rewrite DecimalN.Unsigned.of_to. reflexivity.
Qed.

Lemma usize_nb_digits (d : Decimal.uint) :
  DecimalPos.Unsigned.usize d = N.of_nat (Decimal.nb_digits d).
Proof.
  induction d; cbn [DecimalPos.Unsigned.usize Decimal.nb_digits];
    [reflexivity|..]; rewrite IHd; lia.
Qed.

(** A numeral without leading zero is at least the power of ten of its
    length. *)
Lemma of_uint_lower_bound (d : Decimal.uint) :
  Decimal.unorm d = d ->
  (N.of_uint d = 0 /\ Decimal.nb_digits d = 1%nat)%N
  \/ (10 ^ N.of_nat (Decimal.nb_digits d - 1) <= N.of_uint d)%N.
Proof.
  intros Hnorm.
  assert (Hhead : forall (k : N) (dk d1 : Decimal.uint),
            (1 <= k)%N ->
            DecimalPos.Unsigned.of_lu dk = k ->
            Decimal.rev d = Decimal.revapp d1 dk ->
            Decimal.nb_digits d = S (Decimal.nb_digits d1) ->
            (10 ^ N.of_nat (Decimal.nb_digits d - 1) <= N.of_uint d)%N).
  { intros k dk d1 Hk Hdk Hrev Hlen. unfold N.of_uint.
    rewrite DecimalPos.Unsigned.of_uint_alt, Hrev.
    rewrite DecimalPos.Unsigned.of_lu_revapp, Hdk, usize_nb_digits, Hlen.
    replace (S (Decimal.nb_digits d1) - 1)%nat with (Decimal.nb_digits d1)
      by lia.
    nia. }
  destruct d as [|d1|d1|d1|d1|d1|d1|d1|d1|d1|d1].
  - cbn in Hnorm. discriminate.
  - left. destruct d1; try (split; reflexivity);
      exfalso;
      rewrite DecimalFacts.unorm_D0 in Hnorm;
      match type of Hnorm with
      | Decimal.unorm ?u = _ =>
          assert (Hu : u <> Decimal.Nil) by discriminate;
          pose proof (DecimalFacts.nb_digits_unorm u Hu) as Hle;
          rewrite Hnorm in Hle; cbn [Decimal.nb_digits] in Hle; lia
      end.
  - right. apply (Hhead 1%N (Decimal.D1 Decimal.Nil) d1); try reflexivity; lia.
  - right. apply (Hhead 2%N (Decimal.D2 Decimal.Nil) d1); try reflexivity; lia.
  - right. apply (Hhead 3%N (Decimal.D3 Decimal.Nil) d1); try reflexivity; lia.
  - right. apply (Hhead 4%N (Decimal.D4 Decimal.Nil) d1); try reflexivity; lia.
  - right. apply (Hhead 5%N (Decimal.D5 Decimal.Nil) d1); try reflexivity; lia.
  - right. apply (Hhead 6%N (Decimal.D6 Decimal.Nil) d1); try reflexivity; lia.
  - right. apply (Hhead 7%N (Decimal.D7 Decimal.Nil) d1); try reflexivity; lia.
  - right. apply (Hhead 8%N (Decimal.D8 Decimal.Nil) d1); try reflexivity; lia.
  - right. apply (Hhead 9%N (Decimal.D9 Decimal.Nil) d1); try reflexivity; lia.
Qed.

(** A number below ten million prints in at most seven digits. *)
Lemma decimal_length_bound (v : Z) :
  v < 10 ^ 7 -> (String.length (decimal v) <= 7)%nat.
Proof.
  intros Hv. rewrite decimal_length.
  set (n := Z.to_N v). assert (Hn : (n < 10 ^ 7)%N) by (subst n; lia).
  assert (Hnorm : Decimal.unorm (N.to_uint n) = N.to_uint n).
  { rewrite <- DecimalN.Unsigned.to_of, DecimalN.Unsigned.of_to. reflexivity. }
  destruct (of_uint_lower_bound _ Hnorm) as [[_ H1]|Hlow]; [lia|].
  rewrite DecimalN.Unsigned.of_to in Hlow.
  destruct (Nat.le_gt_cases (Decimal.nb_digits (N.to_uint n)) 7)
    as [Hle|Hgt]; [exact Hle|exfalso].
  assert (Hpow : (10 ^ 7 <= 10 ^ N.of_nat (Decimal.nb_digits (N.to_uint n) - 1))%N).
  { apply N.pow_le_mono_r; lia. }
  lia.
Qed.

Lemma string_app_inv_head (a b c : string) :
  (a ++ b)%string = (a ++ c)%string -> b = c.
Proof.
  induction a; cbn [String.append]; intros H; [exact H|].
  injection H as H. exact (IHa H).
Qed.

Lemma string_app_inv_tail (a b c : string) :
  (a ++ c)%string = (b ++ c)%string -> a = b.
Proof.
  revert b. induction a as [|ch a IH]; intros b H.
  - apply (f_equal String.length) in H.
    rewrite !string_length_app in H. destruct b; [reflexivity|].
    cbn in H. lia.
  - destruct b as [|ch' b].
    + apply (f_equal String.length) in H.
      rewrite !string_length_app in H. cbn in H. lia.
    + cbn [String.append] in H. injection H as Hc H.
      rewrite Hc, (IH b H). reflexivity.
Qed.

Lemma decimal_06_inj (u v : Z) :
  0 <= u -> 0 <= v -> decimal_06 u = decimal_06 v -> u = v.
Proof.
  intros Hu Hv H. apply (f_equal read_decimal) in H.
  rewrite !read_decimal_06 in H. injection H as H. lia.
Qed.

Lemma decimal_06_length_bound (v : Z) :
  v < 10 ^ 7 -> (String.length (decimal_06 v) <= 7)%nat.
Proof.
  intros Hv. pose proof (decimal_length_bound v Hv) as Hd.
  unfold decimal_06. cbv zeta. rewrite string_length_app, zeros_length. lia.
Qed.

Section LogName.
Context {W : Type} (respond : forall R : Type, io R -> W -> R * W).

(** X24.  The name of a flight log.  [generateLogFilename] reads the
    clock once; two calls give the same name exactly when their clock
    readings fall in the same second of the 32-bit millisecond counter,
    so flights begun in different seconds are logged to different files
    and flights begun within one second share a file; and the name,
    with its terminator, always fits the 32-byte buffer it is printed
    into, so it is never cut short. *)
Theorem log_names_are_told_apart_by_the_second
    (w w1 v v1 : W) (t t' : Z) :
  answers respond w Millis t w1 ->
  answers respond v Millis t' v1 ->
  exists name name',
    run respond FlightLog.generateLogFilename w
    = ([Ev Millis t], Done name, w1)
    /\ run respond FlightLog.generateLogFilename v
       = ([Ev Millis t'], Done name', v1)
    /\ (name = name' <-> u32 t / 1000 = u32 t' / 1000)
    /\ Z.of_nat (String.length name) < LOG_FILENAME_BUFFER.
Proof.
  intros Ht Ht'. unfold answers in Ht, Ht'.
  assert (Hrange : forall c, 0 <= u32 c / 1000 < 10 ^ 7).
  { intros c. pose proof (Z.mod_pos_bound c (2 ^ 32) ltac:(lia)) as Hc.
    fold (u32 c) in Hc. split.
    - apply Z.div_pos; lia.
    - apply Z.div_lt_upper_bound; lia. }
  exists ("/flight_log_" ++ decimal_06 (u32 t / 1000) ++ ".csv")%string,
         ("/flight_log_" ++ decimal_06 (u32 t' / 1000) ++ ".csv")%string.
  split; [|split; [|split]].
  - unfold FlightLog.generateLogFilename. cbn [run bind call millis].
    rewrite Ht. reflexivity.
  - unfold FlightLog.generateLogFilename. cbn [run bind call millis].
    rewrite Ht'. reflexivity.
  - split.
    + intros H. apply string_app_inv_head, string_app_inv_tail in H.
      apply decimal_06_inj; [apply Hrange|apply Hrange|exact H].
    + intros H. rewrite H. reflexivity.
  - rewrite !string_length_app.
    pose proof (decimal_06_length_bound (u32 t / 1000)
                  ltac:(apply Hrange)) as Hlen.
    unfold LOG_FILENAME_BUFFER. cbn [String.length]. lia.
Qed.

End LogName.

Lemma log_names_are_told_apart_by_the_second_witness :
  exists name name',
    run bench_respond FlightLog.generateLogFilename (bench [1999])
    = ([Ev Millis 1999], Done name, bench [])
    /\ run bench_respond FlightLog.generateLogFilename (bench [2000])
       = ([Ev Millis 2000], Done name', bench [])
    /\ (name = name' <-> u32 1999 / 1000 = u32 2000 / 1000)
    /\ Z.of_nat (String.length name) < LOG_FILENAME_BUFFER.
Proof.
  apply (log_names_are_told_apart_by_the_second bench_respond
           (bench [1999]) (bench []) (bench [2000]) (bench []) 1999 2000).
  - reflexivity.
  - reflexivity.
Defined.

(** * The ground unit's telemetry receive path *)

Lemma latest_record_app
    (pre post : list (list byte * list byte * Z)) (current : list byte) :
  latest_record (pre ++ post) current
  = latest_record post (latest_record pre current).
Proof.
  revert current. induction pre as [|[[src data] len] pre IH]; intros current;
    cbn [latest_record app]; [reflexivity|]. apply IH.
Qed.

Lemma latest_record_ill_sized
    (post : list (list byte * list byte * Z)) (current : list byte) :
  forallb (fun d => negb (well_sized d)) post = true ->
  latest_record post current = current
  /\ existsb well_sized post = false.
Proof.
  revert current. induction post as [|[[src data] len] post IH];
    intros current H; cbn [latest_record existsb]; [split; reflexivity|].
  cbn [forallb] in H. apply andb_true_iff in H. destruct H as [Hd Hp].
  unfold well_sized in Hd |- *. cbn [snd] in Hd |- *.
  apply negb_true_iff in Hd. rewrite Hd. cbn [orb]. apply IH. exact Hp.
Qed.

Section GroundReceive.
Context {W : Type} (respond : forall R : Type, io R -> W -> R * W).

Ltac crank :=
  repeat (cbn [run bind call fst snd]; ask respond).

(** Any run of deliveries returns, holding the last well-sized buffer,
    and the update flag is raised if there was one. *)
Lemma base_receive_all_outcome
    (deliveries : list (list byte * list byte * Z)) (s : Base.State) (w : W) :
  outcome_of respond (base_receive_all deliveries s) w
  = Done (Base.mkState
            (latest_record deliveries (Base.dadosRecebidos s))
            (Base.dadosAtualizados s || existsb well_sized deliveries)).
Proof.
  revert s w. induction deliveries as [|[[src data] len] rest IH]; intros s w.
  - destruct s. cbn. rewrite orb_false_r. reflexivity.
  - cbn [base_receive_all latest_record existsb].
    rewrite (outcome_of_bind respond).
    unfold well_sized at 1. cbn [snd].
    unfold Base.onEspNowReceive at 1 2.
    destruct (len =? SensorData.sizeof); cbn [negb].
    + unfold outcome_of at 1, world_after. crank. cbn [fst snd].
      rewrite IH. cbn [Base.dadosRecebidos Base.dadosAtualizados orb].
      rewrite orb_true_r. reflexivity.
    + unfold outcome_of at 1, world_after. crank. cbn [fst snd].
      rewrite IH. cbn [orb]. reflexivity.
Qed.

(** X23.  The ground unit holds the last well-sized telemetry record.
    After any run of deliveries, the record is the buffer of the last
    delivery whose reported length is that of a telemetry record, and the
    update flag is raised; deliveries of any other length, before or
    after it, neither replace the record nor touch the flag, and the
    callback never fails to return. *)
Theorem ground_holds_the_last_well_sized_record
    (pre post : list (list byte * list byte * Z)) (src data : list byte)
    (s : Base.State) (w : W) :
  forallb (fun d => negb (well_sized d)) post = true ->
  List.length data = Z.to_nat SensorData.sizeof ->
  outcome_of respond (base_receive_all post s) w = Done s
  /\ outcome_of respond
       (base_receive_all (pre ++ (src, data, SensorData.sizeof) :: post) s) w
     = Done (Base.mkState data true).
Proof.
  intros Hpost Hlen. rewrite !base_receive_all_outcome.
  destruct (latest_record_ill_sized post (Base.dadosRecebidos s) Hpost)
    as [Hrec Hflag].
  split.
  - rewrite Hrec, Hflag, orb_false_r. destruct s. reflexivity.
  - rewrite latest_record_app. cbn [latest_record].
    rewrite Z.eqb_refl.
    destruct (latest_record_ill_sized post
                (firstn (Z.to_nat SensorData.sizeof) data) Hpost) as [Hrec' _].
    rewrite Hrec', <- Hlen, firstn_all.
    rewrite existsb_app. cbn [existsb]. unfold well_sized at 2. cbn [snd].
    rewrite Z.eqb_refl. cbn [orb]. rewrite !orb_true_r. reflexivity.
Qed.

End GroundReceive.

Lemma ground_holds_the_last_well_sized_record_witness :
  outcome_of bench_respond
    (base_receive_all [([], [x01; x02], 2)] Base.initial) (bench [])
  = Done Base.initial
  /\ outcome_of bench_respond
       (base_receive_all
          ([([], repeat x07 92, 92)]
           ++ ([], repeat x2a 92, SensorData.sizeof) :: [([], [x01; x02], 2)])
          Base.initial) (bench [])
     = Done (Base.mkState (repeat x2a 92) true).
Proof.
  apply (ground_holds_the_last_well_sized_record bench_respond
           [([], repeat x07 92, 92)] [([], [x01; x02], 2)] [] (repeat x2a 92)
           Base.initial (bench [])).
  - reflexivity.
  - reflexivity.
Defined.
